(** * Session controller and transport dispatch of the agentbox Python SDK

    A shallow embedding of
      - [agentbox/sandbox_sync/main.py]   (class [Sandbox]),
      - [agentbox/sandbox_async/main.py]  (class [AsyncSandbox]),
      - [agentbox/sandbox/sandbox_api.py] (class [SandboxApiBase]),
    and the properties of the session controller that follow from them.

    Python text is modelled by [string]: a string stands for the [str]
    whose code points are its character codes, so the texts of the model
    are the [str] values over the code points below 256.  On these the
    character operations below are those of Python ([str.lower], and the
    Unicode classes of [re] on a [str] pattern).  A character above 127
    is written by its code, never inside a string literal, where it
    would be read as the bytes of its encoding. *)

From Stdlib Require Import ZArith NArith Ascii String Bool Lia.
From stdpp Require Import gmap strings list fin_maps pretty.

Local Open Scope string_scope.

(** ** Python [str] operations used by the controller *)

Module Text.

Definition code (c : ascii) : N := N_of_ascii c.

Definition between (lo hi : N) (c : ascii) : bool :=
  ((lo <=? code c) && (code c <=? hi))%N.

(** [str.lower] on one character: the upper-case letters below 256,
    [A-Z] and U+00C0 to U+00DE without the multiplication sign U+00D7,
    are shifted by 32. *)
Definition lower_char (c : ascii) : ascii :=
  if between 65 90 c || between 192 214 c || between 216 222 c
  then ascii_of_N (code c + 32) else c.

Fixpoint lower (s : string) : string :=
  match s with
  | EmptyString => EmptyString
  | String c s' => String (lower_char c) (lower s')
  end.

(** [s.startswith(p)] *)
Fixpoint startswith (p s : string) : bool :=
  match p, s with
  | EmptyString, _ => true
  | String a p', String b s' => Ascii.eqb a b && startswith p' s'
  | String _ _, EmptyString => false
  end.

(** [sub in s] *)
Fixpoint contains (sub s : string) : bool :=
  match s with
  | EmptyString => startswith sub EmptyString
  | String _ s' => startswith sub s || contains sub s'
  end.

(** Python truthiness of a [str]: only the empty string is falsy. *)
Definition truthy (s : string) : bool :=
  match s with EmptyString => false | String _ _ => true end.

(** [all(p(c) for c in s)] *)
Fixpoint all (p : ascii -> bool) (s : string) : bool :=
  match s with
  | EmptyString => true
  | String c s' => p c && all p s'
  end.

(** [int(s)] on a string of decimal digits. *)
Definition digit_val (c : ascii) : Z := Z.of_N (code c) - 48.

Fixpoint int_acc (acc : Z) (s : string) : Z :=
  match s with
  | EmptyString => acc
  | String c s' => int_acc (10 * acc + digit_val c) s'
  end.

Definition int (s : string) : Z := int_acc 0 s.

End Text.

(** ** The fragment of Python's [re] the controller relies on

    A backtracking matcher in continuation-passing style: alternatives
    are tried in the order of Python's engine (a greedy repetition takes
    as much as it can and gives back one character at a time, a lazy one
    takes as little as it can), so the first success is the match that
    [re.search] reports. *)

Module Re.

Inductive regex : Type :=
| Lit (c : ascii)                 (* a literal character          *)
| Plus (p : ascii -> bool)        (* [cls+], greedy               *)
| LazyStar (p : ascii -> bool)    (* [cls*?], lazy                *)
| Cat (r1 r2 : regex)             (* concatenation                *)
| Group (i : nat) (r : regex).    (* capture group number [i]     *)

(** Character classes, as [re] decides them for a [str] pattern on the
    code points below 256: [\s] is [str.isspace] (with the separators
    U+001C to U+001F, the next-line control U+0085 and the no-break space
    U+00A0), [\d] is the decimal digits (below 256 only [0-9]), and [\w]
    is [str.isalnum] or the underscore (with the letters, superscript
    digits and fractions of the Latin-1 block). *)
Definition is_space (c : ascii) : bool :=          (* \s *)
  Text.between 9 13 c || Text.between 28 32 c
  || Text.between 133 133 c || Text.between 160 160 c.
Definition is_digit (c : ascii) : bool :=          (* \d *)
  Text.between 48 57 c.
Definition is_word (c : ascii) : bool :=           (* \w *)
  Text.between 48 57 c || Text.between 65 90 c
  || Text.between 97 122 c || Ascii.eqb c "_"
  || Text.between 170 170 c || Text.between 178 179 c
  || Text.between 181 181 c || Text.between 185 186 c
  || Text.between 188 190 c || Text.between 192 214 c
  || Text.between 216 246 c || Text.between 248 255 c.
Definition is_any (c : ascii) : bool :=            (* .  *)
  negb (Ascii.eqb c "010").
Definition not_at_space (c : ascii) : bool :=      (* [^@\s] *)
  negb (Ascii.eqb c "@") && negb (is_space c).
Definition is_hostchar (c : ascii) : bool :=       (* [\w\.-] *)
  is_word c || Ascii.eqb c "." || Ascii.eqb c "-".

Section Matcher.
Context {R : Type}.

Fixpoint plus_greedy (p : ascii -> bool) (s : string)
         (k : string -> option R) : option R :=
  match s with
  | EmptyString => None
  | String c s' =>
      if p c then
        match plus_greedy p s' k with
        | Some r => Some r
        | None => k s'
        end
      else None
  end.

Fixpoint star_lazy (p : ascii -> bool) (s : string)
         (k : string -> option R) : option R :=
  match k s with
  | Some r => Some r
  | None =>
      match s with
      | EmptyString => None
      | String c s' => if p c then star_lazy p s' k else None
      end
  end.

(** The text consumed between input [s] and its suffix [s']. *)
Definition consumed (s s' : string) : string :=
  String.substring 0 (String.length s - String.length s') s.

Fixpoint rmatch (r : regex) (s : string) (g : gmap nat string)
         (k : string -> gmap nat string -> option R) : option R :=
  match r with
  | Lit c =>
      match s with
      | String c' s' => if Ascii.eqb c c' then k s' g else None
      | EmptyString => None
      end
  | Plus p => plus_greedy p s (fun s' => k s' g)
  | LazyStar p => star_lazy p s (fun s' => k s' g)
  | Cat r1 r2 => rmatch r1 s g (fun s' g' => rmatch r2 s' g' k)
  | Group i r1 =>
      rmatch r1 s g (fun s' g' => k s' (<[i := consumed s s']> g'))
  end.
End Matcher.

(** [re.match]: anchored at the start of [s]; the result is the table
    of captured groups. *)
Definition match_ (r : regex) (s : string) : option (gmap nat string) :=
  rmatch r s ∅ (fun _ g => Some g).

(** [re.search]: the leftmost start position that matches. *)
Fixpoint search (r : regex) (s : string) : option (gmap nat string) :=
  match match_ r s with
  | Some g => Some g
  | None =>
      match s with
      | EmptyString => None
      | String _ s' => search r s'
      end
  end.

(** [m.group(i)] *)
Definition group (g : gmap nat string) (i : nat) : string :=
  default EmptyString (g !! i).

End Re.

(** ** Parsing of the SSH connect command

    [pattern = r'ssh\s+-p\s+(\d+).*?\s+([^@\s]+)@([\w\.-]+)'], the same
    literal at every place the controller parses a connect command. *)

Module SshParse.
Import Re.

Infix "⋅⋅" := Cat (at level 60, right associativity).

Definition pattern : regex :=
  Lit "s" ⋅⋅ Lit "s" ⋅⋅ Lit "h" ⋅⋅ Plus is_space ⋅⋅
  Lit "-" ⋅⋅ Lit "p" ⋅⋅ Plus is_space ⋅⋅
  Group 1 (Plus is_digit) ⋅⋅ LazyStar is_any ⋅⋅ Plus is_space ⋅⋅
  Group 2 (Plus not_at_space) ⋅⋅ Lit "@" ⋅⋅ Group 3 (Plus is_hostchar).

Record SshEndpoint : Type := {
  ep_port : Z;
  ep_username : string;
  ep_host : string;
}.

(** [ssh_match = re.search(pattern, connect_command)] followed by the
    three group reads; [None] is the [else] branch that raises. *)
Definition parse (connect_command : string) : option SshEndpoint :=
  match search pattern connect_command with
  | Some m =>
      Some {| ep_port := Text.int (group m 1);
              ep_username := group m 2;
              ep_host := group m 3 |}
  | None => None
  end.

End SshParse.

(** ** [packaging.version.Version]

    A version object is modelled by its tuple of release segments.
    Comparison is the one of the library's comparison key on such
    versions: trailing zero segments are dropped and the tuples are
    compared as Python tuples.  Which strings the library accepts is not
    decided here: the controller reads versions through the parameter
    [parse_version] of its setup, and [parse] below, which reads the
    plain release strings [N(.N)*], is the one of the example setup. *)

Module Packaging.

Record Version : Type := mkVersion { release : list N }.

Definition digit (c : ascii) : N := (Text.code c - 48)%N.

(** Segments of a dotted decimal string; [cur] is the segment being
    read.  [None] is [InvalidVersion]. *)
Fixpoint parse_release (cur : option N) (s : string) : option (list N) :=
  match s with
  | EmptyString =>
      match cur with Some n => Some [n] | None => None end
  | String c s' =>
      if Re.is_digit c then
        parse_release (Some (10 * default 0%N cur + digit c)%N) s'
      else if Ascii.eqb c "." then
        match cur with
        | Some n => cons n <$> parse_release None s'
        | None => None
        end
      else None
  end.

(** [Version(s)] for a plain release string *)
Definition parse (s : string) : option Version :=
  mkVersion <$> parse_release None s.

(** Drop the trailing zeros of a release tuple. *)
Fixpoint strip_zeros (l : list N) : list N :=
  match l with
  | [] => []
  | x :: l' =>
      match strip_zeros l' with
      | [] => if (x =? 0)%N then [] else [x]
      | t => x :: t
      end
  end.

Definition cmpkey (v : Version) : list N := strip_zeros (release v).

(** [a < b] on Python tuples of integers. *)
Fixpoint tuple_ltb (a b : list N) : bool :=
  match a, b with
  | [], [] => false
  | [], _ :: _ => true
  | _ :: _, [] => false
  | x :: a', y :: b' =>
      if (x <? y)%N then true
      else if (y <? x)%N then false
      else tuple_ltb a' b'
  end.

(** [v < w] *)
Definition ltb (v w : Version) : bool := tuple_ltb (cmpkey v) (cmpkey w).

(** [str(v)] *)
Definition to_str (v : Version) : string :=
  String.concat "." (pretty <$> release v).

(** The two constants the controller compares against. *)
Definition V_0_1_5 : Version := mkVersion [0; 1; 5]%N.
Definition V_0_2_4 : Version := mkVersion [0; 2; 4]%N.

End Packaging.

(** ** Exceptions, results and the effect monad *)

Module Py.

Inductive exn : Type :=
| Exception (msg : string)            (* builtins.Exception                *)
| SandboxException (msg : string)     (* agentbox.exceptions               *)
| TimeoutException (msg : string)     (* agentbox.exceptions, see below    *)
| EnvdException (status : Z) (msg : string)
                                      (* decoded from a daemon response    *)
| ApiException (status : Z) (msg : string)
                                      (* raised by the control-plane client *)
| InvalidVersion (s : string)         (* packaging.version                 *)
| TypeError (msg : string)            (* builtins.TypeError                *)
| AttributeError (msg : string)       (* builtins.AttributeError           *)
| KeyError (key : string)             (* builtins.KeyError                 *)
| HttpxTimeoutException               (* httpx.TimeoutException            *)
| HttpxNetworkError (msg : string).   (* any other httpx transport error   *)

Inductive result (A : Type) : Type :=
| Ok (a : A)
| Raise (e : exn).
Arguments Ok {A} a.
Arguments Raise {A} e.

(** A value that is a string, [None], or the API client's [UNSET]
    sentinel. *)
Inductive opt_str : Type :=
| PStr (s : string)
| PNone
| PUnset.

(** [x is not None and not isinstance(x, Unset)] *)
Definition present (x : opt_str) : option string :=
  match x with PStr s => Some s | PNone | PUnset => None end.

(** [a or b] on an optional integer: [None] and [0] are falsy. *)
Definition or_int (a : option Z) (b : Z) : Z :=
  match a with
  | Some n => if (n =? 0)%Z then b else n
  | None => b
  end.

(** [a or b] on an optional string: [None] and [""] are falsy. *)
Definition or_str (a : option string) (b : string) : string :=
  match a with
  | Some s => if Text.truthy s then s else b
  | None => b
  end.

(** [a or False] on an optional boolean. *)
Definition or_false (a : option bool) : bool := default false a.

End Py.
Export Py.

(** ** Data exchanged with the control plane and the daemon *)

(** [ApiParams]: the per-call keyword options. *)
Record ApiParams : Type := {
  api_key : option string;
  domain : option string;
  debug : option bool;
  request_timeout : option Z;
  proxy : option string;
}.

Definition no_params : ApiParams :=
  {| api_key := None; domain := None; debug := None;
     request_timeout := None; proxy := None |}.

(** Modelled from the spec: [agentbox/connection_config.py] is not among
    the sources.  A connection configuration holds the API credential,
    domain, proxy, debug flag, the request-timeout policy and a header
    set. *)
Record ConnectionConfig : Type := {
  cc_api_key : option string;
  cc_domain : option string;
  cc_debug : bool;
  cc_request_timeout : option Z;
  cc_proxy : option string;
  cc_headers : gmap string string;
}.

(** Modelled from the spec: [config.get_api_params] with keyword options [opts], the session-wide
    context with the per-call override of timeout and proxy. *)
Definition get_api_params (c : ConnectionConfig) (opts : ApiParams) : ApiParams :=
  {| api_key := match api_key opts with Some k => Some k | None => cc_api_key c end;
     domain := match domain opts with Some d => Some d | None => cc_domain c end;
     debug := match debug opts with Some d => Some d | None => Some (cc_debug c) end;
     request_timeout :=
       match request_timeout opts with
       | Some t => Some t
       | None => cc_request_timeout c
       end;
     proxy := match proxy opts with Some p => Some p | None => cc_proxy c end |}.

(** [config.headers[k] = v] on the object itself. *)
Definition with_header (c : ConnectionConfig) (k v : string) : ConnectionConfig :=
  {| cc_api_key := cc_api_key c; cc_domain := cc_domain c;
     cc_debug := cc_debug c; cc_request_timeout := cc_request_timeout c;
     cc_proxy := cc_proxy c; cc_headers := <[k := v]> (cc_headers c) |}.

(** Modelled from the spec: [config.get_request_timeout(request_timeout)],
    the caller's override or the configured default. *)
Definition get_request_timeout (c : ConnectionConfig) (t : option Z) : option Z :=
  match t with Some _ => t | None => cc_request_timeout c end.

(** [httpx.Limits] *)
Record Limits : Type := {
  max_keepalive_connections : Z;
  max_connections : Z;
  keepalive_expiry : Z;
}.

(** [SandboxApiBase._limits], the class attribute of
    [agentbox/sandbox/sandbox_api.py]. *)
Definition _limits : Limits :=
  {| max_keepalive_connections := 10;
     max_connections := 20;
     keepalive_expiry := 20 |}.

(** [TransportWithLogger(limits=..., proxy=...)]: every transport object
    owns the connection pool that [transport._pool] denotes. *)
Record Transport : Type := {
  tr_limits : Limits;
  tr_proxy : option string;
}.

(** The dataclass [SandboxInfo]; times are seconds. *)
Record SandboxInfo : Type := {
  si_sandbox_id : string;
  si_template_id : string;
  si_name : option string;
  si_metadata : gmap string string;
  si_started_at : Z;
  si_end_at : Z;
  si_envd_version : option string;
  si_envd_access_token : option string;
}.

(** An attribute of a generated API model ([agentbox/api/client/models],
    not among the sources): the [UNSET] sentinel, a value of the type the
    conversion tests for, or a value of another type. *)
Inductive attr (A : Type) : Type :=
| AUnset
| AVal (a : A)
| AOther.
Arguments AUnset {A}.
Arguments AVal {A} a.
Arguments AOther {A}.

(** [x is not UNSET and isinstance(x, T)], and then [x] *)
Definition attr_value {A} (x : attr A) : option A :=
  match x with AVal a => Some a | AUnset | AOther => None end.

(** The class of an API model, for [isinstance(sandbox, SandboxDetail)]. *)
Inductive ModelClass : Type := ClsListedSandbox | ClsSandboxDetail.

(** What the conversions read of a [ListedSandbox] or [SandboxDetail] API
    model; [am_client_id] is [None] when the object has no attribute
    [client_id], and otherwise the text that the f-string formats the
    attribute to. *)
Record ApiModel : Type := {
  am_class : ModelClass;
  am_sandbox_id : string;
  am_client_id : option string;
  am_template_id : string;
  am_alias : attr string;
  am_metadata : attr (gmap string string);
  am_started_at : Z;
  am_end_at : Z;
  am_envd_version : attr string;
  am_envd_access_token : attr string;
}.

(** [SandboxApiBase._get_sandbox_id] *)
Definition _get_sandbox_id (sandbox_id client_id : string) : string :=
  sandbox_id +:+ "-" +:+ client_id.

(** [SandboxInfo._from_sandbox_data] *)
Definition _from_sandbox_data (sandbox : ApiModel)
           (envd_access_token : option string) : SandboxInfo :=
  let sandbox_id :=
    match am_client_id sandbox with
    | Some client_id => am_sandbox_id sandbox +:+ "-" +:+ client_id
    | None => am_sandbox_id sandbox
    end in
  {| si_sandbox_id := sandbox_id;
     si_template_id := am_template_id sandbox;
     si_name := attr_value (am_alias sandbox);
     si_metadata := default ∅ (attr_value (am_metadata sandbox));
     si_started_at := am_started_at sandbox;
     si_end_at := am_end_at sandbox;
     si_envd_version :=
       match am_class sandbox with
       | ClsSandboxDetail => attr_value (am_envd_version sandbox)
       | ClsListedSandbox => None
       end;
     si_envd_access_token := envd_access_token |}.

(** [SandboxInfo._from_listed_sandbox] *)
Definition _from_listed_sandbox (listed_sandbox : ApiModel) : SandboxInfo :=
  _from_sandbox_data listed_sandbox None.

(** [SandboxInfo._from_sandbox_detail] *)
Definition _from_sandbox_detail (sandbox_detail : ApiModel) : SandboxInfo :=
  _from_sandbox_data sandbox_detail
                     (attr_value (am_envd_access_token sandbox_detail)).

(** Response of the create call. *)
Record SandboxCreateResponse : Type := {
  cr_sandbox_id : string;
  cr_envd_version : option string;
  cr_envd_access_token : opt_str;
}.

(** Response of the connect and resume calls. *)
Record ConnectResponse : Type := {
  co_envd_version : option string;
  co_envd_access_token : opt_str;
}.

(** Response of the SSH-credentials call. *)
Record SSHInfo : Type := {
  connect_command : string;
  auth_password : string;
}.

Record SandboxMetrics : Type := {
  m_timestamp : Z;
  m_cpu_used_pct : Z;
  m_mem_used : Z;
  m_disk_used : option Z;
}.

Record CreateRequest : Type := {
  rq_template : string;
  rq_timeout : Z;
  rq_auto_pause : bool;
  rq_metadata : option (gmap string string);
  rq_env_vars : option (gmap string string);
  rq_secure : bool;
}.

(** A request sent through an [httpx.Client] and its response. *)
Record Request : Type := {
  req_base_url : string;
  req_route : string;
  req_headers : gmap string string;
  req_timeout : option Z;
}.

Record Response : Type := {
  status_code : Z;
  body : string;
}.

(** One network round trip: what was asked and what came back. *)
Inductive Exchange : Type :=
| XCreate (rq : CreateRequest) (p : ApiParams) (r : result SandboxCreateResponse)
| XGetInfo (sandbox_id : string) (p : ApiParams) (r : result SandboxInfo)
| XGetSsh (sandbox_id : string) (p : ApiParams) (r : result SSHInfo)
| XConnect (sandbox_id : string) (timeout : Z) (p : ApiParams)
           (r : result ConnectResponse)
| XResume (sandbox_id : string) (auto_pause : bool) (timeout : Z)
          (p : ApiParams) (r : result ConnectResponse)
| XKill (sandbox_id : string) (p : ApiParams) (r : result bool)
| XSetTimeout (sandbox_id : string) (timeout : Z) (p : ApiParams) (r : result unit)
| XPause (sandbox_id : string) (p : ApiParams) (r : result bool)
| XGetMetrics (sandbox_id : string) (start end_ : option Z) (p : ApiParams)
              (r : result (list SandboxMetrics))
| XHealth (rq : Request) (r : result Response).

(** ** The remote side

    Everything behind the network is a state of some type [CP] together
    with one transition per operation.  The controller is written against
    this interface; [agentbox/sandbox_sync/sandbox_api.py], its async twin,
    [agentbox/envd/api.py] and [agentbox/sandbox/main.py] are not among the
    sources. *)

Class Remote (CP : Type) : Type := {
  remote_create : CreateRequest -> ApiParams -> CP -> result SandboxCreateResponse * CP;
  remote_get_info : string -> ApiParams -> CP -> result SandboxInfo * CP;
  remote_get_ssh : string -> ApiParams -> CP -> result SSHInfo * CP;
  remote_connect : string -> Z -> ApiParams -> CP -> result ConnectResponse * CP;
  remote_resume : string -> bool -> Z -> ApiParams -> CP -> result ConnectResponse * CP;
  remote_kill : string -> ApiParams -> CP -> result bool * CP;
  remote_set_timeout : string -> Z -> ApiParams -> CP -> result unit * CP;
  remote_pause : string -> ApiParams -> CP -> result bool * CP;
  remote_get_metrics :
    string -> option Z -> option Z -> ApiParams -> CP -> result (list SandboxMetrics) * CP;
  remote_health : Request -> CP -> result Response * CP;
}.

(** ** Keyword options of the two constructors *)

(** [envd_version] is passed as a string or as a [Version] object. *)
Inductive version_arg : Type :=
| VerStr (s : string)
| VerObj (v : Packaging.Version).

(** [SandboxOpts] / [AsyncSandboxOpts] together with the [ApiParams]
    that travel in the same keyword dictionary; an absent key reads as
    [None]. *)
Record SandboxOpts : Type := {
  o_sandbox_id : option string;
  o_connection_config : option nat;
  o_envd_version : option version_arg;
  o_envd_access_token : opt_str;
  o_ssh_host : option string;
  o_ssh_port : option Z;
  o_ssh_username : option string;
  o_ssh_password : option string;
  o_api : ApiParams;
}.

(** What the controller uses of code that is not among the sources: of
    [SandboxSetup] and the other classes before [SandboxApiBase] in the
    method resolution order, of the daemon helpers, of
    [ConnectionConfig] and of the installed [packaging] release.  The
    controller is written against these parameters. *)
Class SandboxSetup : Type := {
  default_template : string;
  default_sandbox_timeout : Z;
  envd_port : Z;
  (** [self.get_host(port)], from the identity and the configuration *)
  get_host : string -> ConnectionConfig -> Z -> string;
  ENVD_API_HEALTH_ROUTE : string;
  (** [handle_envd_api_exception(r)]: the typed error of a response, if any *)
  handle_envd_api_exception : Response -> option exn;
  (** what [self._limits] resolves to on a [Sandbox] or [AsyncSandbox]:
      the attribute of the first class in the method resolution order
      that defines it, [SandboxApiBase._limits] if no earlier class does *)
  self_limits : Limits;
  (** the header set of a [ConnectionConfig] built with
      [extra_sandbox_headers=h] and the keyword options [opts] *)
  new_headers : gmap string string -> ApiParams -> gmap string string;
  (** [ConnectionConfig] called with all keyword options of the sync
      constructor: the exception it raises, if it raises one (as Python
      does for a keyword that the callee does not take) *)
  config_rejects : SandboxOpts -> option exn;
  (** [Version(s)] for a [str]: the version object, [None] where the
      library raises [InvalidVersion] *)
  parse_version : string -> option Packaging.Version;
  (** the exception that [Version(None)] raises *)
  version_of_none : exn;
}.

(** Modelled from the spec: [ConnectionConfig] called with
    [extra_sandbox_headers] and keyword options [opts]. *)
Definition ConnectionConfig_new `{SandboxSetup}
           (extra_sandbox_headers : gmap string string)
           (opts : ApiParams) : ConnectionConfig :=
  {| cc_api_key := api_key opts;
     cc_domain := domain opts;
     cc_debug := default false (debug opts);
     cc_request_timeout := request_timeout opts;
     cc_proxy := proxy opts;
     cc_headers := new_headers extra_sandbox_headers opts |}.

(** Modelled from the spec: [agentbox/exceptions.py] is not among the
    sources; a request timeout is reported by a timeout error of its own
    kind. *)
Definition format_request_timeout_error : exn :=
  TimeoutException "Request timed out".

(** ** The process state and the effect monad *)

Section Effects.
Context {CP : Type}.

Record World : Type := mkWorld {
  remote : CP;                         (* the remote side                    *)
  net : list Exchange;                 (* round trips so far, oldest first   *)
  logged : list string;                (* [logger.warning] records           *)
  configs : list ConnectionConfig;     (* the [ConnectionConfig] objects     *)
  transports : list Transport;         (* the transport objects              *)
}.

Definition M (A : Type) : Type := World -> result A * World.

Definition ret {A} (a : A) : M A := fun w => (Ok a, w).
Definition raise {A} (e : exn) : M A := fun w => (Raise e, w).
Definition bind {A B} (m : M A) (f : A -> M B) : M B :=
  fun w =>
    match m w with
    | (Ok a, w') => f a w'
    | (Raise e, w') => (Raise e, w')
    end.

(** [try: m  except httpx.TimeoutException: raise e] *)
Definition except_httpx_timeout {A} (m : M A) (e : exn) : M A :=
  fun w =>
    match m w with
    | (Raise HttpxTimeoutException, w') => (Raise e, w')
    | other => other
    end.

(** One round trip: run the remote transition and record the exchange. *)
Definition round_trip {A} (op : CP -> result A * CP)
           (record : result A -> Exchange) : M A :=
  fun w =>
    let '(r, cp') := op (remote w) in
    (r, mkWorld cp' (net w ++ [record r]) (logged w) (configs w) (transports w)).

(** [logger.warning(msg)] *)
Definition warning (msg : string) : M unit :=
  fun w => (Ok tt, mkWorld (remote w) (net w) (logged w ++ [msg])
                           (configs w) (transports w)).

(** A new [ConnectionConfig] object; the result is its reference. *)
Definition new_config (c : ConnectionConfig) : M nat :=
  fun w => (Ok (length (configs w)),
            mkWorld (remote w) (net w) (logged w) (configs w ++ [c]) (transports w)).

(** Reading through a reference. *)
Definition get_config (ref : nat) : M ConnectionConfig :=
  fun w =>
    match configs w !! ref with
    | Some c => (Ok c, w)
    | None => (Raise (Exception "dangling ConnectionConfig reference"), w)
    end.

(** [config.headers[k] = v] *)
Definition set_header (ref : nat) (k v : string) : M unit :=
  fun w =>
    match configs w !! ref with
    | Some c =>
        (Ok tt, mkWorld (remote w) (net w) (logged w)
                        (<[ref := with_header c k v]> (configs w)) (transports w))
    | None => (Raise (Exception "dangling ConnectionConfig reference"), w)
    end.

(** A new transport object; the result is its reference. *)
Definition new_transport (t : Transport) : M nat :=
  fun w => (Ok (length (transports w)),
            mkWorld (remote w) (net w) (logged w) (configs w) (transports w ++ [t])).

End Effects.
Arguments World : clear implicits.
Arguments M : clear implicits.

Notation "'let!' x ':=' m 'in' k" := (bind m (fun x => k))
  (at level 10, x name, m at level 100, k at level 200,
   format "'[v' 'let!'  x  :=  m  'in' '/' k ']'").
Notation "'let!' ( x , y ) ':=' m 'in' k" :=
  (bind m (fun p => let '(x, y) := p in k))
  (at level 10, x name, y name, m at level 100, k at level 200).
Notation "'let!' ( x , y , z ) ':=' m 'in' k" :=
  (bind m (fun p => let '(x, y, z) := p in k))
  (at level 10, x name, y name, z name, m at level 100, k at level 200).
Notation "'let!' ( x , y , z , t ) ':=' m 'in' k" :=
  (bind m (fun p => let '(x, y, z, t) := p in k))
  (at level 10, x name, y name, z name, t name, m at level 100, k at level 200).
Notation "'run!' m 'in' k" := (bind m (fun _ => k))
  (at level 10, m at level 100, k at level 200,
   format "'[v' 'run!'  m  'in' '/' k ']'").

(** ** The control-plane client

    [SandboxApi.<op>(...)]: one round trip each. *)

Module SandboxApi.
Section Ops.
Context {CP : Type} `{Remote CP}.

Definition _create_sandbox (rq : CreateRequest) (p : ApiParams)
  : M CP SandboxCreateResponse :=
  round_trip (remote_create rq p) (XCreate rq p).

Definition _cls_get_info (sandbox_id : string) (p : ApiParams)
  : M CP SandboxInfo :=
  round_trip (remote_get_info sandbox_id p) (XGetInfo sandbox_id p).

Definition _get_ssh (sandbox_id : string) (p : ApiParams) : M CP SSHInfo :=
  round_trip (remote_get_ssh sandbox_id p) (XGetSsh sandbox_id p).

Definition _cls_connect (sandbox_id : string) (timeout : Z) (p : ApiParams)
  : M CP ConnectResponse :=
  round_trip (remote_connect sandbox_id timeout p) (XConnect sandbox_id timeout p).

Definition _cls_resume (sandbox_id : string) (auto_pause : bool)
           (timeout : Z) (p : ApiParams) : M CP ConnectResponse :=
  round_trip (remote_resume sandbox_id auto_pause timeout p)
             (XResume sandbox_id auto_pause timeout p).

Definition _cls_kill (sandbox_id : string) (p : ApiParams) : M CP bool :=
  round_trip (remote_kill sandbox_id p) (XKill sandbox_id p).

Definition _cls_set_timeout (sandbox_id : string) (timeout : Z)
           (p : ApiParams) : M CP unit :=
  round_trip (remote_set_timeout sandbox_id timeout p)
             (XSetTimeout sandbox_id timeout p).

Definition _cls_pause (sandbox_id : string) (p : ApiParams) : M CP bool :=
  round_trip (remote_pause sandbox_id p) (XPause sandbox_id p).

Definition _cls_get_metrics (sandbox_id : string) (start end_ : option Z)
           (p : ApiParams) : M CP (list SandboxMetrics) :=
  round_trip (remote_get_metrics sandbox_id start end_ p)
             (XGetMetrics sandbox_id start end_ p).
End Ops.
End SandboxApi.

(** ** Execution surfaces

    The surface objects are recorded with the arguments they are built
    from; which class was instantiated is the constructor. *)

(** [httpx.Client(base_url=..., transport=..., headers=...)]; the client
    keeps its own copy of the headers. *)
Record Client : Type := {
  cl_base_url : string;
  cl_transport : nat;
  cl_headers : gmap string string;
}.

Record SshArgs : Type := {
  sa_host : option string;
  sa_port : option Z;
  sa_username : option string;
  sa_password : option string;
  sa_config : nat;
}.

Inductive CommandsObj : Type :=
| Commands (envd_api_url : string) (config : nat) (pool : nat)
| SSHCommands2 (a : SshArgs).

Inductive FilesystemObj : Type :=
| Filesystem (envd_api_url : string)
             (envd_version : option (Packaging.Version + string))
             (config : nat) (pool : nat) (envd_api : Client)
| SSHFilesystem (a : SshArgs) (commands watch_commands : CommandsObj).

Inductive PtyObj : Type :=
| Pty (envd_api_url : string) (config : nat) (pool : nat).

Inductive ADBShellObj : Type :=
| ADBShell (config : nat) (sandbox_id : string).

(** ** The session object

    One record for the attributes of a [Sandbox] and of an [AsyncSandbox];
    an attribute that a constructor never assigns is [None]. *)
Record Session : Type := {
  _sandbox_id : string;
  _connection_config : nat;
  _envd_version : option (option Packaging.Version);
  _envd_access_token : opt_str;
  _ssh_host : option string;
  _ssh_port : option Z;
  _ssh_username : option string;
  _ssh_password : option string;
  _transport : option nat;
  _envd_api_url : option string;
  _envd_api : option Client;
  _filesystem : FilesystemObj;
  _commands : CommandsObj;
  _watch_commands : option CommandsObj;
  _pty : option PtyObj;
  _adb_shell : option ADBShellObj;
}.

(** The two sets of execution surfaces. *)
Definition is_ssh_commands (c : CommandsObj) : bool :=
  match c with SSHCommands2 _ => true | Commands _ _ _ => false end.
Definition is_ssh_filesystem (f : FilesystemObj) : bool :=
  match f with SSHFilesystem _ _ _ => true | Filesystem _ _ _ _ _ => false end.

(** SSH commands, SSH filesystem and ADB shell, and nothing of the HTTP set. *)
Definition ssh_surfaces (s : Session) : bool :=
  is_ssh_commands (_commands s) && is_ssh_filesystem (_filesystem s)
  && bool_decide (is_Some (_adb_shell s))
  && bool_decide (_pty s = None) && bool_decide (_envd_api s = None).

(** HTTP filesystem, commands and pty, and nothing of the SSH set. *)
Definition http_surfaces (s : Session) : bool :=
  negb (is_ssh_commands (_commands s)) && negb (is_ssh_filesystem (_filesystem s))
  && bool_decide (is_Some (_pty s)) && bool_decide (is_Some (_envd_api s))
  && bool_decide (_adb_shell s = None) && bool_decide (_watch_commands s = None).

(** ["brd" in sandbox_id.lower()] *)
Definition is_brd (sandbox_id : string) : bool :=
  Text.contains "brd" (Text.lower sandbox_id).

Definition msg_existing : string :=
  "Cannot set metadata or timeout when connecting to an existing sandbox. Use Sandbox.connect method instead.".
Definition msg_parse : string := "Could not parse SSH connection details".
Definition msg_no_metrics : string :=
  "Metrics are not supported in this version of the sandbox, please rebuild your template.".
Definition msg_no_disk : string :=
  "Disk metrics are not supported in this version of the sandbox, please rebuild the template to get disk metrics.".
Definition msg_no_pty : string :=
  "PTY is not available for this sandbox type. PTY is only available for standard sandboxes, not SSH-based sandboxes.".

(** Steps that the sync and the async controller spell out identically. *)
Section Common.
Context {CP : Type} `{Remote CP} `{SandboxSetup}.

(** [Version(s)] *)
Definition Version (s : string) : M CP Packaging.Version :=
  match parse_version s with
  | Some v => ret v
  | None => raise (InvalidVersion s)
  end.

(** [Version(x) if isinstance(x, str) else x] for an [x] that is not [None] *)
Definition version_of_arg (x : version_arg) : M CP Packaging.Version :=
  match x with
  | VerStr s => Version s
  | VerObj v => ret v
  end.

(** [Version(r.envd_version) if r.envd_version else None] *)
Definition version_if_truthy (x : option string)
  : M CP (option Packaging.Version) :=
  match x with
  | Some s =>
      if Text.truthy s then (let! v := Version s in ret (Some v)) else ret None
  | None => ret None
  end.

(** The [re.search] on the connect command with its [if]/[else]. *)
Definition parse_ssh_info (ssh_info : SSHInfo)
  : M CP (Z * string * string * string) :=
  match SshParse.parse (connect_command ssh_info) with
  | Some ep =>
      ret (SshParse.ep_port ep, SshParse.ep_username ep, SshParse.ep_host ep,
           auth_password ssh_info)
  | None => raise (Exception msg_parse)
  end.

(** [f"{'http' if debug else 'https'}://{self.get_host(self.envd_port)}"] *)
Definition envd_url (sandbox_id : string) (cfg : ConnectionConfig) : string :=
  (if cc_debug cfg then "http" else "https") +:+ "://"
  +:+ get_host sandbox_id cfg envd_port.

(** The headers dictionary for an optional access token. *)
Definition token_headers (tok : opt_str) : gmap string string :=
  match present tok with
  | Some t => {[ "X-Access-Token" := t ]}
  | None => ∅
  end.

Definition opt_str_of (x : option string) : opt_str :=
  match x with Some s => PStr s | None => PNone end.

(** [self._envd_api.get(route, timeout=t)] *)
Definition client_get (api : Client) (route : string) (t : option Z)
  : M CP Response :=
  let rq := {| req_base_url := cl_base_url api; req_route := route;
               req_headers := cl_headers api; req_timeout := t |} in
  round_trip (remote_health rq) (XHealth rq).

(** [self._envd_version and self._envd_version < Version(c)] *)
Definition version_below (self : Session) (c : Packaging.Version) : M CP bool :=
  match _envd_version self with
  | None => raise (AttributeError "_envd_version")
  | Some None => ret false
  | Some (Some v) => ret (Packaging.ltb v c)
  end.

End Common.

(** ** [agentbox/sandbox_sync/main.py]: class [Sandbox] *)

Module Sandbox.
Section Sync.
Context {CP : Type} `{Remote CP} `{SandboxSetup}.

(** [Sandbox.__init__] *)
Definition __init__ (template : option string) (timeout : option Z)
           (metadata envs : option (gmap string string))
           (secure : option bool) (opts : SandboxOpts) : M CP Session :=
  let sandbox_id := o_sandbox_id opts in
  let connection_config := o_connection_config opts in
  if match sandbox_id with Some s => Text.truthy s | None => false end
     && (bool_decide (is_Some metadata) || bool_decide (is_Some template))
  then raise (SandboxException msg_existing)
  else
    (* Initialize connection config *)
    let! config :=
      match connection_config with
      | Some c => ret c
      | None =>
          match config_rejects opts with
          | Some e => raise e
          | None => new_config (ConnectionConfig_new ∅ (o_api opts))
          end
      end in
    (* Set attributes from opts if provided *)
    let! envd_version :=
      match o_envd_version opts with
      | Some x => (let! v := version_of_arg x in ret (Some v))
      | None => ret None
      end in
    let envd_access_token := o_envd_access_token opts in
    let! cfg := get_config config in
    let! (id, version, token, ssh) :=
      if cc_debug cfg then
        ret ("debug_sandbox_id", None, PNone,
             (Some "127.0.0.1", Some 22%Z, Some "debug", Some "debug"))
      else
        match sandbox_id with
        | Some sid =>
            let! response :=
              SandboxApi._cls_get_info sid (get_api_params cfg no_params) in
            let! version :=
              match envd_version with
              | None => version_if_truthy (si_envd_version response)
              | Some v => ret (Some v)
              end in
            let token :=
              match envd_access_token with
              | PNone => opt_str_of (si_envd_access_token response)
              | t => t
              end in
            run! match si_envd_access_token response with
                 | Some t => set_header config "X-Access-Token" t
                 | None => ret tt
                 end in
            ret (sid, version, token,
                 (o_ssh_host opts, o_ssh_port opts,
                  o_ssh_username opts, o_ssh_password opts))
        | None =>
            let template := or_str template default_template in
            let timeout := or_int timeout default_sandbox_timeout in
            let! response :=
              SandboxApi._create_sandbox
                {| rq_template := template; rq_timeout := timeout;
                   rq_auto_pause := false; rq_metadata := metadata;
                   rq_env_vars := envs; rq_secure := or_false secure |}
                (o_api opts) in
            let! version :=
              match envd_version with
              | None => version_if_truthy (cr_envd_version response)
              | Some v => ret (Some v)
              end in
            match present (cr_envd_access_token response) with
            | Some t =>
                let token :=
                  match envd_access_token with
                  | PNone => cr_envd_access_token response
                  | t0 => t0
                  end in
                run! set_header config "X-Access-Token" t in
                ret (cr_sandbox_id response, version, token,
                     (o_ssh_host opts, o_ssh_port opts,
                      o_ssh_username opts, o_ssh_password opts))
            | None =>
                ret (cr_sandbox_id response, version, envd_access_token,
                     (o_ssh_host opts, o_ssh_port opts,
                      o_ssh_username opts, o_ssh_password opts))
            end
        end in
    let! cfg := get_config config in
    let! transport :=
      new_transport {| tr_limits := self_limits; tr_proxy := cc_proxy cfg |} in
    if is_brd id then
      let! ssh_info := SandboxApi._get_ssh id (get_api_params cfg no_params) in
      let! (port, username, host, password) := parse_ssh_info ssh_info in
      let a := {| sa_host := Some host; sa_port := Some port;
                  sa_username := Some username; sa_password := Some password;
                  sa_config := config |} in
      ret {| _sandbox_id := id; _connection_config := config;
             _envd_version := Some version; _envd_access_token := token;
             _ssh_host := Some host; _ssh_port := Some port;
             _ssh_username := Some username; _ssh_password := Some password;
             _transport := Some transport;
             _envd_api_url := None; _envd_api := None;
             _filesystem := SSHFilesystem a (SSHCommands2 a) (SSHCommands2 a);
             _commands := SSHCommands2 a;
             _watch_commands := Some (SSHCommands2 a);
             _pty := None;
             _adb_shell := Some (ADBShell config id) |}
    else
      let url := envd_url id cfg in
      let api := {| cl_base_url := url; cl_transport := transport;
                    cl_headers := cc_headers cfg |} in
      ret {| _sandbox_id := id; _connection_config := config;
             _envd_version := Some version; _envd_access_token := token;
             _ssh_host := ssh.1.1.1; _ssh_port := ssh.1.1.2;
             _ssh_username := ssh.1.2; _ssh_password := ssh.2;
             _transport := Some transport;
             _envd_api_url := Some url; _envd_api := Some api;
             _filesystem := Filesystem url (inl <$> version) config transport api;
             _commands := Commands url config transport;
             _watch_commands := None;
             _pty := Some (Pty url config transport);
             _adb_shell := None |}.

(** [cls(...)]: the constructor called with keyword options only. *)
Definition cls (opts : SandboxOpts) : M CP Session :=
  __init__ None None None None None opts.

(** [Sandbox.is_running] *)
Definition is_running (self : Session) (request_timeout : option Z)
  : M CP bool :=
  match _envd_api self with
  | None => ret true
  | Some api =>
      except_httpx_timeout
        (let! cfg := get_config (_connection_config self) in
         let! r := client_get api ENVD_API_HEALTH_ROUTE
                              (get_request_timeout cfg request_timeout) in
         if (status_code r =? 502)%Z then ret false
         else
           match handle_envd_api_exception r with
           | Some err => raise err
           | None => ret true
           end)
        format_request_timeout_error
  end.

(** [Sandbox._cls_connect] *)
Definition _cls_connect (sandbox_id : string) (timeout : option Z)
           (opts : ApiParams) : M CP Session :=
  if is_brd sandbox_id then
    let! sandbox_info := SandboxApi._cls_get_info sandbox_id opts in
    let! connection_config := new_config (ConnectionConfig_new ∅ opts) in
    let! ssh_info := SandboxApi._get_ssh sandbox_id opts in
    let! (ssh_port, ssh_username, ssh_host, ssh_password) :=
      parse_ssh_info ssh_info in
    cls {| o_sandbox_id := Some sandbox_id;
           o_connection_config := Some connection_config;
           o_envd_version := VerStr <$> si_envd_version sandbox_info;
           o_envd_access_token := opt_str_of (si_envd_access_token sandbox_info);
           o_ssh_host := Some ssh_host; o_ssh_port := Some ssh_port;
           o_ssh_username := Some ssh_username;
           o_ssh_password := Some ssh_password;
           o_api := no_params |}
  else
    let timeout := or_int timeout default_sandbox_timeout in
    let! sandbox := SandboxApi._cls_connect sandbox_id timeout opts in
    let envd_access_token := co_envd_access_token sandbox in
    let connection_headers := token_headers envd_access_token in
    let! connection_config :=
      new_config (ConnectionConfig_new connection_headers opts) in
    cls {| o_sandbox_id := Some sandbox_id;
           o_connection_config := Some connection_config;
           o_envd_version := VerStr <$> co_envd_version sandbox;
           o_envd_access_token := envd_access_token;
           o_ssh_host := None; o_ssh_port := None;
           o_ssh_username := None; o_ssh_password := None;
           o_api := no_params |}.

(** [Sandbox._cls_resume] *)
Definition _cls_resume (sandbox_id : string) (auto_pause : bool)
           (timeout : option Z) (opts : ApiParams) : M CP Session :=
  if is_brd sandbox_id then
    let! sandbox_info := SandboxApi._cls_get_info sandbox_id opts in
    let! connection_config := new_config (ConnectionConfig_new ∅ opts) in
    let! ssh_info := SandboxApi._get_ssh sandbox_id opts in
    let! (ssh_port, ssh_username, ssh_host, ssh_password) :=
      parse_ssh_info ssh_info in
    cls {| o_sandbox_id := Some sandbox_id;
           o_connection_config := Some connection_config;
           o_envd_version := VerStr <$> si_envd_version sandbox_info;
           o_envd_access_token := opt_str_of (si_envd_access_token sandbox_info);
           o_ssh_host := Some ssh_host; o_ssh_port := Some ssh_port;
           o_ssh_username := Some ssh_username;
           o_ssh_password := Some ssh_password;
           o_api := no_params |}
  else
    let timeout := or_int timeout default_sandbox_timeout in
    let! sandbox := SandboxApi._cls_resume sandbox_id auto_pause timeout opts in
    let envd_access_token := co_envd_access_token sandbox in
    let connection_headers := token_headers envd_access_token in
    let! connection_config :=
      new_config (ConnectionConfig_new connection_headers opts) in
    cls {| o_sandbox_id := Some sandbox_id;
           o_connection_config := Some connection_config;
           o_envd_version := VerStr <$> co_envd_version sandbox;
           o_envd_access_token := envd_access_token;
           o_ssh_host := None; o_ssh_port := None;
           o_ssh_username := None; o_ssh_password := None;
           o_api := no_params |}.

(** [Sandbox._create] *)
Definition _create (template : option string) (timeout : option Z)
           (auto_pause : bool) (metadata envs : option (gmap string string))
           (secure : bool) (opts : ApiParams) : M CP Session :=
  let! (sandbox_id, envd_version, envd_access_token) :=
    if default false (debug opts) then ret ("debug_sandbox_id", None, PNone)
    else
      let! response :=
        SandboxApi._create_sandbox
          {| rq_template := or_str template default_template;
             rq_timeout := or_int timeout default_sandbox_timeout;
             rq_auto_pause := auto_pause; rq_metadata := metadata;
             rq_env_vars := envs; rq_secure := secure |}
          opts in
      let! envd_version :=
        match cr_envd_version response with
        | Some s => Version s
        | None => raise version_of_none
        end in
      ret (cr_sandbox_id response, Some (VerObj envd_version),
           cr_envd_access_token response) in
  let extra_sandbox_headers := token_headers envd_access_token in
  let! connection_config :=
    new_config (ConnectionConfig_new extra_sandbox_headers opts) in
  if is_brd sandbox_id then
    let! cfg := get_config connection_config in
    let! ssh_info := SandboxApi._get_ssh sandbox_id (get_api_params cfg no_params) in
    let! (ssh_port, ssh_username, ssh_host, ssh_password) :=
      parse_ssh_info ssh_info in
    cls {| o_sandbox_id := Some sandbox_id;
           o_connection_config := Some connection_config;
           o_envd_version := envd_version;
           o_envd_access_token := envd_access_token;
           o_ssh_host := Some ssh_host; o_ssh_port := Some ssh_port;
           o_ssh_username := Some ssh_username;
           o_ssh_password := Some ssh_password;
           o_api := no_params |}
  else
    cls {| o_sandbox_id := Some sandbox_id;
           o_connection_config := Some connection_config;
           o_envd_version := envd_version;
           o_envd_access_token := envd_access_token;
           o_ssh_host := None; o_ssh_port := None;
           o_ssh_username := None; o_ssh_password := None;
           o_api := no_params |}.

(** [Sandbox.beta_create] *)
Definition beta_create (template : option string) (timeout : option Z)
           (auto_pause : bool) (metadata envs : option (gmap string string))
           (secure : option bool) (opts : ApiParams) : M CP Session :=
  let template := Some (or_str template default_template) in
  _create template timeout auto_pause metadata envs (or_false secure) opts.

(** The instance methods: each reads the session's identity and its
    configuration and delegates. *)

Definition connect (self : Session) (timeout : option Z) (opts : ApiParams)
  : M CP Session :=
  let! cfg := get_config (_connection_config self) in
  _cls_connect (_sandbox_id self) timeout (get_api_params cfg opts).

Definition resume (self : Session) (auto_pause : bool) (timeout : option Z)
           (opts : ApiParams) : M CP Session :=
  let! cfg := get_config (_connection_config self) in
  _cls_resume (_sandbox_id self) auto_pause timeout (get_api_params cfg opts).

Definition kill (self : Session) (opts : ApiParams) : M CP bool :=
  let! cfg := get_config (_connection_config self) in
  SandboxApi._cls_kill (_sandbox_id self) (get_api_params cfg opts).

Definition set_timeout (self : Session) (timeout : Z) (opts : ApiParams)
  : M CP unit :=
  let! cfg := get_config (_connection_config self) in
  SandboxApi._cls_set_timeout (_sandbox_id self) timeout (get_api_params cfg opts).

Definition get_info (self : Session) (opts : ApiParams) : M CP SandboxInfo :=
  let! cfg := get_config (_connection_config self) in
  SandboxApi._cls_get_info (_sandbox_id self) (get_api_params cfg opts).

Definition pause (self : Session) (opts : ApiParams) : M CP bool :=
  let! cfg := get_config (_connection_config self) in
  SandboxApi._cls_pause (_sandbox_id self) (get_api_params cfg opts).

(** [Sandbox.get_metrics] *)
Definition get_metrics (self : Session) (start end_ : option Z)
           (opts : ApiParams) : M CP (list SandboxMetrics) :=
  let! too_old := version_below self Packaging.V_0_1_5 in
  if too_old then raise (SandboxException msg_no_metrics)
  else
    let! no_disk := version_below self Packaging.V_0_2_4 in
    run! (if no_disk then warning msg_no_disk else ret tt) in
    let! cfg := get_config (_connection_config self) in
    SandboxApi._cls_get_metrics (_sandbox_id self) start end_
                                (get_api_params cfg opts).

(** The read-only properties [files], [commands], [adb_shell], [pty],
    [sandbox_id], [envd_api_url] and [connection_config]: each returns
    the attribute; reading an attribute that the constructor did not
    assign raises [AttributeError]. *)
Definition files (self : Session) : result FilesystemObj := Ok (_filesystem self).

Definition commands (self : Session) : result CommandsObj := Ok (_commands self).

Definition adb_shell (self : Session) : result ADBShellObj :=
  match _adb_shell self with
  | Some a => Ok a
  | None => Raise (AttributeError "_adb_shell")
  end.

Definition pty (self : Session) : result PtyObj :=
  match _pty self with
  | Some p => Ok p
  | None => Raise (AttributeError "_pty")
  end.

Definition sandbox_id (self : Session) : result string := Ok (_sandbox_id self).

Definition envd_api_url (self : Session) : result string :=
  match _envd_api_url self with
  | Some u => Ok u
  | None => Raise (AttributeError "_envd_api_url")
  end.

Definition connection_config (self : Session) : result nat :=
  Ok (_connection_config self).

(** [Sandbox.__enter__] *)
Definition __enter__ (self : Session) : M CP Session := ret self.

(** [Sandbox.__exit__]: [self.kill()]; the method returns [None]. *)
Definition __exit__ (self : Session) (exc : option exn) : M CP unit :=
  run! kill self no_params in
  ret tt.

End Sync.
End Sandbox.

(** ** [agentbox/sandbox_async/main.py]: class [AsyncSandbox]

    An awaited call is a call: the coroutines are the same sequences of
    steps as the blocking methods.  The four [adb_*] attributes, which the
    constructor copies from its options and nothing reads, are left out. *)

Module AsyncSandbox.
Section Async.
Context {CP : Type} `{Remote CP} `{SandboxSetup}.

(** [AsyncSandbox.__init__] *)
Definition __init__ (opts : SandboxOpts) : M CP Session :=
  match o_sandbox_id opts, o_connection_config opts with
  | None, _ => raise (KeyError "sandbox_id")
  | Some _, None => raise (KeyError "connection_config")
  | Some id, Some config =>
      let! cfg := get_config config in
      let url := envd_url id cfg in
      let! envd_version :=
        match o_envd_version opts with
        | Some x => (let! v := version_of_arg x in ret (Some (Some v)))
        | None => ret None
        end in
      let token := o_envd_access_token opts in
      if is_brd id then
        let a := {| sa_host := o_ssh_host opts; sa_port := o_ssh_port opts;
                    sa_username := o_ssh_username opts;
                    sa_password := o_ssh_password opts;
                    sa_config := config |} in
        ret {| _sandbox_id := id; _connection_config := config;
               _envd_version := envd_version; _envd_access_token := token;
               _ssh_host := o_ssh_host opts; _ssh_port := o_ssh_port opts;
               _ssh_username := o_ssh_username opts;
               _ssh_password := o_ssh_password opts;
               _transport := None;
               _envd_api_url := Some url; _envd_api := None;
               _filesystem := SSHFilesystem a (SSHCommands2 a) (SSHCommands2 a);
               _commands := SSHCommands2 a;
               _watch_commands := Some (SSHCommands2 a);
               _pty := None;
               _adb_shell := Some (ADBShell config id) |}
      else
        let! transport :=
          new_transport {| tr_limits := self_limits; tr_proxy := cc_proxy cfg |} in
        let api := {| cl_base_url := url; cl_transport := transport;
                      cl_headers := cc_headers cfg |} in
        let! version :=
          match envd_version with
          | Some v => ret v
          | None => raise (AttributeError "_envd_version")
          end in
        ret {| _sandbox_id := id; _connection_config := config;
               _envd_version := envd_version; _envd_access_token := token;
               _ssh_host := o_ssh_host opts; _ssh_port := o_ssh_port opts;
               _ssh_username := o_ssh_username opts;
               _ssh_password := o_ssh_password opts;
               _transport := Some transport;
               _envd_api_url := Some url; _envd_api := Some api;
               _filesystem :=
                 Filesystem url ((fun v => inr (Packaging.to_str v)) <$> version)
                            config transport api;
               _commands := Commands url config transport;
               _watch_commands := None;
               _pty := Some (Pty url config transport);
               _adb_shell := None |}
  end.

(** [AsyncSandbox.is_running] *)
Definition is_running (self : Session) (request_timeout : option Z)
  : M CP bool :=
  match _envd_api self with
  | None => ret true
  | Some api =>
      except_httpx_timeout
        (let! cfg := get_config (_connection_config self) in
         let! r := client_get api ENVD_API_HEALTH_ROUTE
                                      (get_request_timeout cfg request_timeout) in
         if (status_code r =? 502)%Z then ret false
         else
           match handle_envd_api_exception r with
           | Some err => raise err
           | None => ret true
           end)
        format_request_timeout_error
  end.

(** [AsyncSandbox._cls_connect] *)
Definition _cls_connect (sandbox_id : string) (timeout : option Z)
           (opts : ApiParams) : M CP Session :=
  if is_brd sandbox_id then
    let! sandbox_info := SandboxApi._cls_get_info sandbox_id opts in
    let! connection_config := new_config (ConnectionConfig_new ∅ opts) in
    let! ssh_info := SandboxApi._get_ssh sandbox_id opts in
    let! (ssh_port, ssh_username, ssh_host, ssh_password) :=
      parse_ssh_info ssh_info in
    __init__ {| o_sandbox_id := Some sandbox_id;
                o_connection_config := Some connection_config;
                o_envd_version := VerStr <$> si_envd_version sandbox_info;
                o_envd_access_token :=
                  opt_str_of (si_envd_access_token sandbox_info);
                o_ssh_host := Some ssh_host; o_ssh_port := Some ssh_port;
                o_ssh_username := Some ssh_username;
                o_ssh_password := Some ssh_password;
                o_api := no_params |}
  else
    let timeout := or_int timeout default_sandbox_timeout in
    let! sandbox := SandboxApi._cls_connect sandbox_id timeout opts in
    let envd_access_token := co_envd_access_token sandbox in
    let connection_headers := token_headers envd_access_token in
    let! connection_config :=
      new_config (ConnectionConfig_new connection_headers opts) in
    __init__ {| o_sandbox_id := Some sandbox_id;
                o_connection_config := Some connection_config;
                o_envd_version := VerStr <$> co_envd_version sandbox;
                o_envd_access_token := envd_access_token;
                o_ssh_host := None; o_ssh_port := None;
                o_ssh_username := None; o_ssh_password := None;
                o_api := no_params |}.

(** [AsyncSandbox._cls_resume] *)
Definition _cls_resume (sandbox_id : string) (auto_pause : bool)
           (timeout : option Z) (opts : ApiParams) : M CP Session :=
  if is_brd sandbox_id then
    let! sandbox_info := SandboxApi._cls_get_info sandbox_id opts in
    let! connection_config := new_config (ConnectionConfig_new ∅ opts) in
    let! ssh_info := SandboxApi._get_ssh sandbox_id opts in
    let! (ssh_port, ssh_username, ssh_host, ssh_password) :=
      parse_ssh_info ssh_info in
    __init__ {| o_sandbox_id := Some sandbox_id;
                o_connection_config := Some connection_config;
                o_envd_version := VerStr <$> si_envd_version sandbox_info;
                o_envd_access_token :=
                  opt_str_of (si_envd_access_token sandbox_info);
                o_ssh_host := Some ssh_host; o_ssh_port := Some ssh_port;
                o_ssh_username := Some ssh_username;
                o_ssh_password := Some ssh_password;
                o_api := no_params |}
  else
    let timeout := or_int timeout default_sandbox_timeout in
    let! sandbox := SandboxApi._cls_resume sandbox_id auto_pause timeout opts in
    let envd_access_token := co_envd_access_token sandbox in
    let connection_headers := token_headers envd_access_token in
    let! connection_config :=
      new_config (ConnectionConfig_new connection_headers opts) in
    __init__ {| o_sandbox_id := Some sandbox_id;
                o_connection_config := Some connection_config;
                o_envd_version := VerStr <$> co_envd_version sandbox;
                o_envd_access_token := envd_access_token;
                o_ssh_host := None; o_ssh_port := None;
                o_ssh_username := None; o_ssh_password := None;
                o_api := no_params |}.

(** [AsyncSandbox._create] *)
Definition _create (template : option string) (timeout : option Z)
           (auto_pause : bool) (metadata envs : option (gmap string string))
           (secure : bool) (opts : ApiParams) : M CP Session :=
  let! (sandbox_id, envd_version, envd_access_token) :=
    if default false (debug opts) then ret ("debug_sandbox_id", None, PNone)
    else
      let! response :=
        SandboxApi._create_sandbox
          {| rq_template := or_str template default_template;
             rq_timeout := or_int timeout default_sandbox_timeout;
             rq_auto_pause := auto_pause; rq_metadata := metadata;
             rq_env_vars := envs; rq_secure := secure |}
          opts in
      ret (cr_sandbox_id response, VerStr <$> cr_envd_version response,
           cr_envd_access_token response) in
  let extra_sandbox_headers := token_headers envd_access_token in
  let! connection_config :=
    new_config (ConnectionConfig_new extra_sandbox_headers opts) in
  if is_brd sandbox_id then
    let! cfg := get_config connection_config in
    let! ssh_info := SandboxApi._get_ssh sandbox_id (get_api_params cfg no_params) in
    let! (ssh_port, ssh_username, ssh_host, ssh_password) :=
      parse_ssh_info ssh_info in
    __init__ {| o_sandbox_id := Some sandbox_id;
                o_connection_config := Some connection_config;
                o_envd_version := envd_version;
                o_envd_access_token := envd_access_token;
                o_ssh_host := Some ssh_host; o_ssh_port := Some ssh_port;
                o_ssh_username := Some ssh_username;
                o_ssh_password := Some ssh_password;
                o_api := no_params |}
  else
    __init__ {| o_sandbox_id := Some sandbox_id;
                o_connection_config := Some connection_config;
                o_envd_version := envd_version;
                o_envd_access_token := envd_access_token;
                o_ssh_host := None; o_ssh_port := None;
                o_ssh_username := None; o_ssh_password := None;
                o_api := no_params |}.

(** [AsyncSandbox.create] *)
Definition create (template : option string) (timeout : option Z)
           (metadata envs : option (gmap string string))
           (secure : option bool) (opts : ApiParams) : M CP Session :=
  _create template timeout false metadata envs (or_false secure) opts.

(** [AsyncSandbox.beta_create] *)
Definition beta_create (template : option string) (timeout : option Z)
           (auto_pause : bool) (metadata envs : option (gmap string string))
           (secure : option bool) (opts : ApiParams) : M CP Session :=
  let template := Some (or_str template default_template) in
  _create template timeout auto_pause metadata envs (or_false secure) opts.

Definition connect (self : Session) (timeout : option Z) (opts : ApiParams)
  : M CP Session :=
  let! cfg := get_config (_connection_config self) in
  _cls_connect (_sandbox_id self) timeout (get_api_params cfg opts).

Definition resume (self : Session) (auto_pause : bool) (timeout : option Z)
           (opts : ApiParams) : M CP Session :=
  let! cfg := get_config (_connection_config self) in
  _cls_resume (_sandbox_id self) auto_pause timeout (get_api_params cfg opts).

Definition kill (self : Session) (opts : ApiParams) : M CP bool :=
  let! cfg := get_config (_connection_config self) in
  SandboxApi._cls_kill (_sandbox_id self) (get_api_params cfg opts).

Definition set_timeout (self : Session) (timeout : Z) (opts : ApiParams)
  : M CP unit :=
  let! cfg := get_config (_connection_config self) in
  SandboxApi._cls_set_timeout (_sandbox_id self) timeout (get_api_params cfg opts).

Definition get_info (self : Session) (opts : ApiParams) : M CP SandboxInfo :=
  let! cfg := get_config (_connection_config self) in
  SandboxApi._cls_get_info (_sandbox_id self) (get_api_params cfg opts).

Definition pause (self : Session) (opts : ApiParams) : M CP unit :=
  let! cfg := get_config (_connection_config self) in
  run! SandboxApi._cls_pause (_sandbox_id self) (get_api_params cfg opts) in
  ret tt.

(** [AsyncSandbox.get_metrics] *)
Definition get_metrics (self : Session) (start end_ : option Z)
           (opts : ApiParams) : M CP (list SandboxMetrics) :=
  let! too_old := version_below self Packaging.V_0_1_5 in
  if too_old then raise (SandboxException msg_no_metrics)
  else
    let! no_disk := version_below self Packaging.V_0_2_4 in
    run! (if no_disk then warning msg_no_disk else ret tt) in
    let! cfg := get_config (_connection_config self) in
    SandboxApi._cls_get_metrics (_sandbox_id self) start end_
                                (get_api_params cfg opts).

(** The read-only properties.  [pty] tests for the attribute itself. *)
Definition files (self : Session) : result FilesystemObj := Ok (_filesystem self).

Definition commands (self : Session) : result CommandsObj := Ok (_commands self).

Definition pty (self : Session) : result PtyObj :=
  match _pty self with
  | Some p => Ok p
  | None => Raise (AttributeError msg_no_pty)
  end.

Definition sandbox_id (self : Session) : result string := Ok (_sandbox_id self).

Definition envd_api_url (self : Session) : result string :=
  match _envd_api_url self with
  | Some u => Ok u
  | None => Raise (AttributeError "_envd_api_url")
  end.

Definition adb_shell (self : Session) : result ADBShellObj :=
  match _adb_shell self with
  | Some a => Ok a
  | None => Raise (AttributeError "_adb_shell")
  end.

Definition connection_config (self : Session) : result nat :=
  Ok (_connection_config self).

(** [AsyncSandbox.__aenter__] *)
Definition __aenter__ (self : Session) : M CP Session := ret self.

(** [AsyncSandbox.__aexit__]: [await self.kill()]; the method returns
    [None]. *)
Definition __aexit__ (self : Session) (exc : option exn) : M CP unit :=
  run! kill self no_params in
  ret tt.

End Async.
End AsyncSandbox.

(** ** The [with] statement

    [with cm as x: body] (and [async with]) for a context manager [cm]
    given by its enter and exit methods.  The exit method is called when
    the body is left, with the exception of the body if there is one;
    both exit methods above return [None], so that exception is raised
    again afterwards, unless the exit method raises itself. *)
Definition with_ {CP A : Type} (enter : Session -> M CP Session)
           (exit : Session -> option exn -> M CP unit)
           (cm : Session) (body : Session -> M CP A) : M CP A :=
  let! x := enter cm in
  fun w =>
    match body x w with
    | (Ok a, w1) => (run! exit cm None in ret a) w1
    | (Raise e, w1) => (run! exit cm (Some e) in raise e) w1
    end.

(** ** A control plane as the specification describes it

    The controller above is written against [Remote]; this instance is
    the remote side of sections 3, 4.2 and 6 of the specification. *)

Module SpecRemote.

(** Modelled from the spec: the states of a sandbox the control plane
    still knows ([Killed] sandboxes are no longer known). *)
Inductive SessionState : Type := Running | Paused.

(** Modelled from the spec: what the control plane keeps per sandbox. *)
Record RemoteSandbox : Type := {
  rs_template_id : string;
  rs_metadata : gmap string string;
  rs_state : SessionState;
  rs_started_at : Z;
  rs_end_at : Z;                       (* the auto-kill deadline *)
  rs_auto_pause : bool;
  rs_envd_version : option string;
  rs_access_token : option string;     (* per-sandbox credential *)
  rs_ssh : SSHInfo;
  rs_metrics : list SandboxMetrics;
}.

(** Modelled from the spec: what the control plane will hand out at the
    next creation. *)
Record Fresh : Type := {
  fr_id : string;
  fr_envd_version : option string;
  fr_access_token : string;
  fr_ssh : SSHInfo;
}.

(** Modelled from the spec: the remote state; [probe] is the answer of
    each daemon to the health route, by base URL. *)
Record ControlPlane : Type := {
  now : Z;
  sandboxes : gmap string RemoteSandbox;
  supply : list Fresh;
  probe : gmap string (result Response);
}.

Definition with_sandboxes (cp : ControlPlane) (m : gmap string RemoteSandbox)
  : ControlPlane :=
  {| now := now cp; sandboxes := m; supply := supply cp; probe := probe cp |}.

Definition not_found {A} : result A := Raise (ApiException 404 "sandbox not found").

Definition set_deadline (s : RemoteSandbox) (state : SessionState)
           (auto_pause : bool) (end_at : Z) : RemoteSandbox :=
  {| rs_template_id := rs_template_id s; rs_metadata := rs_metadata s;
     rs_state := state; rs_started_at := rs_started_at s;
     rs_end_at := end_at; rs_auto_pause := auto_pause;
     rs_envd_version := rs_envd_version s;
     rs_access_token := rs_access_token s;
     rs_ssh := rs_ssh s; rs_metrics := rs_metrics s |}.

(** Modelled from the spec: create allocates a sandbox and returns its
    identity, daemon version and (when secured) access token. *)
Definition create (rq : CreateRequest) (p : ApiParams) (cp : ControlPlane)
  : result SandboxCreateResponse * ControlPlane :=
  match supply cp with
  | [] => (Raise (ApiException 500 "no capacity"), cp)
  | f :: rest =>
      let tok := if rq_secure rq then Some (fr_access_token f) else None in
      let s := {| rs_template_id := rq_template rq;
                  rs_metadata := default ∅ (rq_metadata rq);
                  rs_state := Running; rs_started_at := now cp;
                  rs_end_at := now cp + rq_timeout rq;
                  rs_auto_pause := rq_auto_pause rq;
                  rs_envd_version := fr_envd_version f;
                  rs_access_token := tok;
                  rs_ssh := fr_ssh f; rs_metrics := [] |} in
      (Ok {| cr_sandbox_id := fr_id f;
             cr_envd_version := fr_envd_version f;
             cr_envd_access_token := opt_str_of tok |},
       {| now := now cp; sandboxes := <[fr_id f := s]> (sandboxes cp);
          supply := rest; probe := probe cp |})
  end.

(** Modelled from the spec: get-info reflects the current remote state. *)
Definition get_info (id : string) (p : ApiParams) (cp : ControlPlane)
  : result SandboxInfo * ControlPlane :=
  match sandboxes cp !! id with
  | Some s =>
      (Ok {| si_sandbox_id := id; si_template_id := rs_template_id s;
             si_name := None; si_metadata := rs_metadata s;
             si_started_at := rs_started_at s; si_end_at := rs_end_at s;
             si_envd_version := rs_envd_version s;
             si_envd_access_token := rs_access_token s |}, cp)
  | None => (not_found, cp)
  end.

(** Modelled from the spec: the SSH endpoint credentials of a sandbox. *)
Definition get_ssh (id : string) (p : ApiParams) (cp : ControlPlane)
  : result SSHInfo * ControlPlane :=
  match sandboxes cp !! id with
  | Some s => (Ok (rs_ssh s), cp)
  | None => (not_found, cp)
  end.

(** Modelled from the spec: resume-or-connect makes the sandbox run with
    a deadline of the given timeout from now. *)
Definition resume (id : string) (auto_pause : bool) (timeout : Z)
           (p : ApiParams) (cp : ControlPlane)
  : result ConnectResponse * ControlPlane :=
  match sandboxes cp !! id with
  | Some s =>
      (Ok {| co_envd_version := rs_envd_version s;
             co_envd_access_token := opt_str_of (rs_access_token s) |},
       with_sandboxes cp
         (<[id := set_deadline s Running auto_pause (now cp + timeout)]>
            (sandboxes cp)))
  | None => (not_found, cp)
  end.

Definition connect (id : string) (timeout : Z) (p : ApiParams)
           (cp : ControlPlane) : result ConnectResponse * ControlPlane :=
  match sandboxes cp !! id with
  | Some s => resume id (rs_auto_pause s) timeout p cp
  | None => (not_found, cp)
  end.

(** Modelled from the spec: kill returns whether a sandbox was found and
    killed; an identity that is not known is not an error. *)
Definition kill (id : string) (p : ApiParams) (cp : ControlPlane)
  : result bool * ControlPlane :=
  match sandboxes cp !! id with
  | Some _ => (Ok true, with_sandboxes cp (delete id (sandboxes cp)))
  | None => (Ok false, cp)
  end.

(** Modelled from the spec: set-timeout replaces the auto-kill deadline
    by the given number of seconds from now. *)
Definition set_timeout (id : string) (timeout : Z) (p : ApiParams)
           (cp : ControlPlane) : result unit * ControlPlane :=
  match sandboxes cp !! id with
  | Some s =>
      (Ok tt,
       with_sandboxes cp
         (<[id := set_deadline s (rs_state s) (rs_auto_pause s)
                               (now cp + timeout)]> (sandboxes cp)))
  | None => (not_found, cp)
  end.

(** Modelled from the spec: pause snapshots a running sandbox. *)
Definition pause (id : string) (p : ApiParams) (cp : ControlPlane)
  : result bool * ControlPlane :=
  match sandboxes cp !! id with
  | Some s =>
      (Ok true,
       with_sandboxes cp
         (<[id := set_deadline s Paused (rs_auto_pause s) (rs_end_at s)]>
            (sandboxes cp)))
  | None => (Ok false, cp)
  end.

(** Modelled from the spec: the recorded metric samples of a sandbox. *)
Definition get_metrics (id : string) (start end_ : option Z) (p : ApiParams)
           (cp : ControlPlane) : result (list SandboxMetrics) * ControlPlane :=
  match sandboxes cp !! id with
  | Some s => (Ok (rs_metrics s), cp)
  | None => (not_found, cp)
  end.

(** Modelled from the spec: the health route of a daemon. *)
Definition health (rq : Request) (cp : ControlPlane)
  : result Response * ControlPlane :=
  (default (Ok {| status_code := 502; body := "" |})
           (probe cp !! req_base_url rq), cp).

#[export] Instance spec_remote : Remote ControlPlane := {
  remote_create := create;
  remote_get_info := get_info;
  remote_get_ssh := get_ssh;
  remote_connect := connect;
  remote_resume := resume;
  remote_kill := kill;
  remote_set_timeout := set_timeout;
  remote_pause := pause;
  remote_get_metrics := get_metrics;
  remote_health := health;
}.

(** Modelled from the spec: the defaults of [SandboxSetup] (300 seconds)
    and the decoding of a daemon response: a 2xx response is healthy,
    any other carries an error payload.  For the examples, no class
    overrides the limits, a new configuration holds the extra headers,
    [ConnectionConfig] takes the API parameters and no other keyword, and
    versions are plain release strings. *)
#[export] Instance spec_setup : SandboxSetup := {
  default_template := "base";
  default_sandbox_timeout := 300;
  envd_port := 49983;
  get_host := fun id cfg port =>
    pretty port +:+ "-" +:+ id +:+ "." +:+ default "agentbox.cloud" (cc_domain cfg);
  ENVD_API_HEALTH_ROUTE := "/health";
  handle_envd_api_exception := fun r =>
    if ((200 <=? status_code r) && (status_code r <? 300))%Z then None
    else Some (EnvdException (status_code r) (body r));
  self_limits := _limits;
  new_headers := fun extra _ => extra;
  config_rejects := fun opts =>
    if bool_decide (is_Some (o_sandbox_id opts))
       || bool_decide (is_Some (o_envd_version opts))
       || match o_envd_access_token opts with PNone => false | _ => true end
       || bool_decide (is_Some (o_ssh_host opts))
       || bool_decide (is_Some (o_ssh_port opts))
       || bool_decide (is_Some (o_ssh_username opts))
       || bool_decide (is_Some (o_ssh_password opts))
    then Some (TypeError "ConnectionConfig.__init__() got an unexpected keyword argument")
    else None;
  parse_version := Packaging.parse;
  version_of_none := TypeError "expected string or bytes-like object";
}.

(** A process that has made no call and allocated no object. *)
Definition start (cp : ControlPlane) : World ControlPlane :=
  mkWorld cp [] [] [] [].

End SpecRemote.

(** ** A small concrete process to evaluate the controller on *)

Module Scenario.
Import SpecRemote.

Definition ssh_good : SSHInfo :=
  {| connect_command := "ssh -p 2222 user@10.0.0.5"; auth_password := "pw" |}.
Definition ssh_bad : SSHInfo :=
  {| connect_command := "ssh -p 2222 user 10.0.0.5"; auth_password := "pw" |}.

Definition sandbox (version : string) (token : option string) (ssh : SSHInfo)
  : RemoteSandbox :=
  {| rs_template_id := "base"; rs_metadata := ∅; rs_state := Running;
     rs_started_at := 0; rs_end_at := 300; rs_auto_pause := false;
     rs_envd_version := Some version; rs_access_token := token;
     rs_ssh := ssh; rs_metrics := [] |}.

Definition url_of (id : string) : string :=
  "https://49983-" +:+ id +:+ ".agentbox.cloud".

Definition cp0 : ControlPlane :=
  {| now := 100;
     sandboxes :=
       <["sbx-1" := sandbox "0.3.0" (Some "tok-1") ssh_good]>
       (<["x-BRD-7" := sandbox "0.2.0" None ssh_good]>
       (<["y-brd-8" := sandbox "0.1.0" None ssh_bad]> ∅));
     supply :=
       [ {| fr_id := "sbx-2"; fr_envd_version := Some "0.2.4";
            fr_access_token := "tok-2"; fr_ssh := ssh_good |} ];
     probe :=
       <[url_of "sbx-1" := Ok {| status_code := 200; body := "" |}]>
       (<[url_of "sbx-e" := Ok {| status_code := 500; body := "boom" |}]>
       (<[url_of "sbx-t" := Raise HttpxTimeoutException]> ∅)) |}.

Definition w0 : World ControlPlane := start cp0.

Definition key : ApiParams :=
  {| api_key := Some "ab_key"; domain := None; debug := None;
     request_timeout := None; proxy := None |}.

Definition opts_new : SandboxOpts :=
  {| o_sandbox_id := None; o_connection_config := None;
     o_envd_version := None; o_envd_access_token := PNone;
     o_ssh_host := None; o_ssh_port := None; o_ssh_username := None;
     o_ssh_password := None; o_api := key |}.

Definition opts_for (id : string) : SandboxOpts :=
  {| o_sandbox_id := Some id; o_connection_config := None;
     o_envd_version := None; o_envd_access_token := PNone;
     o_ssh_host := None; o_ssh_port := None; o_ssh_username := None;
     o_ssh_password := None; o_api := key |}.

(** A process that holds one configuration object and one transport,
    and an HTTP-backed session that refers to them. *)
Definition w1 : World ControlPlane :=
  mkWorld cp0 [] [] [ConnectionConfig_new ∅ key]
          [{| tr_limits := _limits; tr_proxy := None |}].

Definition http_session (id : string) (version : Packaging.Version) : Session :=
  let api := {| cl_base_url := url_of id; cl_transport := 0;
                cl_headers := {[ "X-Access-Token" := "tok-1" ]} |} in
  {| _sandbox_id := id; _connection_config := 0;
     _envd_version := Some (Some version);
     _envd_access_token := PStr "tok-1";
     _ssh_host := None; _ssh_port := None;
     _ssh_username := None; _ssh_password := None;
     _transport := Some 0;
     _envd_api_url := Some (url_of id); _envd_api := Some api;
     _filesystem := Filesystem (url_of id) (Some (inl version)) 0 0 api;
     _commands := Commands (url_of id) 0 0;
     _watch_commands := None;
     _pty := Some (Pty (url_of id) 0 0);
     _adb_shell := None |}.

(** The same credential with the debug flag set. *)
Definition key_debug : ApiParams :=
  {| api_key := Some "ab_key"; domain := None; debug := Some true;
     request_timeout := None; proxy := None |}.

(** A control plane whose sandboxes report no daemon version and hold no
    access token. *)
Definition sandbox_plain (ssh : SSHInfo) : RemoteSandbox :=
  {| rs_template_id := "base"; rs_metadata := ∅; rs_state := Running;
     rs_started_at := 0; rs_end_at := 300; rs_auto_pause := false;
     rs_envd_version := None; rs_access_token := None;
     rs_ssh := ssh; rs_metrics := [] |}.

Definition cp_plain : ControlPlane :=
  {| now := 100;
     sandboxes :=
       <["sbx-n" := sandbox_plain ssh_good]>
       (<["n-brd-1" := sandbox_plain ssh_good]> ∅);
     supply :=
       [ {| fr_id := "sbx-m"; fr_envd_version := None;
            fr_access_token := "tok-m"; fr_ssh := ssh_good |} ];
     probe := ∅ |}.

Definition w_plain : World ControlPlane := start cp_plain.

(** A process that holds one configuration object, against a control
    plane with two sandboxes that have different access tokens; and the
    options that pass this object to the constructor. *)
Definition cp_pair : ControlPlane :=
  {| now := 100;
     sandboxes :=
       <["sbx-a" := sandbox "0.3.0" (Some "tok-a") ssh_good]>
       (<["sbx-b" := sandbox "0.3.0" (Some "tok-b") ssh_good]> ∅);
     supply := [];
     probe := ∅ |}.

Definition w_pair : World ControlPlane :=
  mkWorld cp_pair [] [] [ConnectionConfig_new ∅ key] [].

Definition opts_shared (id : string) : SandboxOpts :=
  {| o_sandbox_id := Some id; o_connection_config := Some 0;
     o_envd_version := None; o_envd_access_token := PNone;
     o_ssh_host := None; o_ssh_port := None; o_ssh_username := None;
     o_ssh_password := None; o_api := no_params |}.

End Scenario.

(** ** Notions used to state the properties *)

(** The entry points that return a session: the constructors themselves
    and the class and instance methods that end in one. *)
Inductive construction {CP : Type} `{Remote CP} `{SandboxSetup}
  : M CP Session -> Prop :=
| sync_init template timeout metadata envs secure opts :
    construction (Sandbox.__init__ template timeout metadata envs secure opts)
| sync_create template timeout auto_pause metadata envs secure p :
    construction (Sandbox.beta_create template timeout auto_pause metadata envs secure p)
| sync_connect sandbox_id timeout p :
    construction (Sandbox._cls_connect sandbox_id timeout p)
| sync_resume sandbox_id auto_pause timeout p :
    construction (Sandbox._cls_resume sandbox_id auto_pause timeout p)
| async_init opts :
    construction (AsyncSandbox.__init__ opts)
| async_create template timeout metadata envs secure p :
    construction (AsyncSandbox.create template timeout metadata envs secure p)
| async_beta_create template timeout auto_pause metadata envs secure p :
    construction (AsyncSandbox.beta_create template timeout auto_pause metadata envs secure p)
| async_connect sandbox_id timeout p :
    construction (AsyncSandbox._cls_connect sandbox_id timeout p)
| async_resume sandbox_id auto_pause timeout p :
    construction (AsyncSandbox._cls_resume sandbox_id auto_pause timeout p)
| sync_connect_self self timeout p :
    construction (Sandbox.connect self timeout p)
| sync_resume_self self auto_pause timeout p :
    construction (Sandbox.resume self auto_pause timeout p)
| async_connect_self self timeout p :
    construction (AsyncSandbox.connect self timeout p)
| async_resume_self self auto_pause timeout p :
    construction (AsyncSandbox.resume self auto_pause timeout p).

(** The entry points that are class or instance methods: they build the
    configuration object of the session themselves. *)
Inductive class_method_construction {CP : Type} `{Remote CP} `{SandboxSetup}
  : M CP Session -> Prop :=
| cm_sync_create template timeout auto_pause metadata envs secure p :
    class_method_construction
      (Sandbox.beta_create template timeout auto_pause metadata envs secure p)
| cm_sync_connect sandbox_id timeout p :
    class_method_construction (Sandbox._cls_connect sandbox_id timeout p)
| cm_sync_resume sandbox_id auto_pause timeout p :
    class_method_construction (Sandbox._cls_resume sandbox_id auto_pause timeout p)
| cm_async_create template timeout metadata envs secure p :
    class_method_construction
      (AsyncSandbox.create template timeout metadata envs secure p)
| cm_async_beta_create template timeout auto_pause metadata envs secure p :
    class_method_construction
      (AsyncSandbox.beta_create template timeout auto_pause metadata envs secure p)
| cm_async_connect sandbox_id timeout p :
    class_method_construction (AsyncSandbox._cls_connect sandbox_id timeout p)
| cm_async_resume sandbox_id auto_pause timeout p :
    class_method_construction (AsyncSandbox._cls_resume sandbox_id auto_pause timeout p)
| cm_sync_connect_self self timeout p :
    class_method_construction (Sandbox.connect self timeout p)
| cm_sync_resume_self self auto_pause timeout p :
    class_method_construction (Sandbox.resume self auto_pause timeout p)
| cm_async_connect_self self timeout p :
    class_method_construction (AsyncSandbox.connect self timeout p)
| cm_async_resume_self self auto_pause timeout p :
    class_method_construction (AsyncSandbox.resume self auto_pause timeout p).

(** The arguments from which the SSH objects of a session are built,
    when they are built from the SSH attributes of the session. *)
Definition ssh_args_of (s : Session) : SshArgs :=
  {| sa_host := _ssh_host s; sa_port := _ssh_port s;
     sa_username := _ssh_username s; sa_password := _ssh_password s;
     sa_config := _connection_config s |}.

(** The surfaces of a session are those of the backend its identity
    selects, and no other. *)
Definition backend_ok (s : Session) : bool :=
  if is_brd (_sandbox_id s)
  then ssh_surfaces s && negb (http_surfaces s)
  else http_surfaces s && negb (ssh_surfaces s).



(** A call of the control plane's connect or resume operation. *)
Definition is_resume_call (x : Exchange) : bool :=
  match x with
  | XConnect _ _ _ _ | XResume _ _ _ _ _ => true
  | _ => false
  end.

(** The access token carried by an answer of the control plane. *)
Definition token_of (x : Exchange) : option string :=
  match x with
  | XCreate _ _ (Ok r) => present (cr_envd_access_token r)
  | XGetInfo _ _ (Ok i) => si_envd_access_token i
  | XConnect _ _ _ (Ok r) | XResume _ _ _ _ (Ok r) =>
      present (co_envd_access_token r)
  | _ => None
  end.

(** The token obtained in a sequence of exchanges: the one of the last
    answer that carries a token. *)
Fixpoint obtained_token (l : list Exchange) : option string :=
  match l with
  | [] => None
  | x :: l' =>
      match obtained_token l' with
      | Some t => Some t
      | None => token_of x
      end
  end.


(** A computation only appends to the record of exchanges, and what it
    appends is related to its result by [P]. *)
Definition emits {CP A} (m : M CP A)
           (P : list Exchange -> result A -> Prop) : Prop :=
  forall w r w', m w = (r, w') -> exists new, net w' = (net w ++ new)%list /\ P new r.


(** Every exchange among [new] passes the test [ok]. *)
Definition all_calls (ok : Exchange -> bool) {A}
           (new : list Exchange) (r : result A) : Prop :=
  forallb ok new = true.

(** The exchange is a get-info or an SSH-credentials call for [id]. *)
Definition info_or_ssh (id : string) (x : Exchange) : bool :=
  match x with
  | XGetInfo id' _ _ | XGetSsh id' _ _ => bool_decide (id' = id)
  | _ => false
  end.

(** The operations on a constructed session. *)
Inductive method_call {CP : Type} `{Remote CP} `{SandboxSetup} (self : Session)
  : forall A : Type, M CP A -> Prop :=
| sync_is_running t : method_call self bool (Sandbox.is_running self t)
| sync_kill p : method_call self bool (Sandbox.kill self p)
| sync_set_timeout t p : method_call self unit (Sandbox.set_timeout self t p)
| sync_get_info p : method_call self SandboxInfo (Sandbox.get_info self p)
| sync_pause p : method_call self bool (Sandbox.pause self p)
| sync_get_metrics start end_ p :
    method_call self (list SandboxMetrics) (Sandbox.get_metrics self start end_ p)
| async_is_running t : method_call self bool (AsyncSandbox.is_running self t)
| async_kill p : method_call self bool (AsyncSandbox.kill self p)
| async_set_timeout t p : method_call self unit (AsyncSandbox.set_timeout self t p)
| async_get_info p : method_call self SandboxInfo (AsyncSandbox.get_info self p)
| async_pause p : method_call self unit (AsyncSandbox.pause self p)
| async_get_metrics start end_ p :
    method_call self (list SandboxMetrics)
                (AsyncSandbox.get_metrics self start end_ p).


(** The exception that answers a failed call of the control plane (a
    probe of the daemon is not such a call). *)
Definition call_failure (x : Exchange) : option exn :=
  match x with
  | XCreate _ _ (Raise e) | XGetInfo _ _ (Raise e) | XGetSsh _ _ (Raise e)
  | XConnect _ _ _ (Raise e) | XResume _ _ _ _ (Raise e)
  | XKill _ _ (Raise e) | XSetTimeout _ _ _ (Raise e)
  | XPause _ _ (Raise e) | XGetMetrics _ _ _ _ (Raise e) => Some e
  | _ => None
  end.

(** A failed call of the control plane among [new] is the last exchange
    of [new], and its exception is the result. *)
Definition fail_fast {A} (new : list Exchange) (r : result A) : Prop :=
  forall i x e,
    new !! i = Some x -> call_failure x = Some e ->
    length new = S i /\ r = Raise e.

(** The exchange is a call of the control plane for the sandbox [id], or
    a probe of the daemon; a create call is neither. *)
Definition calls_only (id : string) (x : Exchange) : bool :=
  match x with
  | XCreate _ _ _ => false
  | XGetInfo id' _ _ | XGetSsh id' _ _ | XConnect id' _ _ _
  | XResume id' _ _ _ _ | XKill id' _ _ | XSetTimeout id' _ _ _
  | XPause id' _ _ | XGetMetrics id' _ _ _ _ => bool_decide (id' = id)
  | XHealth _ _ => true
  end.
Local Open Scope list_scope.

(** * Properties *)

(** ** Inversion of the effect monad *)

Section Inversion.
Context {CP : Type}.
Implicit Types w : World CP.

Lemma bind_inv {A B} (m : M CP A) (f : A -> M CP B) w r w' :
  bind m f w = (r, w') ->
  (exists a w1, m w = (Ok a, w1) /\ f a w1 = (r, w')) \/
  (exists e, m w = (Raise e, w') /\ r = Raise e).
Proof.
  unfold bind. destruct (m w) as [[a|e] w1]; intros E.
  - left. eauto.
  - right. injection E as <- <-. eauto.
Qed.

Lemma bind_Ok_inv {A B} (m : M CP A) (f : A -> M CP B) w b w' :
  bind m f w = (Ok b, w') ->
  exists a w1, m w = (Ok a, w1) /\ f a w1 = (Ok b, w').
Proof.
  intros E. apply bind_inv in E as [E | (e & _ & E)]; [exact E | discriminate E].
Qed.

Lemma ret_inv {A} (a : A) w r w' : ret a w = (r, w') -> r = Ok a /\ w' = w.
Proof. unfold ret. intros E. by injection E as <- <-. Qed.

Lemma raise_inv {A} e w (r : result A) w' :
  raise e w = (r, w') -> r = Raise e /\ w' = w.
Proof. unfold raise. intros E. by injection E as <- <-. Qed.

Lemma round_trip_inv {A} (op : CP -> result A * CP) record w r w' :
  round_trip op record w = (r, w') ->
  exists cp', op (remote w) = (r, cp') /\
    w' = mkWorld cp' (net w ++ [record r]) (logged w) (configs w) (transports w).
Proof.
  unfold round_trip. destruct (op (remote w)) as [r0 cp'].
  intros E. injection E as <- <-. eauto.
Qed.

Lemma new_config_inv c w r w' :
  new_config c w = (r, w') ->
  r = Ok (length (configs w)) /\
  w' = mkWorld (remote w) (net w) (logged w) (configs w ++ [c]) (transports w).
Proof. unfold new_config. intros E. by injection E as <- <-. Qed.

Lemma new_transport_inv t w r w' :
  new_transport t w = (r, w') ->
  r = Ok (length (transports w)) /\
  w' = mkWorld (remote w) (net w) (logged w) (configs w) (transports w ++ [t]).
Proof. unfold new_transport. intros E. by injection E as <- <-. Qed.

Lemma get_config_inv ref w r w' :
  get_config ref w = (r, w') ->
  w' = w /\
  ((exists c, configs w !! ref = Some c /\ r = Ok c) \/
   (configs w !! ref = None /\ exists e, r = Raise e)).
Proof.
  unfold get_config. destruct (configs w !! ref) as [c|];
    intros E; injection E as <- <-; eauto 6.
Qed.

Lemma get_config_Some ref w c :
  configs w !! ref = Some c -> get_config ref w = (Ok c, w).
Proof. unfold get_config. by intros ->. Qed.

Lemma set_header_inv ref k v w r w' :
  set_header ref k v w = (r, w') ->
  (exists c, configs w !! ref = Some c /\ r = Ok tt /\
     w' = mkWorld (remote w) (net w) (logged w)
            (<[ref := with_header c k v]> (configs w)) (transports w)) \/
  (configs w !! ref = None /\ w' = w /\ exists e, r = Raise e).
Proof.
  unfold set_header. destruct (configs w !! ref) as [c|];
    intros E; injection E as <- <-; eauto 8.
Qed.

Lemma except_inv {A} (m : M CP A) e w r w' :
  except_httpx_timeout m e w = (r, w') ->
  (m w = (Raise HttpxTimeoutException, w') /\ r = Raise e) \/
  (m w = (r, w') /\ r <> Raise HttpxTimeoutException).
Proof.
  unfold except_httpx_timeout. destruct (m w) as [[a|e0] w1]; intros E.
  - right. by injection E as <- <-.
  - destruct e0; injection E as <- <-; first [left; done | right; done].
Qed.

Lemma warning_inv msg w r w' :
  warning msg w = (r, w') ->
  r = Ok tt /\
  w' = mkWorld (remote w) (net w) (logged w ++ [msg]) (configs w) (transports w).
Proof. unfold warning. intros E. by injection E as <- <-. Qed.

End Inversion.

Section Pure.
Context {CP : Type} `{SandboxSetup}.

Lemma Version_pure s (w : World CP) r w' : Version s w = (r, w') -> w' = w.
Proof.
  unfold Version. destruct (parse_version s); intros E;
    [apply ret_inv in E | apply raise_inv in E]; tauto.
Qed.

Lemma version_of_arg_pure x (w : World CP) r w' :
  version_of_arg x w = (r, w') -> w' = w.
Proof.
  destruct x; simpl; [apply Version_pure|]. intros E. by apply ret_inv in E as [_ ->].
Qed.

Lemma version_if_truthy_pure x (w : World CP) r w' :
  version_if_truthy x w = (r, w') -> w' = w.
Proof.
  unfold version_if_truthy. destruct x as [s|]; [destruct (Text.truthy s)|]; intros E.
  - apply bind_inv in E as [(v & w1 & E1 & E2) | (e & E1 & _)].
    + apply Version_pure in E1 as ->. by apply ret_inv in E2 as [_ ->].
    + by apply Version_pure in E1.
  - by apply ret_inv in E as [_ ->].
  - by apply ret_inv in E as [_ ->].
Qed.

End Pure.

(** One step of inversion of a run [m w = (r, w')]. *)
Ltac minv1 :=
  match goal with
  | E : bind _ _ _ = (Ok _, _) |- _ =>
      apply bind_Ok_inv in E as (? & ? & ? & E)
  | E : bind _ _ _ = (_, _) |- _ =>
      apply bind_inv in E as [(? & ? & ? & E) | (? & E & ?)]
  | E : ret _ _ = (_, _) |- _ => apply ret_inv in E as [? ?]
  | E : raise _ _ = (_, _) |- _ => apply raise_inv in E as [? ?]
  | E : round_trip _ _ _ = (_, _) |- _ => apply round_trip_inv in E as (? & E & ?)
  | E : new_config _ _ = (_, _) |- _ => apply new_config_inv in E as [? ?]
  | E : new_transport _ _ = (_, _) |- _ => apply new_transport_inv in E as [? ?]
  | E : get_config _ _ = (_, _) |- _ =>
      apply get_config_inv in E as [? [(? & E & ?) | (E & ? & ?)]]
  | E : set_header _ _ _ _ = (_, _) |- _ =>
      apply set_header_inv in E as [(? & E & ? & ?) | (E & ? & ? & ?)]
  | E : warning _ _ = (_, _) |- _ => apply warning_inv in E as [? ?]
  | E : except_httpx_timeout _ _ _ = (_, _) |- _ =>
      apply except_inv in E as [[E ?] | [E ?]]
  | E : Version _ _ = (_, _) |- _ => apply Version_pure in E
  | E : version_of_arg _ _ = (_, _) |- _ => apply version_of_arg_pure in E
  | E : version_if_truthy _ _ = (_, _) |- _ => apply version_if_truthy_pure in E
  | E : (let '(_, _) := ?p in _) _ = (_, _) |- _ => destruct p
  | E : (if ?b then _ else _) _ = (_, _) |- _ => destruct b eqn:?
  | E : (match ?x with _ => _ end) _ = (_, _) |- _ => destruct x eqn:?
  end.

Ltac minv := repeat (minv1; simplify_eq/=).

Ltac unfold_api :=
  unfold SandboxApi._cls_get_info, SandboxApi._get_ssh, SandboxApi._create_sandbox,
    SandboxApi._cls_connect, SandboxApi._cls_resume, SandboxApi._cls_kill,
    SandboxApi._cls_set_timeout, SandboxApi._cls_pause, SandboxApi._cls_get_metrics,
    client_get, parse_ssh_info, version_below in *.

(** ** Rules for what a computation emits *)

Section Emits.
Context {CP : Type}.

Lemma emits_ret {A} (a : A) (P : list Exchange -> result A -> Prop) :
  P [] (Ok a) -> emits (CP := CP) (ret a) P.
Proof.
  intros HP w r w' E. apply ret_inv in E as [-> ->].
  exists []. by rewrite app_nil_r.
Qed.

Lemma emits_raise {A} e (P : list Exchange -> result A -> Prop) :
  P [] (Raise e) -> emits (CP := CP) (raise e) P.
Proof.
  intros HP w r w' E. apply raise_inv in E as [-> ->].
  exists []. by rewrite app_nil_r.
Qed.

Lemma emits_round_trip {A} (op : CP -> result A * CP) record
      (P : list Exchange -> result A -> Prop) :
  (forall r, P [record r] r) -> emits (round_trip op record) P.
Proof.
  intros HP w r w' E. apply round_trip_inv in E as (cp' & _ & ->).
  exists [record r]. auto.
Qed.

Lemma emits_bind {A B} (m : M CP A) (f : A -> M CP B)
      (P1 : list Exchange -> result A -> Prop)
      (P2 P : list Exchange -> result B -> Prop) :
  emits m P1 -> (forall a, emits (f a) P2) ->
  (forall n1 a n2 r, P1 n1 (Ok a) -> P2 n2 r -> P (n1 ++ n2)%list r) ->
  (forall n1 e, P1 n1 (Raise e) -> P n1 (Raise e)) ->
  emits (bind m f) P.
Proof.
  intros Hm Hf Hok Herr w r w' E.
  apply bind_inv in E as [(a & w1 & E1 & E2) | (e & E1 & ->)].
  - apply Hm in E1 as (n1 & N1 & HP1). apply Hf in E2 as (n2 & N2 & HP2).
    exists (n1 ++ n2)%list. split; [| eauto].
    by rewrite N2, N1, app_assoc.
  - apply Hm in E1 as (n1 & N1 & HP1). eauto.
Qed.

Lemma emits_local {A} (m : M CP A) (P : list Exchange -> result A -> Prop) :
  (forall w r w', m w = (r, w') -> net w' = net w) ->
  (forall r, P [] r) -> emits m P.
Proof.
  intros Hm HP w r w' E. exists []. rewrite app_nil_r. eauto.
Qed.

Lemma new_config_net c (w : World CP) r w' :
  new_config c w = (r, w') -> net w' = net w.
Proof. intros E. by apply new_config_inv in E as [_ ->]. Qed.

Lemma new_transport_net t (w : World CP) r w' :
  new_transport t w = (r, w') -> net w' = net w.
Proof. intros E. by apply new_transport_inv in E as [_ ->]. Qed.

Lemma get_config_net ref (w : World CP) r w' :
  get_config ref w = (r, w') -> net w' = net w.
Proof. intros E. by apply get_config_inv in E as [-> _]. Qed.

Lemma set_header_net ref k v (w : World CP) r w' :
  set_header ref k v w = (r, w') -> net w' = net w.
Proof.
  intros E.
  by apply set_header_inv in E as [(c & _ & _ & ->) | (_ & -> & _)].
Qed.

End Emits.

(** ** Text and pattern matching *)

Section Matching.
Import Re.









End Matching.

(** ** Backend selection *)

Section Backend.
Context {CP : Type} `{Remote CP} `{SandboxSetup}.

Lemma sync_init_backend template timeout metadata envs secure opts w s w' :
  Sandbox.__init__ template timeout metadata envs secure opts w = (Ok s, w') ->
  backend_ok s = true.
Proof.
  unfold Sandbox.__init__. intros E.
  repeat first
    [ match type of E with
      | bind _ _ _ = _ => apply bind_Ok_inv in E as (? & ? & _ & E)
      end
    | match type of E with
      | (let '(_, _) := ?p in _) _ = _ => destruct p
      | (if ?b then _ else _) _ = _ => destruct b eqn:?
      | raise _ _ = (Ok _, _) => discriminate E
      | ret _ _ = (Ok _, _) => injection E as <- <-
      end ].
  all: unfold backend_ok; cbn [_sandbox_id].
  all: match goal with Hb : is_brd _ = _ |- _ => rewrite Hb end.
  all: reflexivity.
Qed.

Lemma async_init_backend opts (w : World CP) s w' :
  AsyncSandbox.__init__ opts w = (Ok s, w') -> backend_ok s = true.
Proof.
  unfold AsyncSandbox.__init__. intros E.
  repeat first
    [ match type of E with
      | bind _ _ _ = _ => apply bind_Ok_inv in E as (? & ? & _ & E)
      end
    | match type of E with
      | (if ?b then _ else _) _ = _ => destruct b eqn:?
      | (match ?x with _ => _ end) _ = _ => destruct x eqn:?
      | raise _ _ = (Ok _, _) => discriminate E
      | ret _ _ = (Ok _, _) => injection E as <- <-
      end ].
  all: unfold backend_ok; cbn [_sandbox_id].
  all: match goal with Hb : is_brd _ = _ |- _ => rewrite Hb end.
  all: reflexivity.
Qed.

(** Every entry point ends in a constructor call. *)
Lemma construction_ends_in_init (m : M CP Session) :
  construction m -> forall w s w', m w = (Ok s, w') ->
  (exists t to md en se o w1, Sandbox.__init__ t to md en se o w1 = (Ok s, w')) \/
  (exists o w1, AsyncSandbox.__init__ o w1 = (Ok s, w')).
Proof.
  intros Hm w s w' E. destruct Hm.
  all: unfold Sandbox.connect, Sandbox.resume, AsyncSandbox.connect,
         AsyncSandbox.resume, Sandbox.beta_create, AsyncSandbox.create,
         AsyncSandbox.beta_create,
         Sandbox._cls_connect, Sandbox._cls_resume, Sandbox._create, Sandbox.cls,
         AsyncSandbox._cls_connect, AsyncSandbox._cls_resume,
         AsyncSandbox._create in E.
  all: repeat first
    [ match type of E with
      | bind _ _ _ = _ => apply bind_Ok_inv in E as (? & ? & _ & E)
      end
    | match type of E with
      | (let '(_, _) := ?p in _) _ = _ => destruct p
      | (if ?b then _ else _) _ = _ => destruct b eqn:?
      end ].
  all: first [ left; do 7 eexists; exact E | right; do 2 eexists; exact E ].
Qed.

End Backend.

(** ** Unparsed connect commands *)

Section ParseSafe.
Context {CP : Type} `{Remote CP} `{SandboxSetup}.








End ParseSafe.


Section ParseSafeRuns.
Context {CP : Type} `{Remote CP} `{SandboxSetup}.




End ParseSafeRuns.

(** ** What a successful constructor call leaves behind *)

Ltac heap :=
  repeat match goal with
    | H : (<[?n := ?c]> ?l) !! ?n = Some _, H0 : ?l !! ?n = Some _ |- _ =>
        rewrite (list_lookup_insert_eq l n c (lookup_lt_Some _ _ _ H0)) in H;
        simplify_eq/=
    | H : ((?l ++ [?c])%list) !! length ?l = Some _ |- _ =>
        rewrite (list_lookup_middle l [] c (length l) eq_refl) in H;
        simplify_eq/=
    | H : (<[length ?l := ?c']> ((?l ++ [?c])%list)) !! length ?l = Some _ |- _ =>
        rewrite list_lookup_insert_eq in H by (rewrite length_app; simpl; lia);
        simplify_eq/=
    end.

Ltac heap_goal :=
  first
    [ eassumption
    | apply list_lookup_insert_eq; eapply lookup_lt_Some; eassumption
    | apply list_lookup_insert_eq; rewrite length_app; simpl; lia
    | by apply list_lookup_middle ].

Ltac use_eqs :=
  repeat match goal with
    | H : ?x = Some _ |- context [?x] => rewrite H
    | H : ?x = None |- context [?x] => rewrite H
    | H : ?x = true |- context [?x] => rewrite H
    | H : ?x = false |- context [?x] => rewrite H
    end.

Arguments Sandbox.__init__ : simpl never.
Arguments AsyncSandbox.__init__ : simpl never.

Section InitOk.
Context {CP : Type} `{Remote CP} `{SandboxSetup}.

Lemma sync_init_ok template timeout metadata envs secure opts w s w' :
  Sandbox.__init__ template timeout metadata envs secure opts w = (Ok s, w') ->
  exists c0 new tr,
    match o_connection_config opts with
    | Some c => _connection_config s = c /\ configs w !! c = Some c0
    | None => _connection_config s = length (configs w) /\
              c0 = ConnectionConfig_new ∅ (o_api opts)
    end /\
    net w' = (net w ++ new)%list /\
    transports w' = (transports w ++ [tr])%list /\
    tr_limits tr = self_limits /\
    _transport s = Some (length (transports w)) /\
    let c1 := from_option (with_header c0 "X-Access-Token") c0 (obtained_token new) in
    configs w' !! _connection_config s = Some c1 /\
    (forall api, _envd_api s = Some api -> cl_headers api = cc_headers c1) /\
    (if cc_debug c0 then _sandbox_id s = "debug_sandbox_id"
     else from_option (fun id => _sandbox_id s = id) True (o_sandbox_id opts)).
Proof.
  unfold Sandbox.__init__. unfold_api. intros E.
  minv.
  all: heap.
  all: cbn [_connection_config _transport _envd_api _sandbox_id net transports configs].
  all: rewrite <- ?app_assoc.
  all: do 3 eexists; (split; [split; [reflexivity | first [eassumption | reflexivity]] |]);
    (split; [first [reflexivity | symmetry; apply app_nil_r] |]);
    (split; [reflexivity|]); (split; [reflexivity|]); (split; [reflexivity|]);
    cbn [obtained_token token_of app]; use_eqs; cbn [from_option ConnectionConfig_new cc_debug default];
    use_eqs; cbn [from_option];
    (split; [try heap_goal|]); try (split; [by intros ? [= <-] |]); try reflexivity.
Qed.

Lemma async_init_ok opts (w : World CP) s w' :
  AsyncSandbox.__init__ opts w = (Ok s, w') ->
  exists c0,
    o_sandbox_id opts = Some (_sandbox_id s) /\
    o_connection_config opts = Some (_connection_config s) /\
    configs w !! _connection_config s = Some c0 /\
    configs w' = configs w /\ net w' = net w /\
    (forall api, _envd_api s = Some api -> cl_headers api = cc_headers c0) /\
    match _transport s with
    | Some r =>
        r = length (transports w) /\
        exists tr, transports w' = (transports w ++ [tr])%list /\ tr_limits tr = self_limits
    | None => transports w' = transports w /\ _envd_api s = None
    end.
Proof.
  unfold AsyncSandbox.__init__. unfold_api. intros E.
  minv.
  all: eexists; repeat split; cbn; try eassumption; try reflexivity.
  all: try by intros ? [= <-].
  all: eexists; split; reflexivity.
Qed.

Lemma obtained_token_app l1 l2 :
  obtained_token (l1 ++ l2) =
    from_option Some (obtained_token l1) (obtained_token l2).
Proof.
  induction l1 as [|x l1 IH]; simpl.
  - by destruct (obtained_token l2).
  - rewrite IH. by destruct (obtained_token l2).
Qed.

Lemma token_headers_lookup tok :
  token_headers tok !! "X-Access-Token" = present tok.
Proof.
  unfold token_headers. destruct (present tok); [apply lookup_singleton_eq | done].
Qed.

End InitOk.

(** ** The class methods: a prefix of calls, then the constructor *)

Section Shape.
Context {CP : Type} `{Remote CP} `{SandboxSetup}.

Lemma construction_shape (m : M CP Session) w s w' :
  construction m -> m w = (Ok s, w') ->
  (exists t to md en se o, Sandbox.__init__ t to md en se o w = (Ok s, w')) \/
  (exists o, AsyncSandbox.__init__ o w = (Ok s, w')) \/
  (exists o w1 pre sid c c0,
      (Sandbox.cls o w1 = (Ok s, w') \/ AsyncSandbox.__init__ o w1 = (Ok s, w')) /\
      net w1 = (net w ++ pre)%list /\
      transports w1 = transports w /\
      o_sandbox_id o = Some sid /\
      o_connection_config o = Some c /\
      configs w1 !! c = Some c0).
Proof.
  intros Hm E. destruct Hm.
  1: { left. do 6 eexists. exact E. }
  4: { right. left. eexists. exact E. }
  all: right; right.
  all: unfold Sandbox.connect, Sandbox.resume, AsyncSandbox.connect,
         AsyncSandbox.resume, Sandbox.beta_create, AsyncSandbox.create,
         AsyncSandbox.beta_create,
         Sandbox._cls_connect, Sandbox._cls_resume, Sandbox._create,
         AsyncSandbox._cls_connect, AsyncSandbox._cls_resume,
         AsyncSandbox._create in E.
  all: unfold_api.
  all: minv.
  all: heap.
  all: match goal with
       | E : Sandbox.cls ?o ?w1 = _ |- _ => exists o, w1
       | E : AsyncSandbox.__init__ ?o ?w1 = _ |- _ => exists o, w1
       end.
  all: do 4 eexists.
  all: split; [first [left; eassumption | right; eassumption] |].
  all: cbn [net transports configs o_sandbox_id o_connection_config].
  all: rewrite <- ?app_assoc.
  all: split; [first [reflexivity | symmetry; apply app_nil_r] |].
  all: split; [reflexivity |].
  all: split; [reflexivity |].
  all: split; [reflexivity |].
  all: by apply list_lookup_middle.
Qed.

End Shape.

(** ** Calls made on the way *)

Section Calls.
Context {CP : Type} `{Remote CP} `{SandboxSetup}.
Variable ok : Exchange -> bool.

Lemma ac_ret {A} (a : A) : emits (CP := CP) (ret a) (all_calls ok).
Proof. by apply emits_ret. Qed.

Lemma ac_raise {A} e : emits (CP := CP) (raise (A := A) e) (all_calls ok).
Proof. by apply emits_raise. Qed.

Lemma ac_bind {A B} (m : M CP A) (f : A -> M CP B) :
  emits m (all_calls ok) -> (forall a, emits (f a) (all_calls ok)) ->
  emits (bind m f) (all_calls ok).
Proof.
  intros Hm Hf. eapply emits_bind; [exact Hm | exact Hf | |].
  - unfold all_calls. intros n1 a n2 r H1 H2. by rewrite forallb_app, H1, H2.
  - unfold all_calls. auto.
Qed.

Lemma ac_round_trip {A} (op : CP -> result A * CP) record :
  (forall r, ok (record r) = true) ->
  emits (round_trip op record) (all_calls ok).
Proof.
  intros Hr. apply emits_round_trip. intros r. unfold all_calls. simpl.
  by rewrite Hr.
Qed.

Lemma ac_local {A} (m : M CP A) :
  (forall w r w', m w = (r, w') -> net w' = net w) -> emits m (all_calls ok).
Proof. intros Hm. by apply emits_local. Qed.

End Calls.

Ltac ac_step :=
  match goal with
  | |- emits (bind _ _) _ => apply ac_bind; [| intros ?]
  | |- emits (ret _) _ => apply ac_ret
  | |- emits (raise _) _ => apply ac_raise
  | |- emits (round_trip _ _) _ => apply ac_round_trip; intros ?; reflexivity
  | |- emits (new_config _) _ => apply ac_local, @new_config_net
  | |- emits (new_transport _) _ => apply ac_local, @new_transport_net
  | |- emits (get_config _) _ => apply ac_local, @get_config_net
  | |- emits (set_header _ _ _) _ => apply ac_local, @set_header_net
  | |- emits (let '(_, _) := ?p in _) _ => destruct p
  | |- emits (if ?b then _ else _) _ => destruct b
  | |- emits (match ?x with _ => _ end) _ => destruct x
  end.

Section NoResume.
Context {CP : Type} `{Remote CP} `{SandboxSetup}.

Lemma sync_init_no_resume template timeout metadata envs secure opts :
  emits (Sandbox.__init__ template timeout metadata envs secure opts)
        (all_calls (fun x => negb (is_resume_call x))).
Proof.
  unfold Sandbox.__init__.
  unfold SandboxApi._cls_get_info, SandboxApi._create_sandbox, SandboxApi._get_ssh,
    parse_ssh_info, version_if_truthy, version_of_arg, Version.
  repeat ac_step.
Qed.

Lemma async_init_no_resume opts :
  emits (CP := CP) (AsyncSandbox.__init__ opts)
        (all_calls (fun x => negb (is_resume_call x))).
Proof.
  unfold AsyncSandbox.__init__. unfold version_of_arg, Version.
  repeat ac_step.
Qed.

(** For an SSH-backed identity, connect asks for the sandbox info and
    the SSH credentials and never calls connect or resume. *)
Lemma brd_connect_calls sandbox_id timeout p :
  is_brd sandbox_id = true ->
  emits (Sandbox._cls_connect sandbox_id timeout p)
        (fun new r =>
           forallb (fun x => negb (is_resume_call x)) new = true /\
           forall s, r = Ok s ->
             exists info ssh rest,
               new = XGetInfo sandbox_id p (Ok info)
                       :: XGetSsh sandbox_id p (Ok ssh) :: rest).
Proof.
  intros Hb w r w' E.
  assert (emits (Sandbox._cls_connect sandbox_id timeout p)
                (all_calls (fun x => negb (is_resume_call x)))) as Hall.
  { unfold Sandbox._cls_connect, Sandbox.cls. rewrite Hb.
    unfold SandboxApi._cls_get_info, SandboxApi._get_ssh, parse_ssh_info.
    repeat first [ apply sync_init_no_resume | ac_step ]. }
  destruct (Hall _ _ _ E) as (new & Hnew & Hok).
  exists new. split; [exact Hnew|]. split; [exact Hok|].
  intros s ->. unfold Sandbox._cls_connect, Sandbox.cls in E. rewrite Hb in E.
  unfold_api. minv.
  apply sync_init_no_resume in E as (rest & Hrest & _). cbn [net] in Hrest.
  rewrite Hrest, <- !app_assoc in Hnew. apply app_inv_head in Hnew as <-.
  simpl. eauto.
Qed.

Lemma brd_async_connect_calls sandbox_id timeout p :
  is_brd sandbox_id = true ->
  emits (AsyncSandbox._cls_connect sandbox_id timeout p)
        (fun new r =>
           forallb (fun x => negb (is_resume_call x)) new = true /\
           forall s, r = Ok s ->
             exists info ssh rest,
               new = XGetInfo sandbox_id p (Ok info)
                       :: XGetSsh sandbox_id p (Ok ssh) :: rest).
Proof.
  intros Hb w r w' E.
  assert (emits (AsyncSandbox._cls_connect sandbox_id timeout p)
                (all_calls (fun x => negb (is_resume_call x)))) as Hall.
  { unfold AsyncSandbox._cls_connect. rewrite Hb.
    unfold SandboxApi._cls_get_info, SandboxApi._get_ssh, parse_ssh_info.
    repeat first [ apply async_init_no_resume | ac_step ]. }
  destruct (Hall _ _ _ E) as (new & Hnew & Hok).
  exists new. split; [exact Hnew|]. split; [exact Hok|].
  intros s ->. unfold AsyncSandbox._cls_connect in E. rewrite Hb in E.
  unfold_api. minv.
  apply async_init_no_resume in E as (rest & Hrest & _). cbn [net] in Hrest.
  rewrite Hrest, <- !app_assoc in Hnew. apply app_inv_head in Hnew as <-.
  simpl. eauto.
Qed.

End NoResume.

(** ** Operations on a session *)

Section Methods.
Context {CP : Type} `{Remote CP} `{SandboxSetup}.


End Methods.

(** ** Pools and access-token headers of constructed sessions *)

Section Constructed.
Context {CP : Type} `{Remote CP} `{SandboxSetup}.

Lemma brd_no_client s :
  backend_ok s = true -> is_brd (_sandbox_id s) = true -> _envd_api s = None.
Proof.
  unfold backend_ok. intros Hb Hs. rewrite Hs in Hb.
  apply andb_true_iff in Hb as [Hb _]. unfold ssh_surfaces in Hb.
  apply andb_true_iff in Hb as [_ Hb]. by apply bool_decide_eq_true_1 in Hb.
Qed.

Lemma construction_pool (m : M CP Session) w s w' :
  construction m -> m w = (Ok s, w') ->
  exists new,
    transports w' = (transports w ++ new)%list /\
    (forall t, t ∈ new -> tr_limits t = self_limits) /\
    (forall r, _transport s = Some r ->
       length (transports w) <= r /\
       exists t, t ∈ new /\ transports w' !! r = Some t) /\
    (is_Some (_envd_api s) -> is_Some (_transport s)).
Proof.
  intros Hm E.
  assert (forall t to md en se o w1,
             Sandbox.__init__ t to md en se o w1 = (Ok s, w') ->
             transports w1 = transports w ->
             exists new,
               transports w' = (transports w ++ new)%list /\
               (forall t, t ∈ new -> tr_limits t = self_limits) /\
               (forall r, _transport s = Some r ->
                  length (transports w) <= r /\
                  exists t, t ∈ new /\ transports w' !! r = Some t) /\
               (is_Some (_envd_api s) -> is_Some (_transport s))) as Hsync.
  { intros t to md en se o w1 E1 Hw.
    apply sync_init_ok in E1 as (c0 & new & tr & _ & _ & Htr & Hlim & Hs & _).
    rewrite Hw in Htr, Hs. exists [tr]. split; [exact Htr|]. split.
    { intros t' Ht. by apply list_elem_of_singleton in Ht as ->. }
    split; [| rewrite Hs; eauto].
    intros r Hr. rewrite Hs in Hr. injection Hr as <-. split; [lia|].
    exists tr. split; [by apply list_elem_of_singleton|].
    rewrite Htr. by apply list_lookup_middle. }
  assert (forall o w1,
             AsyncSandbox.__init__ o w1 = (Ok s, w') ->
             transports w1 = transports w ->
             exists new,
               transports w' = (transports w ++ new)%list /\
               (forall t, t ∈ new -> tr_limits t = self_limits) /\
               (forall r, _transport s = Some r ->
                  length (transports w) <= r /\
                  exists t, t ∈ new /\ transports w' !! r = Some t) /\
               (is_Some (_envd_api s) -> is_Some (_transport s))) as Hasync.
  { intros o w1 E1 Hw.
    apply async_init_ok in E1 as (c0 & _ & _ & _ & _ & _ & _ & Htr).
    destruct (_transport s) as [r|].
    - destruct Htr as (-> & tr & Htr & Hlim). rewrite Hw in Htr |- *.
      exists [tr]. split; [exact Htr|]. split.
      { intros t' Ht. by apply list_elem_of_singleton in Ht as ->. }
      split; [| eauto].
      intros r [= <-]. split; [lia|].
      exists tr. split; [by apply list_elem_of_singleton|].
      rewrite Htr. by apply list_lookup_middle.
    - destruct Htr as [Htr Hapi]. rewrite Hw in Htr. exists [].
      split; [by rewrite app_nil_r|]. split.
      { intros t' Ht. by apply elem_of_nil in Ht. }
      split; [done|]. rewrite Hapi. by intros [? ?]. }
  destruct (construction_shape m w s w' Hm E)
    as [(t & to & md & en & se & o & E1)
       | [(o & E1)
         | (o & w1 & pre & sid & c & c0 & [E1 | E1] & _ & Hw & _)]].
  - eapply Hsync; eauto.
  - eapply Hasync; eauto.
  - eapply Hsync; eauto.
  - eapply Hasync; eauto.
Qed.



End Constructed.

(** ** Versions *)

Lemma tuple_ltb_thresholds l :
  Packaging.tuple_ltb l [0; 2; 4]%N = false ->
  Packaging.tuple_ltb l [0; 1; 5]%N = false.
Proof.
  destruct l as [|a [|b [|c l]]]; cbn; try done.
  all: repeat (case_match; try done).
  all: rewrite ?N.ltb_lt, ?N.ltb_ge in *; lia.
Qed.

Lemma ltb_thresholds v :
  Packaging.ltb v Packaging.V_0_2_4 = false ->
  Packaging.ltb v Packaging.V_0_1_5 = false.
Proof. apply tuple_ltb_thresholds. Qed.

Lemma parse_thresholds :
  Packaging.parse "0.1.5" = Some Packaging.V_0_1_5 /\
  Packaging.parse "0.2.4" = Some Packaging.V_0_2_4.
Proof. split; reflexivity. Qed.

Section Gate.
Context {CP : Type} `{Remote CP} `{SandboxSetup}.

Lemma async_get_metrics_eq self start end_ p :
  AsyncSandbox.get_metrics (CP := CP) self start end_ p
  = Sandbox.get_metrics self start end_ p.
Proof. reflexivity. Qed.

Lemma async_is_running_eq self t :
  AsyncSandbox.is_running (CP := CP) self t = Sandbox.is_running self t.
Proof. reflexivity. Qed.

Lemma async_kill_eq self p :
  AsyncSandbox.kill (CP := CP) self p = Sandbox.kill self p.
Proof. reflexivity. Qed.

Lemma async_set_timeout_eq self t p :
  AsyncSandbox.set_timeout (CP := CP) self t p = Sandbox.set_timeout self t p.
Proof. reflexivity. Qed.

Lemma get_metrics_gate (self : Session) v cfg start end_ p (w : World CP) :
  _envd_version self = Some (Some v) ->
  configs w !! _connection_config self = Some cfg ->
  let q := get_api_params cfg p in
  let id := _sandbox_id self in
  let answer := remote_get_metrics id start end_ q (remote w) in
  let called log :=
    (answer.1,
     mkWorld answer.2 (net w ++ [XGetMetrics id start end_ q answer.1])
             log (configs w) (transports w)) in
  Sandbox.get_metrics self start end_ p w =
    if Packaging.ltb v Packaging.V_0_1_5
    then (Raise (SandboxException msg_no_metrics), w)
    else if Packaging.ltb v Packaging.V_0_2_4
         then called (logged w ++ [msg_no_disk])
         else called (logged w).
Proof.
  intros Hv Hc q id answer called.
  unfold Sandbox.get_metrics, version_below, SandboxApi._cls_get_metrics.
  rewrite Hv. unfold bind at 1. cbn [ret].
  destruct (Packaging.ltb v Packaging.V_0_1_5); [reflexivity|].
  unfold bind at 1. cbn [ret].
  destruct (Packaging.ltb v Packaging.V_0_2_4).
  - unfold bind at 1, warning. cbv beta iota.
    unfold bind, get_config. cbn [configs]. rewrite Hc.
    unfold round_trip. cbn [remote net logged configs transports].
    subst called answer q id. cbv beta.
    destruct (remote_get_metrics _ _ _ _ _); reflexivity.
  - unfold bind at 1, ret. cbv beta iota.
    unfold bind, get_config. rewrite Hc.
    unfold round_trip.
    subst called answer q id. cbv beta.
    destruct (remote_get_metrics _ _ _ _ _); reflexivity.
Qed.

Lemma is_running_probe (self : Session) api cfg t (w : World CP) :
  _envd_api self = Some api ->
  configs w !! _connection_config self = Some cfg ->
  let rq := {| req_base_url := cl_base_url api;
               req_route := ENVD_API_HEALTH_ROUTE;
               req_headers := cl_headers api;
               req_timeout := get_request_timeout cfg t |} in
  let answer := remote_health rq (remote w) in
  let w' := mkWorld answer.2 (net w ++ [XHealth rq answer.1])
                    (logged w) (configs w) (transports w) in
  Sandbox.is_running self t w =
    (match answer.1 with
     | Ok r =>
         if (status_code r =? 502)%Z then Ok false
         else match handle_envd_api_exception r with
              | Some HttpxTimeoutException => Raise format_request_timeout_error
              | Some err => Raise err
              | None => Ok true
              end
     | Raise HttpxTimeoutException => Raise format_request_timeout_error
     | Raise e => Raise e
     end, w').
Proof.
  intros Ha Hc rq answer w'.
  unfold Sandbox.is_running. rewrite Ha.
  unfold except_httpx_timeout, bind, get_config. rewrite Hc.
  unfold client_get, round_trip. fold rq. fold answer.
  subst w'. destruct answer as [[r|e] cp']; cbn [fst snd].
  - destruct (status_code r =? 502)%Z; [reflexivity|].
    destruct (handle_envd_api_exception r) as [[]|]; reflexivity.
  - destruct e; reflexivity.
Qed.

End Gate.

(** ** Against the control plane of the specification *)

Section SpecPlane.
Import SpecRemote.
Implicit Types w : World ControlPlane.

Lemma kill_run (self : Session) cfg p w :
  configs w !! _connection_config self = Some cfg ->
  let id := _sandbox_id self in
  let q := get_api_params cfg p in
  let found := bool_decide (is_Some (sandboxes (remote w) !! id)) in
  Sandbox.kill self p w =
    (Ok found,
     mkWorld (with_sandboxes (remote w) (delete id (sandboxes (remote w))))
             (net w ++ [XKill id q (Ok found)])
             (logged w) (configs w) (transports w)).
Proof.
  intros Hc id q found.
  unfold Sandbox.kill, bind, get_config. rewrite Hc.
  unfold SandboxApi._cls_kill, round_trip. cbn [remote_kill spec_remote].
  unfold kill. fold id. subst found.
  destruct (sandboxes (remote w) !! id) as [sb|] eqn:Hs.
  - rewrite bool_decide_eq_true_2 by eauto. reflexivity.
  - rewrite bool_decide_eq_false_2 by (by intros [? ?]).
    rewrite delete_id by done.
    destruct w as [[? ? ? ?] ? ? ? ?]. reflexivity.
Qed.

Lemma set_timeout_run (self : Session) cfg p timeout sb w :
  configs w !! _connection_config self = Some cfg ->
  sandboxes (remote w) !! _sandbox_id self = Some sb ->
  let id := _sandbox_id self in
  let q := get_api_params cfg p in
  Sandbox.set_timeout self timeout p w =
    (Ok tt,
     mkWorld (with_sandboxes (remote w)
                (<[id := set_deadline sb (rs_state sb) (rs_auto_pause sb)
                                       (now (remote w) + timeout)]>
                   (sandboxes (remote w))))
             (net w ++ [XSetTimeout id timeout q (Ok tt)])
             (logged w) (configs w) (transports w)).
Proof.
  intros Hc Hs id q.
  unfold Sandbox.set_timeout, bind, get_config. rewrite Hc.
  unfold SandboxApi._cls_set_timeout, round_trip.
  cbn [remote_set_timeout spec_remote]. unfold set_timeout. fold id.
  subst id. rewrite Hs. reflexivity.
Qed.

End SpecPlane.

(** ** The guard of the sync constructor *)

Section Guard.
Context {CP : Type} `{Remote CP} `{SandboxSetup}.

Lemma init_guard template timeout metadata envs secure opts id (w : World CP) :
  o_sandbox_id opts = Some id -> Text.truthy id = true ->
  is_Some metadata \/ is_Some template ->
  Sandbox.__init__ template timeout metadata envs secure opts w =
    (Raise (SandboxException msg_existing), w).
Proof.
  intros Hid Ht Hm. unfold Sandbox.__init__. rewrite Hid, Ht.
  assert (bool_decide (is_Some metadata) || bool_decide (is_Some template) = true)
    as ->; [| reflexivity].
  apply orb_true_iff.
  destruct Hm; [left | right]; by apply bool_decide_eq_true_2.
Qed.

End Guard.

(** ** Connect commands of the canonical form *)

Section Canonical.
Import Re.

Lemma append_cons c (a b : string) : String c a +:+ b = String c (a +:+ b).
Proof. reflexivity. Qed.

Lemma append_nil (b : string) : "" +:+ b = b.
Proof. reflexivity. Qed.


Lemma length_append (a b : string) :
  String.length (a +:+ b) = String.length a + String.length b.
Proof.
  induction a as [|c a IH]; [done|]. rewrite append_cons. simpl. by rewrite IH.
Qed.

Lemma substring_prefix (a b : string) :
  String.substring 0 (String.length a) (a +:+ b) = a.
Proof.
  induction a as [|c a IH].
  - rewrite append_nil. by destruct b.
  - rewrite append_cons. simpl. by rewrite IH.
Qed.

Lemma consumed_append (a b : string) : consumed (a +:+ b) b = a.
Proof.
  unfold consumed. rewrite length_append.
  replace (String.length a + String.length b - String.length b)
    with (String.length a) by lia.
  apply substring_prefix.
Qed.








End Canonical.

(** * Main results *)

Import SpecRemote Scenario.

(** C1. Every way of constructing a session (the two constructors and the
    create, connect and resume class methods, sync and async) selects the
    backend from the identity of the session by the test
    ["brd" in sandbox_id.lower()]: with the marker the session has exactly
    the SSH surfaces (SSH commands, SSH filesystem, ADB shell), without it
    exactly the HTTP surfaces (filesystem, commands, pty), never both; and
    any two sessions with the same identity have the same set. *)
Theorem C1_backend_selection {CP : Type} `{Remote CP} `{SandboxSetup}
        (m : M CP Session) (w : World CP) (s : Session) (w' : World CP) :
  construction m -> m w = (Ok s, w') ->
  (if Text.contains "brd" (Text.lower (_sandbox_id s))
   then ssh_surfaces s = true /\ http_surfaces s = false
   else http_surfaces s = true /\ ssh_surfaces s = false) /\
  (forall m2 (w2 : World CP) s2 w2',
      construction m2 -> m2 w2 = (Ok s2, w2') ->
      _sandbox_id s2 = _sandbox_id s ->
      ssh_surfaces s2 = ssh_surfaces s /\ http_surfaces s2 = http_surfaces s).
Proof.
  assert (forall m (w : World CP) s w',
             construction m -> m w = (Ok s, w') -> backend_ok s = true) as Hall.
  { intros m0 w0 s0 w0' Hm E.
    destruct (construction_ends_in_init m0 Hm _ _ _ E)
      as [(t & to & md & en & se & o & w1 & E1) | (o & w1 & E1)].
    - by apply sync_init_backend in E1.
    - by apply async_init_backend in E1. }
  assert (forall s, backend_ok s = true ->
                    if is_brd (_sandbox_id s)
                    then ssh_surfaces s = true /\ http_surfaces s = false
                    else http_surfaces s = true /\ ssh_surfaces s = false) as Hsplit.
  { intros s0. unfold backend_ok. destruct (is_brd (_sandbox_id s0)); intros Hb.
    - apply andb_true_iff in Hb as [Hs Hh]. by apply negb_true_iff in Hh.
    - apply andb_true_iff in Hb as [Hh Hs]. by apply negb_true_iff in Hs. }
  intros Hm E. split.
  - apply Hsplit. eauto.
  - intros m2 w2 s2 w2' Hm2 E2 Hid.
    pose proof (Hsplit _ (Hall _ _ _ _ Hm E)) as H1.
    pose proof (Hsplit _ (Hall _ _ _ _ Hm2 E2)) as H2.
    rewrite Hid in H2. destruct (is_brd (_sandbox_id s)).
    + destruct H1 as [-> ->], H2 as [-> ->]. done.
    + destruct H1 as [-> ->], H2 as [-> ->]. done.
Qed.

Lemma C1_backend_selection_witness :
  exists s w',
    Sandbox._cls_connect "x-BRD-7" None key w0 = (Ok s, w') /\
    ssh_surfaces s = true /\ http_surfaces s = false.
Proof.
  eexists _, _. split; [vm_compute; reflexivity|].
  exact (proj1 (C1_backend_selection
                  (Sandbox._cls_connect "x-BRD-7" None key) w0 _ _
                  (sync_connect _ _ _) eq_refl)).
Defined.



(** C3. For an identity with the marker, resume with any auto-pause flag
    and timeout is the same computation as connect with any timeout, for
    the class methods and the instance methods, sync and async; neither calls
    the control plane's connect or resume operation, and a successful run
    starts by fetching the sandbox info and then the SSH credentials. *)
Theorem C3_resume_is_connect {CP : Type} `{Remote CP} `{SandboxSetup}
        (sandbox_id : string) (auto_pause : bool) (t1 t2 : option Z)
        (p : ApiParams) (w : World CP) :
  is_brd sandbox_id = true ->
  Sandbox._cls_resume sandbox_id auto_pause t1 p w
    = Sandbox._cls_connect sandbox_id t2 p w /\
  AsyncSandbox._cls_resume sandbox_id auto_pause t1 p w
    = AsyncSandbox._cls_connect sandbox_id t2 p w /\
  (forall self, _sandbox_id self = sandbox_id ->
      Sandbox.resume self auto_pause t1 p w = Sandbox.connect self t2 p w /\
      AsyncSandbox.resume self auto_pause t1 p w = AsyncSandbox.connect self t2 p w) /\
  (forall m, m = Sandbox._cls_connect sandbox_id t2 p \/
             m = AsyncSandbox._cls_connect sandbox_id t2 p ->
     forall r w', m w = (r, w') ->
     exists new,
       net w' = net w ++ new /\
       forallb (fun x => negb (is_resume_call x)) new = true /\
       forall s, r = Ok s ->
         exists info ssh rest,
           new = XGetInfo sandbox_id p (Ok info)
                   :: XGetSsh sandbox_id p (Ok ssh) :: rest).
Proof.
  intros Hb.
  assert (forall a t q, Sandbox._cls_resume sandbox_id a t q
                        = Sandbox._cls_connect (CP := CP) sandbox_id t2 q) as Hs.
  { intros a t q. unfold Sandbox._cls_resume, Sandbox._cls_connect. by rewrite Hb. }
  assert (forall a t q, AsyncSandbox._cls_resume sandbox_id a t q
                        = AsyncSandbox._cls_connect (CP := CP) sandbox_id t2 q) as Ha.
  { intros a t q. unfold AsyncSandbox._cls_resume, AsyncSandbox._cls_connect.
    by rewrite Hb. }
  split; [by rewrite Hs|]. split; [by rewrite Ha|]. split.
  - intros self Hid.
    unfold Sandbox.resume, Sandbox.connect, AsyncSandbox.resume, AsyncSandbox.connect.
    rewrite Hid. unfold bind.
    destruct (get_config (_connection_config self) w) as [[cfg|e] w1]; [|done].
    by rewrite Hs, Ha.
  - intros m [-> | ->] r w' E.
    + by apply (brd_connect_calls sandbox_id t2 p Hb).
    + by apply (brd_async_connect_calls sandbox_id t2 p Hb).
Qed.

Lemma C3_resume_is_connect_witness :
  Sandbox._cls_resume "x-BRD-7" true (Some 10%Z) key w0
  = Sandbox._cls_connect "x-BRD-7" None key w0.
Proof.
  exact (proj1 (C3_resume_is_connect "x-BRD-7" true (Some 10%Z) None key w0 eq_refl)).
Defined.

(** C4. [get_metrics] on a session whose cached daemon version is [v]:
    when [v < 0.1.5] it raises the capability error and the process state
    is unchanged, so no call is made; when [0.1.5 <= v < 0.2.4] it logs
    the disk-metrics warning and returns what the control-plane call
    returns; when [0.2.4 <= v] it makes the call and logs nothing.  The
    same holds for the async method. *)
Theorem C4_metrics_version_gate {CP : Type} `{Remote CP} `{SandboxSetup}
        (self : Session) (v : Packaging.Version) (cfg : ConnectionConfig)
        (start end_ : option Z) (p : ApiParams) (w : World CP) :
  _envd_version self = Some (Some v) ->
  configs w !! _connection_config self = Some cfg ->
  let q := get_api_params cfg p in
  let id := _sandbox_id self in
  let answer := remote_get_metrics id start end_ q (remote w) in
  let called log :=
    (answer.1,
     mkWorld answer.2 (net w ++ [XGetMetrics id start end_ q answer.1])
             log (configs w) (transports w)) in
  AsyncSandbox.get_metrics self start end_ p w
    = Sandbox.get_metrics self start end_ p w /\
  (Packaging.ltb v Packaging.V_0_1_5 = true ->
   Sandbox.get_metrics self start end_ p w
     = (Raise (SandboxException msg_no_metrics), w)) /\
  (Packaging.ltb v Packaging.V_0_1_5 = false ->
   Packaging.ltb v Packaging.V_0_2_4 = true ->
   Sandbox.get_metrics self start end_ p w = called (logged w ++ [msg_no_disk])) /\
  (Packaging.ltb v Packaging.V_0_2_4 = false ->
   Sandbox.get_metrics self start end_ p w = called (logged w)).
Proof.
  intros Hv Hc q id answer called.
  pose proof (get_metrics_gate self v cfg start end_ p w Hv Hc) as E.
  cbv zeta in E. fold q id answer in E.
  split; [reflexivity|]. split; [| split].
  - intros Hlt. by rewrite E, Hlt.
  - intros H1 H2. by rewrite E, H1, H2.
  - intros H2. by rewrite E, (ltb_thresholds v H2), H2.
Qed.

Lemma C4_metrics_version_gate_witness :
  Sandbox.get_metrics (http_session "sbx-1" (Packaging.mkVersion [0; 1; 0]%N))
                      None None no_params w1
  = (Raise (SandboxException msg_no_metrics), w1) /\
  logged (Sandbox.get_metrics (http_session "sbx-1" (Packaging.mkVersion [0; 2; 0]%N))
                              None None no_params w1).2 = [msg_no_disk] /\
  logged (Sandbox.get_metrics (http_session "sbx-1" (Packaging.mkVersion [0; 3; 0]%N))
                              None None no_params w1).2 = [].
Proof.
  split; [| split].
  - exact (proj1 (proj2
      (C4_metrics_version_gate
         (http_session "sbx-1" (Packaging.mkVersion [0; 1; 0]%N)) _ _
         None None no_params w1 eq_refl eq_refl)) eq_refl).
  - rewrite (proj1 (proj2 (proj2
      (C4_metrics_version_gate
         (http_session "sbx-1" (Packaging.mkVersion [0; 2; 0]%N)) _ _
         None None no_params w1 eq_refl eq_refl))) eq_refl eq_refl).
    reflexivity.
  - rewrite (proj2 (proj2 (proj2
      (C4_metrics_version_gate
         (http_session "sbx-1" (Packaging.mkVersion [0; 3; 0]%N)) _ _
         None None no_params w1 eq_refl eq_refl))) eq_refl).
    reflexivity.
Defined.

(** C5. [is_running] on an HTTP-backed session sends one health probe
    through the session's client.  A response with status 502 makes it
    return [False] and raise nothing; any other response for which the
    decoder yields an error raises that error; a timeout of the request
    raises the request-timeout error, which is not a transport error.
    The same holds for the async method. *)
Theorem C5_is_running_probe {CP : Type} `{Remote CP} `{SandboxSetup}
        (self : Session) (api : Client) (cfg : ConnectionConfig)
        (t : option Z) (w : World CP) :
  _envd_api self = Some api ->
  configs w !! _connection_config self = Some cfg ->
  let rq := {| req_base_url := cl_base_url api;
               req_route := ENVD_API_HEALTH_ROUTE;
               req_headers := cl_headers api;
               req_timeout := get_request_timeout cfg t |} in
  let answer := remote_health rq (remote w) in
  let w' := mkWorld answer.2 (net w ++ [XHealth rq answer.1])
                    (logged w) (configs w) (transports w) in
  AsyncSandbox.is_running self t w = Sandbox.is_running self t w /\
  (forall r, answer.1 = Ok r -> status_code r = 502%Z ->
             Sandbox.is_running self t w = (Ok false, w')) /\
  (forall r err, answer.1 = Ok r -> status_code r <> 502%Z ->
                 handle_envd_api_exception r = Some err ->
                 err <> HttpxTimeoutException ->
                 Sandbox.is_running self t w = (Raise err, w')) /\
  (answer.1 = Raise HttpxTimeoutException ->
   Sandbox.is_running self t w = (Raise format_request_timeout_error, w') /\
   format_request_timeout_error <> HttpxTimeoutException /\
   forall msg, format_request_timeout_error <> HttpxNetworkError msg).
Proof.
  intros Ha Hc rq answer w'.
  pose proof (is_running_probe self api cfg t w Ha Hc) as E.
  cbv zeta in E. fold rq answer w' in E.
  split; [reflexivity|]. split; [| split].
  - intros r Hr Hs. rewrite E, Hr, Hs. reflexivity.
  - intros r err Hr Hs Herr Hne. rewrite E, Hr, Herr.
    apply Z.eqb_neq in Hs. rewrite Hs. by destruct err.
  - intros Hr. rewrite E, Hr. done.
Qed.

Lemma C5_is_running_probe_witness :
  (Sandbox.is_running (http_session "sbx-9" Packaging.V_0_2_4) None w1).1 = Ok false /\
  (Sandbox.is_running (http_session "sbx-e" Packaging.V_0_2_4) None w1).1
    = Raise (EnvdException 500 "boom") /\
  (Sandbox.is_running (http_session "sbx-t" Packaging.V_0_2_4) None w1).1
    = Raise format_request_timeout_error.
Proof.
  split; [| split].
  - destruct (C5_is_running_probe (http_session "sbx-9" Packaging.V_0_2_4) _ _
                                  None w1 eq_refl eq_refl) as (_ & H502 & _).
    rewrite (H502 {| status_code := 502; body := "" |});
      [reflexivity | by vm_compute | reflexivity].
  - destruct (C5_is_running_probe (http_session "sbx-e" Packaging.V_0_2_4) _ _
                                  None w1 eq_refl eq_refl) as (_ & _ & Herr & _).
    rewrite (Herr {| status_code := 500; body := "boom" |}
                  (EnvdException 500 "boom"));
      [reflexivity | by vm_compute | by vm_compute | by vm_compute | discriminate].
  - destruct (C5_is_running_probe (http_session "sbx-t" Packaging.V_0_2_4) _ _
                                  None w1 eq_refl eq_refl) as (_ & _ & _ & Hto).
    destruct Hto as [E _]; [by vm_compute|]. by rewrite E.
Defined.

(** C6. Against the control plane of the specification, [kill] returns
    [True] exactly when the identity is known and removes it; a second
    [kill], and a [kill] of any identity that is not known, returns
    [False] and raises nothing.  The same holds for the async method. *)
Theorem C6_kill_idempotent (self : Session) (cfg : ConnectionConfig)
        (p : ApiParams) (w : World ControlPlane) :
  configs w !! _connection_config self = Some cfg ->
  let id := _sandbox_id self in
  exists w1 w2,
    Sandbox.kill self p w
      = (Ok (bool_decide (is_Some (sandboxes (remote w) !! id))), w1) /\
    sandboxes (remote w1) !! id = None /\
    Sandbox.kill self p w1 = (Ok false, w2) /\
    sandboxes (remote w2) = sandboxes (remote w1) /\
    AsyncSandbox.kill self p w = Sandbox.kill self p w /\
    AsyncSandbox.kill self p w1 = Sandbox.kill self p w1.
Proof.
  intros Hc id.
  pose proof (kill_run self cfg p w Hc) as E1. cbv zeta in E1. fold id in E1.
  eexists _, _. split; [exact E1|].
  split; [apply lookup_delete_eq|].
  split.
  { match goal with
    | |- Sandbox.kill _ _ ?w1 = _ => rewrite (kill_run self cfg p w1 Hc)
    end.
    cbv zeta. fold id. cbn [remote sandboxes with_sandboxes].
    rewrite lookup_delete_eq.
    rewrite bool_decide_eq_false_2 by (by intros [? ?]). reflexivity. }
  cbn [remote sandboxes with_sandboxes].
  split; [by rewrite delete_delete_eq|]. done.
Qed.

Lemma C6_kill_idempotent_witness :
  exists w2 w3,
    Sandbox.kill (http_session "sbx-1" Packaging.V_0_2_4) no_params w1 = (Ok true, w2) /\
    Sandbox.kill (http_session "sbx-1" Packaging.V_0_2_4) no_params w2 = (Ok false, w3).
Proof.
  destruct (C6_kill_idempotent (http_session "sbx-1" Packaging.V_0_2_4) _
                               no_params w1 eq_refl)
    as (w2 & w3 & E1 & _ & E2 & _).
  exists w2, w3. split; [| exact E2].
  rewrite E1. f_equal.
Defined.

(** C7. Against the control plane of the specification, [set_timeout N]
    followed by [set_timeout M] leaves the remote side exactly as
    [set_timeout M] alone does: the deadline is [M] seconds from now, not
    [N + M], [min N M] or [max N M] seconds; the configuration and
    transport objects and the log of the process are untouched.  The same
    holds for the async method. *)
Theorem C7_set_timeout_replaces (self : Session) (cfg : ConnectionConfig)
        (p : ApiParams) (N M : Z) (sb : RemoteSandbox) (w : World ControlPlane) :
  configs w !! _connection_config self = Some cfg ->
  sandboxes (remote w) !! _sandbox_id self = Some sb ->
  let id := _sandbox_id self in
  exists w1 w2 wM sb2,
    Sandbox.set_timeout self N p w = (Ok tt, w1) /\
    Sandbox.set_timeout self M p w1 = (Ok tt, w2) /\
    Sandbox.set_timeout self M p w = (Ok tt, wM) /\
    remote w2 = remote wM /\
    sandboxes (remote w2) !! id = Some sb2 /\
    rs_end_at sb2 = (now (remote w) + M)%Z /\
    (N <> 0 -> rs_end_at sb2 <> now (remote w) + (N + M))%Z /\
    (N < M -> rs_end_at sb2 <> now (remote w) + Z.min N M)%Z /\
    (M < N -> rs_end_at sb2 <> now (remote w) + Z.max N M)%Z /\
    configs w2 = configs w /\ transports w2 = transports w /\
    logged w2 = logged w /\
    AsyncSandbox.set_timeout self N p w = Sandbox.set_timeout self N p w /\
    AsyncSandbox.set_timeout self M p w1 = Sandbox.set_timeout self M p w1.
Proof.
  intros Hc Hs id.
  pose proof (set_timeout_run self cfg p N sb w Hc Hs) as E1.
  pose proof (set_timeout_run self cfg p M sb w Hc Hs) as EM.
  cbv zeta in E1, EM. fold id in E1, EM.
  eexists _, _, _, _. split; [exact E1|]. split.
  { apply (set_timeout_run self cfg p M); [exact Hc|].
    cbn [remote sandboxes with_sandboxes]. apply lookup_insert_eq. }
  split; [exact EM|].
  cbn [remote sandboxes with_sandboxes now configs transports logged
       set_deadline rs_state rs_auto_pause rs_end_at].
  fold id.
  split. { unfold with_sandboxes. cbn. by rewrite insert_insert_eq. }
  split; [apply lookup_insert_eq|].
  cbn [rs_end_at set_deadline].
  repeat split; lia.
Qed.

Lemma C7_set_timeout_replaces_witness :
  exists w2 sb2,
    bind (Sandbox.set_timeout (http_session "sbx-1" Packaging.V_0_2_4) 60 no_params)
         (fun _ => Sandbox.set_timeout (http_session "sbx-1" Packaging.V_0_2_4)
                                       900 no_params) w1
    = (Ok tt, w2) /\
    sandboxes (remote w2) !! "sbx-1" = Some sb2 /\ rs_end_at sb2 = 1000%Z.
Proof.
  destruct (C7_set_timeout_replaces (http_session "sbx-1" Packaging.V_0_2_4) _
              no_params 60 900 _ w1 eq_refl eq_refl)
    as (w1' & w2 & wM & sb2 & E1 & E2 & _ & _ & Hsb & Hend & _).
  exists w2, sb2. split; [| split; [exact Hsb | exact Hend]].
  unfold bind. by rewrite E1, E2.
Defined.




(** C9 (as stated: one pool shared by all sessions of a process).  Two
    sessions constructed one after the other in the same process hold
    different transport objects, hence different pools. *)
Lemma C9_pool_not_shared :
  exists s1 w1 s2 w2,
    Sandbox._cls_connect "sbx-1" None key w0 = (Ok s1, w1) /\
    Sandbox._cls_connect "sbx-1" None key w1 = (Ok s2, w2) /\
    _transport s1 <> _transport s2.
Proof.
  eexists _, _, _, _. split; [vm_compute; reflexivity|].
  split; [vm_compute; reflexivity|]. discriminate.
Qed.

(** C9 (amended).  The class attribute [SandboxApiBase._limits] bounds a
    pool at 20 connections and 10 keep-alive connections.  Every
    construction (sync or async, by constructor, create, connect or
    resume) creates the transport objects it uses, each with the limits
    object that [self._limits] resolves to, the same for all sessions: it
    is [SandboxApiBase._limits], and the bound 20 and 10, when no class
    before [SandboxApiBase] in the method resolution order defines the
    attribute.  The transport of the session is one of those just
    created, so its pool belongs to that session alone, and every
    HTTP-backed session has one. *)
Theorem C9_pool_per_session {CP : Type} `{Remote CP} `{SandboxSetup}
        (m : M CP Session) (w : World CP) (s : Session) (w' : World CP) :
  construction m -> m w = (Ok s, w') ->
  (max_connections _limits = 20%Z /\
   max_keepalive_connections _limits = 10%Z) /\
  exists new,
    transports w' = transports w ++ new /\
    (forall t, t ∈ new ->
       tr_limits t = self_limits /\
       (self_limits = _limits ->
        max_connections (tr_limits t) = 20%Z /\
        max_keepalive_connections (tr_limits t) = 10%Z)) /\
    (forall r, _transport s = Some r ->
       length (transports w) <= r /\
       exists t, t ∈ new /\ transports w' !! r = Some t) /\
    (is_Some (_envd_api s) -> is_Some (_transport s)).
Proof.
  intros Hm E. split; [done|].
  destruct (construction_pool m w s w' Hm E) as (new & Htr & Hlim & Hfresh & Hhttp).
  exists new. split; [exact Htr|]. split; [| split; [exact Hfresh | exact Hhttp]].
  intros t Ht. rewrite (Hlim t Ht). split; [done|]. by intros ->.
Qed.

Lemma C9_pool_per_session_witness :
  exists s w',
    Sandbox._cls_connect "sbx-1" None key w1 = (Ok s, w') /\
    forall r, _transport s = Some r -> 1 <= r.
Proof.
  destruct (Sandbox._cls_connect "sbx-1" None key w1) as [[s|e] w'] eqn:E;
    [| by vm_compute in E].
  exists s, w'. split; [reflexivity|].
  destruct (C9_pool_per_session (Sandbox._cls_connect "sbx-1" None key) w1 s w'
                                (sync_connect _ _ _) E)
    as (_ & new & _ & _ & Hfresh & _).
  intros r Hr. exact (proj1 (Hfresh r Hr)).
Defined.

(** C10 (the code at the failing input).  With the empty string as
    [sandbox_id], a template and a configuration object, the sync
    constructor does not raise the [SandboxException]: the guard tests
    the truth value of [sandbox_id], the dispatch after it tests
    [sandbox_id is not None], and so the constructor asks the control
    plane for the info of the sandbox [""]. *)
Lemma C10_guard_skips_empty_id :
  exists r w',
    Sandbox.__init__ (Some "base") None None None None (opts_shared "") w_pair
      = (r, w') /\
    r <> Raise (SandboxException msg_existing) /\
    exists p a, net w' = [XGetInfo "" p a].
Proof.
  eexists _, _. split; [vm_compute; reflexivity|].
  split; [discriminate|]. eexists _, _. reflexivity.
Qed.

(** The guard on every other input: when the sync constructor is given a
    non-empty [sandbox_id] in its options together with a metadata or a
    template argument that is not [None], it raises the
    [SandboxException] with the process state unchanged: no configuration
    is built, no call is made and no session is returned. *)
Theorem C10_existing_sandbox_guard {CP : Type} `{Remote CP} `{SandboxSetup}
        (template : option string) (timeout : option Z)
        (metadata envs : option (gmap string string)) (secure : option bool)
        (opts : SandboxOpts) (id : string) (w : World CP) :
  o_sandbox_id opts = Some id -> id <> "" ->
  is_Some metadata \/ is_Some template ->
  Sandbox.__init__ template timeout metadata envs secure opts w
    = (Raise (SandboxException msg_existing), w).
Proof.
  intros Hid Hne Hm. apply (init_guard _ _ _ _ _ _ id); [exact Hid | | exact Hm].
  by destruct id.
Qed.

Lemma C10_existing_sandbox_guard_witness :
  Sandbox.__init__ (Some "base") None None None None (opts_for "sbx-1") w0
  = (Raise (SandboxException msg_existing), w0).
Proof.
  apply (C10_existing_sandbox_guard _ _ _ _ _ _ "sbx-1");
    [reflexivity | discriminate | right; by eexists].
Defined.

(** * Further properties of the sources *)

(** ** The marker in composite identities *)

Section Marker.

Lemma lower_append (a b : string) :
  Text.lower (a +:+ b) = Text.lower a +:+ Text.lower b.
Proof.
  induction a as [|c a IH]; [done|].
  rewrite append_cons. cbn [Text.lower]. by rewrite append_cons, IH.
Qed.

(** A match of ["brd"] cannot extend over a hyphen. *)
Lemma startswith_brd_hyphen (x y : string) :
  Text.startswith "brd" (x +:+ String "-" y) = Text.startswith "brd" x.
Proof.
  destruct x as [|c1 [|c2 [|c3 x]]]; rewrite ?append_cons, ?append_nil;
    cbn [Text.startswith]; rewrite ?andb_false_r; reflexivity.
Qed.

Lemma contains_brd_hyphen (x y : string) :
  Text.contains "brd" (x +:+ String "-" y)
  = Text.contains "brd" x || Text.contains "brd" y.
Proof.
  induction x as [|c x IH].
  - rewrite append_nil. reflexivity.
  - rewrite append_cons. cbn [Text.contains].
    rewrite <- append_cons, startswith_brd_hyphen, IH.
    by rewrite orb_assoc.
Qed.

Lemma is_brd_hyphen (a b : string) :
  is_brd (a +:+ "-" +:+ b) = is_brd a || is_brd b.
Proof.
  unfold is_brd. rewrite lower_append. cbn [append].
  change (Text.lower (String "-" b)) with (String "-" (Text.lower b)).
  apply contains_brd_hyphen.
Qed.

End Marker.

(** X1. The identity that [SandboxInfo._from_sandbox_data] reports is the
    sandbox identity of the API model, joined by a hyphen with the client
    identity when the model has one, exactly as
    [SandboxApiBase._get_sandbox_id] joins them; and such a composite
    identity carries the backend marker exactly when one of its two parts
    does: a marker in the client identity alone selects the SSH backend. *)
Theorem X1_marker_of_composite_identity (sandbox : ApiModel)
        (token : option string) (a b : string) :
  is_brd (_get_sandbox_id a b) = is_brd a || is_brd b /\
  si_sandbox_id (_from_sandbox_data sandbox token)
    = from_option (_get_sandbox_id (am_sandbox_id sandbox))
                  (am_sandbox_id sandbox) (am_client_id sandbox) /\
  is_brd (si_sandbox_id (_from_sandbox_data sandbox token))
    = is_brd (am_sandbox_id sandbox)
      || from_option is_brd false (am_client_id sandbox).
Proof.
  split; [apply is_brd_hyphen|]. split.
  - unfold _from_sandbox_data, _get_sandbox_id. cbn [si_sandbox_id].
    by destruct (am_client_id sandbox).
  - unfold _from_sandbox_data. cbn [si_sandbox_id].
    destruct (am_client_id sandbox) as [c|]; cbn [from_option].
    + apply is_brd_hyphen.
    + by rewrite orb_false_r.
Qed.

(** ** The read-only properties of a session *)

Section Accessors.
Context {CP : Type} `{Remote CP} `{SandboxSetup}.

Lemma construction_backend (m : M CP Session) w s w' :
  construction m -> m w = (Ok s, w') -> backend_ok s = true.
Proof.
  intros Hm E.
  destruct (construction_ends_in_init m Hm _ _ _ E)
    as [(t & to & md & en & se & o & w1 & E1) | (o & w1 & E1)].
  - by apply sync_init_backend in E1.
  - by apply async_init_backend in E1.
Qed.

Lemma ssh_surfaces_fields s :
  ssh_surfaces s = true ->
  (exists a, _commands s = SSHCommands2 a) /\
  (exists a c wc, _filesystem s = SSHFilesystem a c wc) /\
  (exists a, _adb_shell s = Some a) /\ _pty s = None.
Proof.
  unfold ssh_surfaces. intros E.
  repeat (apply andb_true_iff in E as [E ?]).
  repeat match goal with
         | H : bool_decide _ = true |- _ => apply bool_decide_eq_true_1 in H
         end.
  destruct (_commands s); [done|]. destruct (_filesystem s); [done|].
  match goal with H : is_Some (_adb_shell s) |- _ => destruct H as [sh Hsh] end.
  split; [eauto|]. split; [eauto 10|]. split; [eauto|]. done.
Qed.

Lemma http_surfaces_fields s :
  http_surfaces s = true ->
  (exists u c p, _commands s = Commands u c p) /\
  (exists u v c p a, _filesystem s = Filesystem u v c p a) /\
  (exists p, _pty s = Some p) /\ _adb_shell s = None.
Proof.
  unfold http_surfaces. intros E.
  repeat (apply andb_true_iff in E as [E ?]).
  repeat match goal with
         | H : bool_decide _ = true |- _ => apply bool_decide_eq_true_1 in H
         end.
  destruct (_commands s); [|done]. destruct (_filesystem s); [|done].
  match goal with H : is_Some (_pty s) |- _ => destruct H as [pt Hpt] end.
  split; [eauto|]. split; [eauto 10|]. split; [eauto|]. done.
Qed.

End Accessors.

(** X2. On every session that a construction returns (sync or async, by
    constructor, create, connect or resume), the accessors follow the
    backend.  With the marker in the identity, [commands] and [files] are
    the SSH objects and [adb_shell] is available, while [pty] raises
    [AttributeError] (the sync property because the attribute was never
    assigned, the async one with its own message).  Without the marker,
    [commands], [files] and [pty] are the HTTP objects and [adb_shell]
    raises [AttributeError]. *)
Theorem X2_accessors_follow_backend {CP : Type} `{Remote CP} `{SandboxSetup}
        (m : M CP Session) (w : World CP) (s : Session) (w' : World CP) :
  construction m -> m w = (Ok s, w') ->
  if is_brd (_sandbox_id s)
  then (exists a, Sandbox.commands s = Ok (SSHCommands2 a) /\
                  AsyncSandbox.commands s = Ok (SSHCommands2 a)) /\
       (exists a c wc, Sandbox.files s = Ok (SSHFilesystem a c wc) /\
                       AsyncSandbox.files s = Ok (SSHFilesystem a c wc)) /\
       (exists a, Sandbox.adb_shell s = Ok a /\ AsyncSandbox.adb_shell s = Ok a) /\
       Sandbox.pty s = Raise (AttributeError "_pty") /\
       AsyncSandbox.pty s = Raise (AttributeError msg_no_pty)
  else (exists u c p, Sandbox.commands s = Ok (Commands u c p) /\
                      AsyncSandbox.commands s = Ok (Commands u c p)) /\
       (exists u v c p a, Sandbox.files s = Ok (Filesystem u v c p a) /\
                          AsyncSandbox.files s = Ok (Filesystem u v c p a)) /\
       (exists p, Sandbox.pty s = Ok p /\ AsyncSandbox.pty s = Ok p) /\
       Sandbox.adb_shell s = Raise (AttributeError "_adb_shell") /\
       AsyncSandbox.adb_shell s = Raise (AttributeError "_adb_shell").
Proof.
  intros Hm E. pose proof (construction_backend m w s w' Hm E) as Hb.
  unfold backend_ok in Hb.
  unfold Sandbox.commands, AsyncSandbox.commands, Sandbox.files, AsyncSandbox.files,
    Sandbox.adb_shell, AsyncSandbox.adb_shell, Sandbox.pty, AsyncSandbox.pty.
  destruct (is_brd (_sandbox_id s)); apply andb_true_iff in Hb as [Hb _].
  - apply ssh_surfaces_fields in Hb
      as ((a & ->) & (a' & c & wc & ->) & (sh & ->) & ->).
    split; [eauto|]. split; [eauto 10|]. split; [eauto|]. done.
  - apply http_surfaces_fields in Hb
      as ((u & c & p & ->) & (u' & v & c' & p' & a & ->) & (q & ->) & ->).
    split; [eauto 10|]. split; [eauto 12|]. split; [eauto|]. done.
Qed.

Lemma X2_accessors_follow_backend_witness :
  exists s w',
    Sandbox._cls_connect "x-BRD-7" None key w0 = (Ok s, w') /\
    Sandbox.pty s = Raise (AttributeError "_pty") /\
    exists a, Sandbox.adb_shell s = Ok a.
Proof.
  destruct (Sandbox._cls_connect "x-BRD-7" None key w0) as [[s|e] w'] eqn:E;
    [| by vm_compute in E].
  exists s, w'. split; [reflexivity|].
  pose proof (X2_accessors_follow_backend
                (Sandbox._cls_connect "x-BRD-7" None key) w0 s w'
                (sync_connect _ _ _) E) as Hx.
  assert (is_brd (_sandbox_id s) = true) as Hb.
  { apply (f_equal fst) in E. vm_compute in E. injection E as <-. reflexivity. }
  rewrite Hb in Hx. destruct Hx as (_ & _ & (a & Ha & _) & Hp & _).
  split; [exact Hp|]. exists a. exact Ha.
Defined.

(** ** Successful runs of the two constructors *)

Section InitRuns.
Context {CP : Type} `{Remote CP} `{SandboxSetup}.

Lemma sync_init_url template timeout metadata envs secure opts w s w' :
  Sandbox.__init__ template timeout metadata envs secure opts w = (Ok s, w') ->
  exists cfg,
    configs w' !! _connection_config s = Some cfg /\
    _envd_api_url s =
      if is_brd (_sandbox_id s) then None
      else Some (envd_url (_sandbox_id s) cfg).
Proof.
  unfold Sandbox.__init__. unfold_api. intros E.
  minv.
  all: heap.
  all: cbn [_connection_config _envd_api_url _sandbox_id configs].
  all: use_eqs.
  all: eexists; split; [first [reflexivity | heap_goal] | reflexivity].
Qed.

Lemma async_init_url opts (w : World CP) s w' :
  AsyncSandbox.__init__ opts w = (Ok s, w') ->
  exists cfg,
    configs w' !! _connection_config s = Some cfg /\
    _envd_api_url s = Some (envd_url (_sandbox_id s) cfg).
Proof.
  unfold AsyncSandbox.__init__. unfold_api. intros E.
  minv.
  all: cbn [_connection_config _envd_api_url _sandbox_id configs].
  all: eexists; split; [eassumption | reflexivity].
Qed.

(** The calls of a successful run of the sync constructor outside debug
    mode, and where the SSH credentials of the session come from. *)
Lemma sync_init_calls template timeout metadata envs secure opts w s w' cfg :
  Sandbox.__init__ template timeout metadata envs secure opts w = (Ok s, w') ->
  configs w' !! _connection_config s = Some cfg ->
  cc_debug cfg = false ->
  let id := _sandbox_id s in
  let p := get_api_params cfg no_params in
  exists first,
    match o_sandbox_id opts with
    | Some sid => id = sid /\ exists info, first = XGetInfo sid p (Ok info)
    | None =>
        exists resp,
          id = cr_sandbox_id resp /\
          first = XCreate {| rq_template := or_str template default_template;
                             rq_timeout := or_int timeout default_sandbox_timeout;
                             rq_auto_pause := false; rq_metadata := metadata;
                             rq_env_vars := envs; rq_secure := or_false secure |}
                          (o_api opts) (Ok resp)
    end /\
    if is_brd id
    then exists info ep,
           net w' = net w ++ [first; XGetSsh id p (Ok info)] /\
           SshParse.parse (connect_command info) = Some ep /\
           _ssh_host s = Some (SshParse.ep_host ep) /\
           _ssh_port s = Some (SshParse.ep_port ep) /\
           _ssh_username s = Some (SshParse.ep_username ep) /\
           _ssh_password s = Some (auth_password info)
    else net w' = net w ++ [first] /\
         _ssh_host s = o_ssh_host opts /\ _ssh_port s = o_ssh_port opts /\
         _ssh_username s = o_ssh_username opts /\
         _ssh_password s = o_ssh_password opts.
Proof.
  unfold Sandbox.__init__. unfold_api. intros E Hc Hd.
  minv.
  all: heap.
  all: cbn [cc_debug with_header ConnectionConfig_new default] in *.
  all: try congruence.
  all: cbn [_connection_config _sandbox_id net _ssh_host _ssh_port _ssh_username
            _ssh_password].
  all: rewrite <- ?app_assoc.
  all: use_eqs.
  all: eexists; (split; [first [split; [reflexivity | eexists; reflexivity]
                               | eexists; split; reflexivity] |]).
  all: first [ do 2 eexists; split; [reflexivity|]; split; [eassumption|]; done
             | done ].
Qed.

(** A successful run of the sync constructor in debug mode. *)
Lemma sync_init_debug template timeout metadata envs secure opts w s w' cfg :
  Sandbox.__init__ template timeout metadata envs secure opts w = (Ok s, w') ->
  configs w' !! _connection_config s = Some cfg ->
  cc_debug cfg = true ->
  net w' = net w /\ remote w' = remote w /\
  s = {| _sandbox_id := "debug_sandbox_id";
         _connection_config := _connection_config s;
         _envd_version := Some None; _envd_access_token := PNone;
         _ssh_host := Some "127.0.0.1"; _ssh_port := Some 22%Z;
         _ssh_username := Some "debug"; _ssh_password := Some "debug";
         _transport := Some (length (transports w));
         _envd_api_url := Some (envd_url "debug_sandbox_id" cfg);
         _envd_api := Some {| cl_base_url := envd_url "debug_sandbox_id" cfg;
                              cl_transport := length (transports w);
                              cl_headers := cc_headers cfg |};
         _filesystem :=
           Filesystem (envd_url "debug_sandbox_id" cfg) None
                      (_connection_config s) (length (transports w))
                      {| cl_base_url := envd_url "debug_sandbox_id" cfg;
                         cl_transport := length (transports w);
                         cl_headers := cc_headers cfg |};
         _commands := Commands (envd_url "debug_sandbox_id" cfg)
                               (_connection_config s) (length (transports w));
         _watch_commands := None;
         _pty := Some (Pty (envd_url "debug_sandbox_id" cfg)
                           (_connection_config s) (length (transports w)));
         _adb_shell := None |}.
Proof.
  unfold Sandbox.__init__. unfold_api. intros E Hc Hd.
  minv.
  all: heap.
  all: cbn [cc_debug with_header ConnectionConfig_new default] in *.
  all: try congruence.
  all: cbn [_connection_config net remote configs].
  all: repeat split; reflexivity.
Qed.

End InitRuns.

(** X3. [envd_api_url] of a session that the sync constructor returns
    raises [AttributeError] when the identity carries the marker, because
    that branch never assigns the attribute, and is otherwise the URL
    built from the session's configuration; of a session that the async
    constructor returns it is that URL for either backend.  The scheme of
    the URL is [http] in debug mode and [https] otherwise. *)
Theorem X3_envd_api_url {CP : Type} `{Remote CP} `{SandboxSetup} :
  (forall template timeout metadata envs secure opts (w : World CP) s w',
      Sandbox.__init__ template timeout metadata envs secure opts w = (Ok s, w') ->
      exists cfg,
        configs w' !! _connection_config s = Some cfg /\
        Sandbox.envd_api_url s =
          if is_brd (_sandbox_id s) then Raise (AttributeError "_envd_api_url")
          else Ok (envd_url (_sandbox_id s) cfg)) /\
  (forall opts (w : World CP) s w',
      AsyncSandbox.__init__ opts w = (Ok s, w') ->
      exists cfg,
        configs w' !! _connection_config s = Some cfg /\
        AsyncSandbox.envd_api_url s = Ok (envd_url (_sandbox_id s) cfg)) /\
  (forall id cfg,
      Text.startswith "http://" (envd_url id cfg) = cc_debug cfg /\
      Text.startswith "https://" (envd_url id cfg) = negb (cc_debug cfg)).
Proof.
  split; [| split].
  - intros template timeout metadata envs secure opts w s w' E.
    destruct (sync_init_url _ _ _ _ _ _ _ _ _ E) as (cfg & Hc & Hu).
    exists cfg. split; [exact Hc|]. unfold Sandbox.envd_api_url. rewrite Hu.
    by destruct (is_brd (_sandbox_id s)).
  - intros opts w s w' E.
    destruct (async_init_url _ _ _ _ E) as (cfg & Hc & Hu).
    exists cfg. split; [exact Hc|]. unfold AsyncSandbox.envd_api_url. by rewrite Hu.
  - intros id cfg. unfold envd_url. by destruct (cc_debug cfg).
Qed.

Lemma X3_envd_api_url_witness :
  (exists s w', Sandbox._cls_connect "x-BRD-7" None key w0 = (Ok s, w') /\
                Sandbox.envd_api_url s = Raise (AttributeError "_envd_api_url")) /\
  (exists s w', AsyncSandbox._cls_connect "x-BRD-7" None key w0 = (Ok s, w') /\
                AsyncSandbox.envd_api_url s = Ok (url_of "x-BRD-7")).
Proof.
  destruct (X3_envd_api_url (CP := ControlPlane)) as (Hsync & Hasync & _).
  split.
  - destruct (Sandbox._cls_connect "x-BRD-7" None key w0) as [[s|e] w'] eqn:E;
      [| by vm_compute in E].
    exists s, w'. split; [reflexivity|].
    destruct (construction_ends_in_init _ (sync_connect "x-BRD-7" None key) _ _ _ E)
      as [(t & to & md & en & se & o & w1 & E1) | (o & w1 & E1)].
    + destruct (Hsync _ _ _ _ _ _ _ _ _ E1) as (cfg & _ & Hu).
      rewrite Hu. apply (f_equal fst) in E. vm_compute in E. by injection E as <-.
    + apply (f_equal fst) in E. vm_compute in E. by injection E as <-.
  - destruct (AsyncSandbox._cls_connect "x-BRD-7" None key w0) as [[s|e] w'] eqn:E;
      [| by vm_compute in E].
    exists s, w'. split; [reflexivity|].
    destruct (construction_ends_in_init _ (async_connect "x-BRD-7" None key) _ _ _ E)
      as [(t & to & md & en & se & o & w1 & E1) | (o & w1 & E1)].
    + apply (f_equal fst) in E. vm_compute in E. by injection E as <-.
    + destruct (Hasync _ _ _ _ E1) as (cfg & _ & Hu).
      apply (f_equal fst) in E. vm_compute in E. by injection E as <-.
Defined.

(** ** Running a computation forwards *)

Section Forward.
Context {CP : Type}.
Implicit Types w : World CP.

Lemma bind_ret {A B} (a : A) (f : A -> M CP B) w : bind (ret a) f w = f a w.
Proof. reflexivity. Qed.

Lemma bind_new_config {B} c (f : nat -> M CP B) w :
  bind (new_config c) f w =
    f (length (configs w))
      (mkWorld (remote w) (net w) (logged w) (configs w ++ [c]) (transports w)).
Proof. reflexivity. Qed.

Lemma bind_new_transport {B} t (f : nat -> M CP B) w :
  bind (new_transport t) f w =
    f (length (transports w))
      (mkWorld (remote w) (net w) (logged w) (configs w) (transports w ++ [t])).
Proof. reflexivity. Qed.

Lemma bind_get_config {B} ref c (f : ConnectionConfig -> M CP B) w :
  configs w !! ref = Some c -> bind (get_config ref) f w = f c w.
Proof. intros Hc. unfold bind, get_config. by rewrite Hc. Qed.

Lemma bind_set_header {B} ref k v c (f : unit -> M CP B) w :
  configs w !! ref = Some c ->
  bind (set_header ref k v) f w =
    f tt (mkWorld (remote w) (net w) (logged w)
                  (<[ref := with_header c k v]> (configs w)) (transports w)).
Proof. intros Hc. unfold bind, set_header. by rewrite Hc. Qed.

Lemma bind_round_trip {A B} (op : CP -> result A * CP) record
      (f : A -> M CP B) w a cp' :
  op (remote w) = (Ok a, cp') ->
  bind (round_trip op record) f w =
    f a (mkWorld cp' (net w ++ [record (Ok a)]) (logged w) (configs w)
                 (transports w)).
Proof. intros Ho. unfold bind, round_trip. by rewrite Ho. Qed.

Lemma bind_round_trip_raise {A B} (op : CP -> result A * CP) record
      (f : A -> M CP B) w e cp' :
  op (remote w) = (Raise e, cp') ->
  bind (round_trip op record) f w =
    (Raise e, mkWorld cp' (net w ++ [record (Raise e)]) (logged w) (configs w)
                      (transports w)).
Proof. intros Ho. unfold bind, round_trip. by rewrite Ho. Qed.

Lemma bind_assoc {A B C} (m : M CP A) (f : A -> M CP B) (g : B -> M CP C) w :
  bind (bind m f) g w = bind m (fun a => bind (f a) g) w.
Proof. unfold bind. by destruct (m w) as [[a|e] w1]. Qed.

End Forward.

(** Steps that need no side condition. *)
Ltac fwd :=
  repeat first
    [ rewrite bind_assoc
    | rewrite bind_ret
    | rewrite bind_new_config
    | rewrite bind_new_transport
    | progress cbv beta iota ].

(** ** Debug mode and sessions without a daemon version *)

Section Debug.
Context {CP : Type} `{Remote CP} `{SandboxSetup}.

Lemma debug_id_not_brd : is_brd "debug_sandbox_id" = false.
Proof. reflexivity. Qed.

(** The sync constructor, called by a class method in debug mode. *)
Lemma sync_cls_debug opts id c cfg (w : World CP) :
  o_sandbox_id opts = Some id -> o_connection_config opts = Some c ->
  configs w !! c = Some cfg -> cc_debug cfg = true ->
  o_envd_version opts = None ->
  exists s w',
    Sandbox.cls opts w = (Ok s, w') /\ net w' = net w /\ remote w' = remote w /\
    configs w' = configs w /\ _connection_config s = c /\
    _sandbox_id s = "debug_sandbox_id".
Proof.
  intros Hid Hc Hcfg Hd Hv. unfold Sandbox.cls, Sandbox.__init__.
  rewrite Hid, Hc, Hv. rewrite andb_false_r. rewrite !bind_ret.
  rewrite (bind_get_config c cfg) by done. rewrite Hd. rewrite bind_ret.
  cbv beta iota. rewrite (bind_get_config c cfg) by done.
  rewrite bind_new_transport. rewrite debug_id_not_brd.
  eexists _, _. split; [reflexivity|]. done.
Qed.

(** The async constructor without a daemon version, for an identity
    without the marker. *)
Lemma async_init_no_version opts id c cfg (w : World CP) :
  o_sandbox_id opts = Some id -> o_connection_config opts = Some c ->
  configs w !! c = Some cfg ->
  o_envd_version opts = None -> is_brd id = false ->
  AsyncSandbox.__init__ opts w =
    (Raise (AttributeError "_envd_version"),
     mkWorld (remote w) (net w) (logged w) (configs w)
             (transports w ++ [{| tr_limits := self_limits; tr_proxy := cc_proxy cfg |}])).
Proof.
  intros Hid Hc Hcfg Hv Hb. unfold AsyncSandbox.__init__.
  rewrite Hid, Hc, Hv, Hb. unfold bind, get_config. rewrite Hcfg.
  reflexivity.
Qed.

Lemma sync_create_debug template timeout auto_pause metadata envs secure p
      (w : World CP) :
  debug p = Some true ->
  exists s w',
    Sandbox._create template timeout auto_pause metadata envs secure p w
      = (Ok s, w') /\
    net w' = net w /\ remote w' = remote w /\
    configs w' = configs w ++ [ConnectionConfig_new ∅ p] /\
    _connection_config s = length (configs w) /\
    _sandbox_id s = "debug_sandbox_id".
Proof.
  intros Hd. unfold Sandbox._create. rewrite Hd.
  change (default false (Some true)) with true. cbv iota.
  rewrite bind_ret. cbv beta iota. rewrite bind_new_config.
  rewrite debug_id_not_brd.
  edestruct (sync_cls_debug
               {| o_sandbox_id := Some "debug_sandbox_id";
                  o_connection_config := Some (length (configs w));
                  o_envd_version := None; o_envd_access_token := PNone;
                  o_ssh_host := None; o_ssh_port := None;
                  o_ssh_username := None; o_ssh_password := None;
                  o_api := no_params |}
               "debug_sandbox_id" (length (configs w)) (ConnectionConfig_new ∅ p)
               (mkWorld (remote w) (net w) (logged w)
                        (configs w ++ [ConnectionConfig_new (token_headers PNone) p])
                        (transports w)))
    as (s & w' & E & Hn & Hr & Hc & Hs & Hi);
    [reflexivity | reflexivity | | | reflexivity |].
  { cbn [configs]. by apply list_lookup_middle. }
  { cbn. by rewrite Hd. }
  exists s, w'. split; [exact E|]. done.
Qed.

Lemma async_create_debug template timeout auto_pause metadata envs secure p
      (w : World CP) :
  debug p = Some true ->
  AsyncSandbox._create template timeout auto_pause metadata envs secure p w =
    (Raise (AttributeError "_envd_version"),
     mkWorld (remote w) (net w) (logged w)
             (configs w ++ [ConnectionConfig_new ∅ p])
             (transports w ++ [{| tr_limits := self_limits; tr_proxy := proxy p |}])).
Proof.
  intros Hd. unfold AsyncSandbox._create. rewrite Hd.
  change (default false (Some true)) with true. cbv iota.
  rewrite bind_ret. cbv beta iota. rewrite bind_new_config.
  rewrite debug_id_not_brd.
  rewrite (async_init_no_version _ "debug_sandbox_id" (length (configs w))
             (ConnectionConfig_new ∅ p));
    [reflexivity | reflexivity | reflexivity | | reflexivity | reflexivity].
  cbn [configs]. by apply list_lookup_middle.
Qed.

End Debug.

(** X4. In debug mode the sync controller contacts nothing.  A session
    that the sync constructor returns for a configuration in debug mode is
    the fixed local one, whatever else was passed (a [sandbox_id]
    included): identity ["debug_sandbox_id"], HTTP surfaces at an [http]
    URL, no daemon version, no access token, the SSH attributes of
    [debug@127.0.0.1:22]; no call was made and the remote side is
    unchanged.  [beta_create] with the debug flag always returns such a
    session. *)
Theorem X4_sync_debug_session {CP : Type} `{Remote CP} `{SandboxSetup} :
  (forall template timeout metadata envs secure opts (w : World CP) s w' cfg,
      Sandbox.__init__ template timeout metadata envs secure opts w = (Ok s, w') ->
      configs w' !! _connection_config s = Some cfg ->
      cc_debug cfg = true ->
      net w' = net w /\ remote w' = remote w /\
      _sandbox_id s = "debug_sandbox_id" /\
      http_surfaces s = true /\ ssh_surfaces s = false /\
      _envd_version s = Some None /\ _envd_access_token s = PNone /\
      _ssh_host s = Some "127.0.0.1" /\ _ssh_port s = Some 22%Z /\
      _ssh_username s = Some "debug" /\ _ssh_password s = Some "debug" /\
      Sandbox.envd_api_url s
        = Ok ("http://" +:+ get_host "debug_sandbox_id" cfg envd_port)) /\
  (forall template timeout auto_pause metadata envs secure p (w : World CP),
      debug p = Some true ->
      exists s w',
        Sandbox.beta_create template timeout auto_pause metadata envs secure p w
          = (Ok s, w') /\
        net w' = net w /\ remote w' = remote w /\
        _sandbox_id s = "debug_sandbox_id").
Proof.
  assert (forall template timeout metadata envs secure opts (w : World CP) s w' cfg,
      Sandbox.__init__ template timeout metadata envs secure opts w = (Ok s, w') ->
      configs w' !! _connection_config s = Some cfg ->
      cc_debug cfg = true ->
      net w' = net w /\ remote w' = remote w /\
      _sandbox_id s = "debug_sandbox_id" /\
      http_surfaces s = true /\ ssh_surfaces s = false /\
      _envd_version s = Some None /\ _envd_access_token s = PNone /\
      _ssh_host s = Some "127.0.0.1" /\ _ssh_port s = Some 22%Z /\
      _ssh_username s = Some "debug" /\ _ssh_password s = Some "debug" /\
      Sandbox.envd_api_url s
        = Ok ("http://" +:+ get_host "debug_sandbox_id" cfg envd_port)) as Hinit.
  { intros template timeout metadata envs secure opts w s w' cfg E Hc Hd.
    destruct (sync_init_debug _ _ _ _ _ _ _ _ _ _ E Hc Hd) as (Hn & Hr & ->).
    unfold Sandbox.envd_api_url, envd_url. cbn. rewrite Hd. done. }
  split; [exact Hinit|].
  intros template timeout auto_pause metadata envs secure p w Hd.
  destruct (sync_create_debug (Some (or_str template default_template)) timeout
              auto_pause metadata envs (or_false secure) p w Hd)
    as (s & w' & E & Hn & Hr & Hc & Hs & Hi).
  exists s, w'. done.
Qed.

Lemma X4_sync_debug_session_witness :
  exists s w',
    Sandbox.beta_create None None false None None None key_debug w0 = (Ok s, w') /\
    net w' = [] /\ _sandbox_id s = "debug_sandbox_id".
Proof.
  destruct (proj2 (X4_sync_debug_session (CP := ControlPlane))
                  None None false None None None key_debug w0 eq_refl)
    as (s & w' & E & Hn & _ & Hi).
  exists s, w'. split; [exact E|]. split; [exact Hn | exact Hi].
Defined.

(** X5. In debug mode the async [create] and [beta_create] never return a
    session: the async constructor assigns the daemon version only when
    one is passed, debug mode passes none, and building the HTTP
    filesystem reads the attribute, so [AttributeError] is raised (no
    class among the sources defines the attribute otherwise; the base
    classes are taken not to).  No call is made and the remote side is
    unchanged. *)
Theorem X5_async_debug_create_fails {CP : Type} `{Remote CP} `{SandboxSetup}
        (template : option string) (timeout : option Z) (auto_pause : bool)
        (metadata envs : option (gmap string string)) (secure : option bool)
        (p : ApiParams) (w : World CP) :
  debug p = Some true ->
  exists w',
    AsyncSandbox.create template timeout metadata envs secure p w
      = (Raise (AttributeError "_envd_version"), w') /\
    AsyncSandbox.beta_create template timeout auto_pause metadata envs secure p w
      = (Raise (AttributeError "_envd_version"), w') /\
    net w' = net w /\ remote w' = remote w.
Proof.
  intros Hd. eexists. unfold AsyncSandbox.create, AsyncSandbox.beta_create.
  rewrite !async_create_debug by exact Hd. done.
Qed.

Lemma X5_async_debug_create_fails_witness :
  (AsyncSandbox.create None None None None None key_debug w0).1
  = Raise (AttributeError "_envd_version").
Proof.
  destruct (X5_async_debug_create_fails None None false None None None key_debug w0
                                        eq_refl) as (w' & E & _).
  by rewrite E.
Defined.

Section NoVersion.
Context {CP : Type} `{Remote CP} `{SandboxSetup}.

Lemma or_str_idem (t : option string) (d : string) :
  or_str (Some (or_str t d)) d = or_str t d.
Proof.
  unfold or_str. destruct t as [s|]; [destruct (Text.truthy s) eqn:Hs|].
  - by rewrite Hs.
  - by destruct (Text.truthy d).
  - by destruct (Text.truthy d).
Qed.

(** The async class methods for an identity without the marker, when the
    control plane reports no daemon version. *)
Lemma async_connect_no_version id timeout p (w : World CP) resp cp' :
  is_brd id = false ->
  remote_connect id (or_int timeout default_sandbox_timeout) p (remote w)
    = (Ok resp, cp') ->
  co_envd_version resp = None ->
  AsyncSandbox._cls_connect id timeout p w =
    (Raise (AttributeError "_envd_version"),
     mkWorld cp'
       (net w ++ [XConnect id (or_int timeout default_sandbox_timeout) p (Ok resp)])
       (logged w)
       (configs w ++ [ConnectionConfig_new (token_headers (co_envd_access_token resp)) p])
       (transports w ++ [{| tr_limits := self_limits; tr_proxy := proxy p |}])).
Proof.
  intros Hb Hr Hv. unfold AsyncSandbox._cls_connect, SandboxApi._cls_connect.
  rewrite Hb. rewrite (bind_round_trip _ _ _ _ _ _ Hr). rewrite bind_new_config.
  rewrite (async_init_no_version _ id (length (configs w))
             (ConnectionConfig_new (token_headers (co_envd_access_token resp)) p));
    [reflexivity | reflexivity | reflexivity | | by rewrite Hv | exact Hb].
  cbn [configs]. by apply list_lookup_middle.
Qed.

Lemma async_resume_no_version id auto_pause timeout p (w : World CP) resp cp' :
  is_brd id = false ->
  remote_resume id auto_pause (or_int timeout default_sandbox_timeout) p (remote w)
    = (Ok resp, cp') ->
  co_envd_version resp = None ->
  AsyncSandbox._cls_resume id auto_pause timeout p w =
    (Raise (AttributeError "_envd_version"),
     mkWorld cp'
       (net w ++ [XResume id auto_pause (or_int timeout default_sandbox_timeout) p
                          (Ok resp)])
       (logged w)
       (configs w ++ [ConnectionConfig_new (token_headers (co_envd_access_token resp)) p])
       (transports w ++ [{| tr_limits := self_limits; tr_proxy := proxy p |}])).
Proof.
  intros Hb Hr Hv. unfold AsyncSandbox._cls_resume, SandboxApi._cls_resume.
  rewrite Hb. rewrite (bind_round_trip _ _ _ _ _ _ Hr). rewrite bind_new_config.
  rewrite (async_init_no_version _ id (length (configs w))
             (ConnectionConfig_new (token_headers (co_envd_access_token resp)) p));
    [reflexivity | reflexivity | reflexivity | | by rewrite Hv | exact Hb].
  cbn [configs]. by apply list_lookup_middle.
Qed.

Lemma async_create_no_version template timeout auto_pause metadata envs secure p
      (w : World CP) resp cp' :
  default false (debug p) = false ->
  let rq := {| rq_template := or_str template default_template;
               rq_timeout := or_int timeout default_sandbox_timeout;
               rq_auto_pause := auto_pause; rq_metadata := metadata;
               rq_env_vars := envs; rq_secure := secure |} in
  remote_create rq p (remote w) = (Ok resp, cp') ->
  cr_envd_version resp = None ->
  is_brd (cr_sandbox_id resp) = false ->
  AsyncSandbox._create template timeout auto_pause metadata envs secure p w =
    (Raise (AttributeError "_envd_version"),
     mkWorld cp' (net w ++ [XCreate rq p (Ok resp)]) (logged w)
       (configs w ++ [ConnectionConfig_new (token_headers (cr_envd_access_token resp)) p])
       (transports w ++ [{| tr_limits := self_limits; tr_proxy := proxy p |}])).
Proof.
  intros Hd rq Hr Hv Hb. unfold AsyncSandbox._create, SandboxApi._create_sandbox.
  rewrite Hd. fold rq. cbv iota.
  rewrite bind_assoc, (bind_round_trip _ _ _ _ _ _ Hr), bind_ret.
  cbv beta iota. rewrite bind_new_config. rewrite Hb.
  rewrite (async_init_no_version _ (cr_sandbox_id resp) (length (configs w))
             (ConnectionConfig_new (token_headers (cr_envd_access_token resp)) p));
    [reflexivity | reflexivity | reflexivity | | by rewrite Hv | exact Hb].
  cbn [configs]. by apply list_lookup_middle.
Qed.

(** The sync [_create] reads the version of the answer unconditionally. *)
Lemma sync_create_version template timeout auto_pause metadata envs secure p
      (w : World CP) resp cp' :
  default false (debug p) = false ->
  let rq := {| rq_template := or_str template default_template;
               rq_timeout := or_int timeout default_sandbox_timeout;
               rq_auto_pause := auto_pause; rq_metadata := metadata;
               rq_env_vars := envs; rq_secure := secure |} in
  remote_create rq p (remote w) = (Ok resp, cp') ->
  let w' := mkWorld cp' (net w ++ [XCreate rq p (Ok resp)]) (logged w)
                    (configs w) (transports w) in
  (cr_envd_version resp = None ->
   Sandbox._create template timeout auto_pause metadata envs secure p w
     = (Raise version_of_none, w')) /\
  (forall v, cr_envd_version resp = Some v -> parse_version v = None ->
   Sandbox._create template timeout auto_pause metadata envs secure p w
     = (Raise (InvalidVersion v), w')).
Proof.
  intros Hd rq Hr w'. unfold Sandbox._create, SandboxApi._create_sandbox.
  rewrite Hd. fold rq. cbv iota.
  rewrite !bind_assoc, (bind_round_trip _ _ _ _ _ _ Hr).
  split.
  - intros Hv. rewrite Hv. reflexivity.
  - intros v Hv Hp. rewrite Hv. unfold Version. rewrite Hp. reflexivity.
Qed.

End NoVersion.

Section Tolerant.
Context {CP : Type} `{Remote CP} `{SandboxSetup}.

Lemma lookup_new {A} (l : list A) (c : A) : (l ++ [c]) !! length l = Some c.
Proof. by apply list_lookup_middle. Qed.

(** The sync constructor, creating a sandbox whose answer carries no
    usable daemon version and an identity without the marker. *)
Lemma sync_init_create_no_version template timeout metadata envs secure opts
      (w : World CP) resp cp' :
  o_sandbox_id opts = None -> o_connection_config opts = None ->
  config_rejects opts = None ->
  o_envd_version opts = None ->
  default false (debug (o_api opts)) = false ->
  let rq := {| rq_template := or_str template default_template;
               rq_timeout := or_int timeout default_sandbox_timeout;
               rq_auto_pause := false; rq_metadata := metadata;
               rq_env_vars := envs; rq_secure := or_false secure |} in
  remote_create rq (o_api opts) (remote w) = (Ok resp, cp') ->
  cr_envd_version resp = None \/ cr_envd_version resp = Some "" ->
  is_brd (cr_sandbox_id resp) = false ->
  exists s w',
    Sandbox.__init__ template timeout metadata envs secure opts w = (Ok s, w') /\
    _sandbox_id s = cr_sandbox_id resp /\ _envd_version s = Some None /\
    remote w' = cp' /\ net w' = net w ++ [XCreate rq (o_api opts) (Ok resp)].
Proof.
  intros Hid Hc Hrej Hv Hd rq Hr Hver Hb. unfold Sandbox.__init__.
  rewrite Hid, Hc, Hrej, Hv. cbn [andb]. fwd.
  rewrite (bind_get_config _ (ConnectionConfig_new ∅ (o_api opts)))
    by (cbn [configs]; apply lookup_new).
  cbn [cc_debug ConnectionConfig_new]. rewrite Hd. fwd.
  unfold SandboxApi._create_sandbox. fold rq.
  erewrite bind_round_trip by (cbn [remote]; exact Hr).
  assert (version_if_truthy (CP := CP) (cr_envd_version resp) = ret None) as ->.
  { by destruct Hver as [-> | ->]. }
  fwd.
  destruct (present (cr_envd_access_token resp)) as [t|] eqn:Ht.
  - fwd.
    rewrite (bind_set_header _ _ _ (ConnectionConfig_new ∅ (o_api opts)))
      by (cbn [configs]; apply lookup_new).
    fwd.
    rewrite (bind_get_config _
               (with_header (ConnectionConfig_new ∅ (o_api opts)) "X-Access-Token" t)).
    2: { cbn [configs]. apply list_lookup_insert_eq.
         rewrite length_app. simpl. lia. }
    fwd. rewrite Hb.
    eexists _, _. split; [reflexivity|]. done.
  - fwd.
    rewrite (bind_get_config _ (ConnectionConfig_new ∅ (o_api opts)))
      by (cbn [configs]; apply lookup_new).
    fwd. rewrite Hb.
    eexists _, _. split; [reflexivity|]. done.
Qed.

End Tolerant.

(** X6. An HTTP-backed async session cannot be built without a daemon
    version.  The async constructor assigns [_envd_version] only when the
    option is passed, and for an identity without the marker it reads the
    attribute: without the option it raises [AttributeError].  So the
    async [connect], [resume] and [create] raise [AttributeError] for such
    an identity when the control plane's answer carries no version, after
    the call has been made and has taken effect remotely. *)
Theorem X6_async_http_session_needs_version {CP : Type} `{Remote CP} `{SandboxSetup} :
  (forall opts id c cfg (w : World CP),
      o_sandbox_id opts = Some id -> o_connection_config opts = Some c ->
      configs w !! c = Some cfg ->
      o_envd_version opts = None -> is_brd id = false ->
      exists w',
        AsyncSandbox.__init__ opts w = (Raise (AttributeError "_envd_version"), w') /\
        net w' = net w /\ remote w' = remote w) /\
  (forall id timeout p (w : World CP) resp cp',
      is_brd id = false ->
      remote_connect id (or_int timeout default_sandbox_timeout) p (remote w)
        = (Ok resp, cp') ->
      co_envd_version resp = None ->
      exists w',
        AsyncSandbox._cls_connect id timeout p w
          = (Raise (AttributeError "_envd_version"), w') /\
        remote w' = cp' /\
        net w' = net w ++ [XConnect id (or_int timeout default_sandbox_timeout) p
                                    (Ok resp)]) /\
  (forall id auto_pause timeout p (w : World CP) resp cp',
      is_brd id = false ->
      remote_resume id auto_pause (or_int timeout default_sandbox_timeout) p (remote w)
        = (Ok resp, cp') ->
      co_envd_version resp = None ->
      exists w',
        AsyncSandbox._cls_resume id auto_pause timeout p w
          = (Raise (AttributeError "_envd_version"), w') /\
        remote w' = cp' /\
        net w' = net w ++ [XResume id auto_pause
                                   (or_int timeout default_sandbox_timeout) p
                                   (Ok resp)]) /\
  (forall template timeout metadata envs secure p (w : World CP) resp cp',
      default false (debug p) = false ->
      let rq := {| rq_template := or_str template default_template;
                   rq_timeout := or_int timeout default_sandbox_timeout;
                   rq_auto_pause := false; rq_metadata := metadata;
                   rq_env_vars := envs; rq_secure := or_false secure |} in
      remote_create rq p (remote w) = (Ok resp, cp') ->
      cr_envd_version resp = None ->
      is_brd (cr_sandbox_id resp) = false ->
      exists w',
        AsyncSandbox.create template timeout metadata envs secure p w
          = (Raise (AttributeError "_envd_version"), w') /\
        remote w' = cp' /\ net w' = net w ++ [XCreate rq p (Ok resp)]).
Proof.
  split; [| split; [| split]].
  - intros opts id c cfg w Hid Hc Hcfg Hv Hb.
    rewrite (async_init_no_version opts id c cfg w Hid Hc Hcfg Hv Hb).
    eexists. done.
  - intros id timeout p w resp cp' Hb Hr Hv.
    rewrite (async_connect_no_version id timeout p w resp cp' Hb Hr Hv).
    eexists. done.
  - intros id auto_pause timeout p w resp cp' Hb Hr Hv.
    rewrite (async_resume_no_version id auto_pause timeout p w resp cp' Hb Hr Hv).
    eexists. done.
  - intros template timeout metadata envs secure p w resp cp' Hd rq Hr Hv Hb.
    unfold AsyncSandbox.create.
    rewrite (async_create_no_version template timeout false metadata envs
               (or_false secure) p w resp cp' Hd Hr Hv Hb).
    eexists. done.
Qed.

Lemma X6_async_http_session_needs_version_witness :
  (AsyncSandbox._cls_connect "sbx-n" None key w_plain).1
    = Raise (AttributeError "_envd_version") /\
  (AsyncSandbox.create None None None None None key w_plain).1
    = Raise (AttributeError "_envd_version").
Proof.
  destruct (X6_async_http_session_needs_version (CP := ControlPlane))
    as (_ & Hconnect & _ & Hcreate).
  split.
  - destruct (Hconnect "sbx-n" None key w_plain _ _ eq_refl eq_refl eq_refl)
      as (w' & E & _).
    by rewrite E.
  - destruct (Hcreate None None None None None key w_plain _ _
                      eq_refl eq_refl eq_refl eq_refl) as (w' & E & _).
    by rewrite E.
Defined.

(** X7. The sync [beta_create] builds a [Version] from the answer of the
    create call unconditionally: outside debug mode, when the answer has
    no version it raises what [Version(None)] raises, and when it has a
    string that [Version] rejects it raises [InvalidVersion]; the sandbox
    has been created remotely by then, and neither a configuration nor a
    session exists.  The sync constructor tests the version for truth
    first: given the same answer with a missing or empty version and an
    identity without the marker, and keyword options that
    [ConnectionConfig] takes, it returns a session whose daemon version
    is [None]. *)
Theorem X7_sync_create_needs_version {CP : Type} `{Remote CP} `{SandboxSetup}
        (template : option string) (timeout : option Z) (auto_pause : bool)
        (metadata envs : option (gmap string string)) (secure : option bool)
        (p : ApiParams) (w : World CP) (resp : SandboxCreateResponse) (cp' : CP) :
  default false (debug p) = false ->
  let rq := {| rq_template := or_str template default_template;
               rq_timeout := or_int timeout default_sandbox_timeout;
               rq_auto_pause := auto_pause; rq_metadata := metadata;
               rq_env_vars := envs; rq_secure := or_false secure |} in
  remote_create rq p (remote w) = (Ok resp, cp') ->
  let w' := mkWorld cp' (net w ++ [XCreate rq p (Ok resp)]) (logged w)
                    (configs w) (transports w) in
  (cr_envd_version resp = None ->
   Sandbox.beta_create template timeout auto_pause metadata envs secure p w
     = (Raise version_of_none, w')) /\
  (forall v, cr_envd_version resp = Some v -> parse_version v = None ->
   Sandbox.beta_create template timeout auto_pause metadata envs secure p w
     = (Raise (InvalidVersion v), w')) /\
  (auto_pause = false ->
   cr_envd_version resp = None \/ cr_envd_version resp = Some "" ->
   is_brd (cr_sandbox_id resp) = false ->
   config_rejects
     {| o_sandbox_id := None; o_connection_config := None;
        o_envd_version := None; o_envd_access_token := PNone;
        o_ssh_host := None; o_ssh_port := None; o_ssh_username := None;
        o_ssh_password := None; o_api := p |} = None ->
   exists s w2,
     Sandbox.__init__ template timeout metadata envs secure
       {| o_sandbox_id := None; o_connection_config := None;
          o_envd_version := None; o_envd_access_token := PNone;
          o_ssh_host := None; o_ssh_port := None; o_ssh_username := None;
          o_ssh_password := None; o_api := p |} w = (Ok s, w2) /\
     _sandbox_id s = cr_sandbox_id resp /\ _envd_version s = Some None).
Proof.
  intros Hd rq Hr w'.
  assert (remote_create
            {| rq_template := or_str (Some (or_str template default_template))
                                     default_template;
               rq_timeout := or_int timeout default_sandbox_timeout;
               rq_auto_pause := auto_pause; rq_metadata := metadata;
               rq_env_vars := envs; rq_secure := or_false secure |}
            p (remote w) = (Ok resp, cp')) as Hr'.
  { rewrite or_str_idem. exact Hr. }
  destruct (sync_create_version (Some (or_str template default_template)) timeout
              auto_pause metadata envs (or_false secure) p w resp cp' Hd Hr')
    as [Hnone Hbad].
  rewrite or_str_idem in Hnone, Hbad.
  split; [exact Hnone|]. split; [exact Hbad|].
  intros -> Hver Hb Hrej.
  destruct (sync_init_create_no_version template timeout metadata envs secure
              {| o_sandbox_id := None; o_connection_config := None;
                 o_envd_version := None; o_envd_access_token := PNone;
                 o_ssh_host := None; o_ssh_port := None; o_ssh_username := None;
                 o_ssh_password := None; o_api := p |} w resp cp'
              eq_refl eq_refl Hrej eq_refl Hd Hr Hver Hb)
    as (s & w2 & E & Hid & Hv & _).
  exists s, w2. done.
Qed.

Lemma X7_sync_create_needs_version_witness :
  (Sandbox.beta_create None None false None None None key w_plain).1
    = Raise version_of_none /\
  exists s w2,
    Sandbox.__init__ None None None None None
      {| o_sandbox_id := None; o_connection_config := None;
         o_envd_version := None; o_envd_access_token := PNone;
         o_ssh_host := None; o_ssh_port := None; o_ssh_username := None;
         o_ssh_password := None; o_api := key |} w_plain = (Ok s, w2) /\
    _envd_version s = Some None.
Proof.
  eassert (remote_create (CP := ControlPlane)
             {| rq_template := or_str None default_template;
                rq_timeout := or_int None default_sandbox_timeout;
                rq_auto_pause := false; rq_metadata := None;
                rq_env_vars := None; rq_secure := or_false None |}
             key (remote w_plain) = (Ok _, _)) as Hr
    by (vm_compute; reflexivity).
  destruct (X7_sync_create_needs_version None None false None None None key w_plain
              _ _ eq_refl Hr) as (Hnone & _ & Hinit).
  split.
  - by rewrite (Hnone eq_refl).
  - destruct (Hinit eq_refl (or_introl eq_refl) eq_refl eq_refl)
      as (s & w2 & E & _ & Hv).
    exists s, w2. done.
Defined.

Section VersionAttribute.
Context {CP : Type} `{Remote CP} `{SandboxSetup}.

Lemma sync_init_version_set template timeout metadata envs secure opts w s w' :
  Sandbox.__init__ template timeout metadata envs secure opts w = (Ok s, w') ->
  is_Some (_envd_version s).
Proof.
  unfold Sandbox.__init__. unfold_api. intros E.
  minv.
  all: cbn [_envd_version]; eauto.
Qed.

Lemma async_init_version_unset opts (w : World CP) s w' :
  AsyncSandbox.__init__ opts w = (Ok s, w') ->
  o_envd_version opts = None ->
  _envd_version s = None /\ is_brd (_sandbox_id s) = true.
Proof.
  unfold AsyncSandbox.__init__. unfold_api. intros E Hv.
  minv.
  all: cbn [_envd_version _sandbox_id]; done.
Qed.

Lemma get_metrics_unknown_version (self : Session) cfg start end_ p (w : World CP) :
  _envd_version self = Some None ->
  configs w !! _connection_config self = Some cfg ->
  let q := get_api_params cfg p in
  let id := _sandbox_id self in
  let answer := remote_get_metrics id start end_ q (remote w) in
  Sandbox.get_metrics self start end_ p w =
    (answer.1,
     mkWorld answer.2 (net w ++ [XGetMetrics id start end_ q answer.1])
             (logged w) (configs w) (transports w)).
Proof.
  intros Hv Hc q id answer.
  unfold Sandbox.get_metrics, version_below, SandboxApi._cls_get_metrics.
  rewrite Hv. fwd. rewrite (bind_get_config _ cfg) by exact Hc.
  unfold round_trip. subst answer q id.
  destruct (remote_get_metrics _ _ _ _ _); reflexivity.
Qed.

End VersionAttribute.

(** X8. [get_metrics] without a known daemon version.  The sync
    constructor always assigns [_envd_version], possibly [None]; with
    [None] the method applies no version gate: it makes the call, returns
    the answer and logs nothing.  The async constructor leaves the
    attribute unassigned when no version is passed (the session is then
    SSH-backed), and on such a session the async method raises
    [AttributeError] before any call, with the process state unchanged. *)
Theorem X8_metrics_without_version {CP : Type} `{Remote CP} `{SandboxSetup}
        (self : Session) (cfg : ConnectionConfig) (start end_ : option Z)
        (p : ApiParams) (w : World CP) :
  configs w !! _connection_config self = Some cfg ->
  let q := get_api_params cfg p in
  let id := _sandbox_id self in
  let answer := remote_get_metrics id start end_ q (remote w) in
  (_envd_version self = Some None ->
   Sandbox.get_metrics self start end_ p w =
     (answer.1,
      mkWorld answer.2 (net w ++ [XGetMetrics id start end_ q answer.1])
              (logged w) (configs w) (transports w))) /\
  (_envd_version self = None ->
   AsyncSandbox.get_metrics self start end_ p w
     = (Raise (AttributeError "_envd_version"), w)) /\
  (forall template timeout metadata envs secure opts (w0 w0' : World CP),
      Sandbox.__init__ template timeout metadata envs secure opts w0 = (Ok self, w0') ->
      is_Some (_envd_version self)) /\
  (forall opts (w0 w0' : World CP),
      AsyncSandbox.__init__ opts w0 = (Ok self, w0') ->
      o_envd_version opts = None ->
      _envd_version self = None /\ is_brd (_sandbox_id self) = true).
Proof.
  intros Hc q id answer. split; [| split; [| split]].
  - intros Hv. by apply get_metrics_unknown_version.
  - intros Hv. unfold AsyncSandbox.get_metrics, version_below. by rewrite Hv.
  - intros template timeout metadata envs secure opts w0 w0' E.
    by apply sync_init_version_set in E.
  - intros opts w0 w0' E Hv. by apply async_init_version_unset in E.
Qed.

Lemma X8_metrics_without_version_witness :
  exists s w',
    AsyncSandbox._cls_connect "n-brd-1" None key w_plain = (Ok s, w') /\
    AsyncSandbox.get_metrics s None None no_params w'
      = (Raise (AttributeError "_envd_version"), w').
Proof.
  destruct (AsyncSandbox._cls_connect "n-brd-1" None key w_plain)
    as [[s|e] w'] eqn:E; [| by vm_compute in E].
  exists s, w'. split; [reflexivity|].
  assert (_envd_version s = None /\ _connection_config s = 0
          /\ configs w' = [ConnectionConfig_new ∅ key]) as (Hv & Hr & Hc).
  { vm_compute in E. injection E as <- <-. done. }
  refine (proj1 (proj2 (X8_metrics_without_version s (ConnectionConfig_new ∅ key)
                          None None no_params w' _)) Hv).
  by rewrite Hc, Hr.
Defined.

(** ** The calls of connect *)

Section ConnectCalls.
Context {CP : Type} `{Remote CP} `{SandboxSetup}.

(** The calls of the sync constructor when a class method hands it an
    identity and a configuration that is not in debug mode. *)
Lemma sync_cls_calls opts id c c0 (w : World CP) s w' :
  Sandbox.cls opts w = (Ok s, w') ->
  o_sandbox_id opts = Some id -> o_connection_config opts = Some c ->
  configs w !! c = Some c0 -> cc_debug c0 = false ->
  let q := get_api_params c0 no_params in
  _sandbox_id s = id /\
  exists info,
    if is_brd id
    then exists ssh, net w' = net w ++ [XGetInfo id q (Ok info); XGetSsh id q (Ok ssh)]
    else net w' = net w ++ [XGetInfo id q (Ok info)].
Proof.
  intros E Hid Hc Hc0 Hd q. unfold Sandbox.cls in E.
  destruct (sync_init_ok _ _ _ _ _ _ _ _ _ E)
    as (c0' & new & tr & Hcc & _ & _ & _ & _ & Hc1 & _).
  rewrite Hc in Hcc. destruct Hcc as [Hs Hcc]. rewrite Hc0 in Hcc.
  injection Hcc as <-. cbv zeta in Hc1.
  assert (exists c1, configs w' !! _connection_config s = Some c1 /\
                     cc_debug c1 = false /\
                     get_api_params c1 no_params = q) as (c1 & Hc1' & Hd1 & Hq).
  { eexists. split; [exact Hc1|]. by destruct (obtained_token new). }
  destruct (sync_init_calls _ _ _ _ _ _ _ _ _ c1 E Hc1' Hd1) as (first & Hfirst & Hnet).
  rewrite Hid in Hfirst. destruct Hfirst as (Hi & info & ->).
  rewrite Hq in Hnet. split; [exact Hi|]. exists info.
  rewrite Hi in Hnet. destruct (is_brd id).
  - destruct Hnet as (ssh & ep & Hnet & _). eauto.
  - by destruct Hnet as [Hnet _].
Qed.

End ConnectCalls.

(** X9. The control-plane calls of a successful connect outside debug
    mode.  The sync [connect] to an identity without the marker makes two
    calls, connect and then get-info, because the constructor fetches the
    sandbox info again; to an identity with the marker it makes four:
    get-info and get-SSH in the class method, and both once more in the
    constructor.  The async [connect] makes one call, respectively two. *)
Theorem X9_connect_call_sequence {CP : Type} `{Remote CP} `{SandboxSetup}
        (id : string) (timeout : option Z) (p : ApiParams)
        (w : World CP) (s : Session) (w' : World CP) :
  default false (debug p) = false ->
  let t := or_int timeout default_sandbox_timeout in
  let q := get_api_params (ConnectionConfig_new ∅ p) no_params in
  (Sandbox._cls_connect id timeout p w = (Ok s, w') ->
   if is_brd id
   then exists i1 s1 i2 s2,
          net w' = net w ++ [XGetInfo id p (Ok i1); XGetSsh id p (Ok s1);
                             XGetInfo id q (Ok i2); XGetSsh id q (Ok s2)]
   else exists r i,
          net w' = net w ++ [XConnect id t p (Ok r); XGetInfo id q (Ok i)]) /\
  (AsyncSandbox._cls_connect id timeout p w = (Ok s, w') ->
   if is_brd id
   then exists i1 s1,
          net w' = net w ++ [XGetInfo id p (Ok i1); XGetSsh id p (Ok s1)]
   else exists r, net w' = net w ++ [XConnect id t p (Ok r)]).
Proof.
  intros Hd t q. split.
  - intros E. unfold Sandbox._cls_connect in E.
    destruct (is_brd id) eqn:Hb; unfold_api; minv.
    + match goal with
      | E : Sandbox.cls ?o ?w1 = _ |- _ =>
          destruct (sync_cls_calls o id (length (configs w))
                      (ConnectionConfig_new ∅ p) w1 s w' E eq_refl eq_refl)
            as (_ & info & Hnet)
      end.
      { cbn [configs]. apply lookup_new. }
      { exact Hd. }
      rewrite Hb in Hnet. destruct Hnet as (ssh & Hnet).
      cbn [net] in Hnet. rewrite <- !app_assoc in Hnet. cbn [app] in Hnet.
      eauto 8.
    + match goal with
      | E : Sandbox.cls ?o ?w1 = _ |- _ =>
          destruct (sync_cls_calls o id (length (configs w))
                      (ConnectionConfig_new (token_headers (co_envd_access_token x)) p)
                      w1 s w' E eq_refl eq_refl)
            as (_ & info & Hnet)
      end.
      { cbn [configs]. apply lookup_new. }
      { exact Hd. }
      rewrite Hb in Hnet.
      cbn [net] in Hnet. rewrite <- !app_assoc in Hnet. cbn [app] in Hnet.
      eauto 8.
  - intros E. unfold AsyncSandbox._cls_connect in E.
    destruct (is_brd id) eqn:Hb; unfold_api; minv.
    + apply async_init_ok in E as (c0 & _ & _ & _ & _ & Hnet & _).
      cbn [net] in Hnet. rewrite <- !app_assoc in Hnet. cbn [app] in Hnet.
      eauto 8.
    + apply async_init_ok in E as (c0 & _ & _ & _ & _ & Hnet & _).
      cbn [net] in Hnet. eauto 8.
Qed.

Lemma X9_connect_call_sequence_witness :
  exists s w' r i,
    Sandbox._cls_connect "sbx-1" None key w0 = (Ok s, w') /\
    net w' = [XConnect "sbx-1" 300 key (Ok r);
              XGetInfo "sbx-1" (get_api_params (ConnectionConfig_new ∅ key) no_params)
                       (Ok i)].
Proof.
  destruct (Sandbox._cls_connect "sbx-1" None key w0) as [[s|e] w'] eqn:E;
    [| by vm_compute in E].
  destruct (proj1 (X9_connect_call_sequence "sbx-1" None key w0 s w' eq_refl) E)
    as (r & i & Hnet).
  exists s, w', r, i. split; [reflexivity | exact Hnet].
Defined.

(** X10. Falsy arguments are replaced by the defaults.  A timeout of [0]
    is treated exactly like no timeout by the sync constructor and by
    [beta_create], [create], [connect] and [resume] of both controllers,
    an empty template like no template by the create methods (and by the
    constructor when no [sandbox_id] is passed), and [secure=False] like
    no [secure]; and when the sync constructor creates a sandbox, the
    create request carries the default template and timeout of the class
    in these cases, never pauses automatically, and is secure only for
    [secure=True]. *)
Theorem X10_falsy_arguments_take_defaults {CP : Type} `{Remote CP} `{SandboxSetup}
        (template : option string) (timeout : option Z)
        (metadata envs : option (gmap string string)) (secure : option bool)
        (opts : SandboxOpts) (id : string) (auto_pause : bool) (p : ApiParams)
        (w : World CP) :
  Sandbox.__init__ template (Some 0%Z) metadata envs (Some false) opts w
    = Sandbox.__init__ template None metadata envs None opts w /\
  (o_sandbox_id opts = None ->
   Sandbox.__init__ (Some "") timeout metadata envs secure opts w
     = Sandbox.__init__ None timeout metadata envs secure opts w) /\
  Sandbox.beta_create (Some "") (Some 0%Z) auto_pause metadata envs (Some false) p w
    = Sandbox.beta_create None None auto_pause metadata envs None p w /\
  AsyncSandbox.create (Some "") (Some 0%Z) metadata envs (Some false) p w
    = AsyncSandbox.create None None metadata envs None p w /\
  AsyncSandbox.beta_create (Some "") (Some 0%Z) auto_pause metadata envs (Some false) p w
    = AsyncSandbox.beta_create None None auto_pause metadata envs None p w /\
  Sandbox._cls_connect id (Some 0%Z) p w = Sandbox._cls_connect id None p w /\
  Sandbox._cls_resume id auto_pause (Some 0%Z) p w
    = Sandbox._cls_resume id auto_pause None p w /\
  AsyncSandbox._cls_connect id (Some 0%Z) p w = AsyncSandbox._cls_connect id None p w /\
  AsyncSandbox._cls_resume id auto_pause (Some 0%Z) p w
    = AsyncSandbox._cls_resume id auto_pause None p w /\
  (forall s w' cfg,
      Sandbox.__init__ template timeout metadata envs secure opts w = (Ok s, w') ->
      o_sandbox_id opts = None ->
      configs w' !! _connection_config s = Some cfg -> cc_debug cfg = false ->
      exists rq resp rest,
        net w' = net w ++ XCreate rq (o_api opts) (Ok resp) :: rest /\
        rq_template rq
          = match template with
            | Some (String c t) => String c t
            | Some "" | None => default_template
            end /\
        rq_timeout rq
          = match timeout with
            | Some 0%Z | None => default_sandbox_timeout
            | Some t => t
            end /\
        rq_auto_pause rq = false /\
        rq_secure rq = bool_decide (secure = Some true) /\
        rq_metadata rq = metadata /\ rq_env_vars rq = envs).
Proof.
  split; [reflexivity|]. split.
  { intros Hid. unfold Sandbox.__init__. by rewrite Hid. }
  do 7 (split; [reflexivity|]).
  intros s w' cfg E Hid Hc Hd.
  destruct (sync_init_calls _ _ _ _ _ _ _ _ _ cfg E Hc Hd) as (first & Hfirst & Hnet).
  rewrite Hid in Hfirst. destruct Hfirst as (resp & _ & ->).
  match type of Hnet with
  | context [XCreate ?rq0 _ _] =>
      assert (exists rest, net w' = net w ++ XCreate rq0 (o_api opts) (Ok resp) :: rest)
        as [rest Hn]
  end.
  { destruct (is_brd (_sandbox_id s)).
    - destruct Hnet as (info & ep & Hnet & _). eauto.
    - destruct Hnet as [Hnet _]. eauto. }
  eexists _, resp, rest. split; [exact Hn|].
  cbn [rq_template rq_timeout rq_auto_pause rq_secure rq_metadata rq_env_vars].
  split. { by destruct template as [[|c t]|]. }
  split. { by destruct timeout as [[| |]|]. }
  split; [reflexivity|]. split; [| done].
  by destruct secure as [[|]|].
Qed.

Lemma X10_falsy_arguments_take_defaults_witness :
  exists s w' rq resp,
    Sandbox.__init__ (Some "") (Some 0%Z) None None None opts_new w0 = (Ok s, w') /\
    net w' = [XCreate rq key (Ok resp)] /\
    rq_template rq = "base" /\ rq_timeout rq = 300%Z /\ rq_secure rq = false.
Proof.
  destruct (Sandbox.__init__ (Some "") (Some 0%Z) None None None opts_new w0)
    as [[s|e] w'] eqn:E; [| by vm_compute in E].
  assert (exists cfg, configs w' !! _connection_config s = Some cfg /\
                      cc_debug cfg = false) as (cfg & Hc & Hd).
  { vm_compute in E. injection E as <- <-. eexists.
    split; [vm_compute; reflexivity | reflexivity]. }
  destruct (proj2 (proj2 (proj2 (proj2 (proj2 (proj2 (proj2 (proj2 (proj2
              (X10_falsy_arguments_take_defaults (Some "") (Some 0%Z) None None None
                 opts_new "" false key w0))))))))) s w' cfg E eq_refl Hc Hd)
    as (rq & resp & rest & Hnet & Ht & Hto & _ & Hs & _).
  change (net w0) with (@nil Exchange) in Hnet. cbn [app] in Hnet.
  assert (length (net w') = 1) as Hlen.
  { apply (f_equal (fun x => length (net x.2))) in E. cbn [snd] in E.
    rewrite <- E. vm_compute. reflexivity. }
  rewrite Hnet in Hlen. destruct rest; [| discriminate Hlen].
  exists s, w', rq, resp. split; [reflexivity|]. split; [exact Hnet|].
  split; [exact Ht|]. split; [exact Hto|]. exact Hs.
Defined.

(** X11. When a [sandbox_id] is passed, the sync constructor ignores its
    creation arguments.  [timeout], [envs] and [secure] have no effect at
    all (the guard, whose message names the timeout, tests neither); with
    the empty string as [sandbox_id] also [template] and [metadata] have
    none.  The call is then the one with the keyword options alone. *)
Theorem X11_constructor_ignores_creation_arguments
        {CP : Type} `{Remote CP} `{SandboxSetup}
        (template : option string) (timeout : option Z)
        (metadata envs : option (gmap string string)) (secure : option bool)
        (opts : SandboxOpts) (id : string) (w : World CP) :
  o_sandbox_id opts = Some id ->
  id = "" \/ (template = None /\ metadata = None) ->
  Sandbox.__init__ template timeout metadata envs secure opts w
    = Sandbox.cls opts w.
Proof.
  intros Hid Hcase. unfold Sandbox.cls, Sandbox.__init__. rewrite Hid.
  destruct Hcase as [-> | [-> ->]].
  - reflexivity.
  - reflexivity.
Qed.

Lemma X11_constructor_ignores_creation_arguments_witness :
  Sandbox.__init__ None (Some 60%Z) None (Some ∅) (Some true)
                   (opts_shared "sbx-a") w_pair
  = Sandbox.cls (opts_shared "sbx-a") w_pair.
Proof.
  apply (X11_constructor_ignores_creation_arguments _ _ _ _ _ _ "sbx-a");
    [reflexivity | right; done].
Defined.

(** ** SSH-backed sessions *)

Section SshSessions.
Context {CP : Type} `{Remote CP} `{SandboxSetup}.

Lemma sync_init_ssh_objects template timeout metadata envs secure opts w s w' :
  Sandbox.__init__ template timeout metadata envs secure opts w = (Ok s, w') ->
  is_brd (_sandbox_id s) = true ->
  _commands s = SSHCommands2 (ssh_args_of s) /\
  _watch_commands s = Some (SSHCommands2 (ssh_args_of s)) /\
  _filesystem s = SSHFilesystem (ssh_args_of s) (SSHCommands2 (ssh_args_of s))
                                (SSHCommands2 (ssh_args_of s)) /\
  _adb_shell s = Some (ADBShell (_connection_config s) (_sandbox_id s)).
Proof.
  unfold Sandbox.__init__. unfold_api. intros E Hb.
  minv.
  all: cbn [_sandbox_id] in Hb; try congruence.
  all: done.
Qed.

Lemma async_init_ssh_objects opts (w : World CP) s w' :
  AsyncSandbox.__init__ opts w = (Ok s, w') ->
  net w' = net w /\ remote w' = remote w /\
  _ssh_host s = o_ssh_host opts /\ _ssh_port s = o_ssh_port opts /\
  _ssh_username s = o_ssh_username opts /\ _ssh_password s = o_ssh_password opts /\
  (is_brd (_sandbox_id s) = true ->
   _commands s = SSHCommands2 (ssh_args_of s) /\
   _watch_commands s = Some (SSHCommands2 (ssh_args_of s)) /\
   _filesystem s = SSHFilesystem (ssh_args_of s) (SSHCommands2 (ssh_args_of s))
                                 (SSHCommands2 (ssh_args_of s)) /\
   _adb_shell s = Some (ADBShell (_connection_config s) (_sandbox_id s))).
Proof.
  unfold AsyncSandbox.__init__. unfold_api. intros E.
  minv.
  all: repeat split; try reflexivity.
  all: congruence.
Qed.

(** A session with the marker was not built in debug mode, and its SSH
    attributes are those parsed from the answer of the last call the
    constructor made. *)
Lemma sync_init_ssh_source template timeout metadata envs secure opts w s w' :
  Sandbox.__init__ template timeout metadata envs secure opts w = (Ok s, w') ->
  is_brd (_sandbox_id s) = true ->
  exists pre q info ep,
    net w' = net w ++ pre ++ [XGetSsh (_sandbox_id s) q (Ok info)] /\
    SshParse.parse (connect_command info) = Some ep /\
    _ssh_host s = Some (SshParse.ep_host ep) /\
    _ssh_port s = Some (SshParse.ep_port ep) /\
    _ssh_username s = Some (SshParse.ep_username ep) /\
    _ssh_password s = Some (auth_password info).
Proof.
  intros E Hb.
  destruct (sync_init_url _ _ _ _ _ _ _ _ _ E) as (cfg & Hc & _).
  destruct (cc_debug cfg) eqn:Hd.
  - destruct (sync_init_debug _ _ _ _ _ _ _ _ _ _ E Hc Hd) as (_ & _ & Hs).
    rewrite Hs in Hb. discriminate Hb.
  - destruct (sync_init_calls _ _ _ _ _ _ _ _ _ cfg E Hc Hd) as (first & _ & Hnet).
    rewrite Hb in Hnet. destruct Hnet as (info & ep & Hnet & Hrest).
    exists [first], (get_api_params cfg no_params), info, ep. done.
Qed.

End SshSessions.

(** X12. Where the SSH credentials of a session come from.  A session
    with the marker that the sync constructor returns holds the port,
    user and host parsed from the answer of the SSH-credentials call that
    the constructor itself made last, and the password of that answer;
    its SSH command, watch and filesystem objects are built from exactly
    these, and the [ssh_*] options passed to the constructor (by the
    class methods, from their own earlier call) are not used.  The async
    constructor makes no call: the SSH attributes of its session, and the
    arguments of its SSH objects, are the [ssh_*] options as passed. *)
Theorem X12_ssh_credentials_source {CP : Type} `{Remote CP} `{SandboxSetup} :
  (forall template timeout metadata envs secure opts (w : World CP) s w',
      Sandbox.__init__ template timeout metadata envs secure opts w = (Ok s, w') ->
      is_brd (_sandbox_id s) = true ->
      (exists pre q info ep,
          net w' = net w ++ pre ++ [XGetSsh (_sandbox_id s) q (Ok info)] /\
          SshParse.parse (connect_command info) = Some ep /\
          _ssh_host s = Some (SshParse.ep_host ep) /\
          _ssh_port s = Some (SshParse.ep_port ep) /\
          _ssh_username s = Some (SshParse.ep_username ep) /\
          _ssh_password s = Some (auth_password info)) /\
      _commands s = SSHCommands2 (ssh_args_of s) /\
      _watch_commands s = Some (SSHCommands2 (ssh_args_of s)) /\
      _filesystem s = SSHFilesystem (ssh_args_of s) (SSHCommands2 (ssh_args_of s))
                                    (SSHCommands2 (ssh_args_of s))) /\
  (forall opts (w : World CP) s w',
      AsyncSandbox.__init__ opts w = (Ok s, w') ->
      net w' = net w /\
      _ssh_host s = o_ssh_host opts /\ _ssh_port s = o_ssh_port opts /\
      _ssh_username s = o_ssh_username opts /\
      _ssh_password s = o_ssh_password opts /\
      (is_brd (_sandbox_id s) = true ->
       _commands s = SSHCommands2 (ssh_args_of s) /\
       _watch_commands s = Some (SSHCommands2 (ssh_args_of s)) /\
       _filesystem s = SSHFilesystem (ssh_args_of s) (SSHCommands2 (ssh_args_of s))
                                     (SSHCommands2 (ssh_args_of s)))).
Proof.
  split.
  - intros template timeout metadata envs secure opts w s w' E Hb.
    split; [by eapply sync_init_ssh_source|].
    destruct (sync_init_ssh_objects _ _ _ _ _ _ _ _ _ E Hb) as (? & ? & ? & _).
    done.
  - intros opts w s w' E.
    destruct (async_init_ssh_objects _ _ _ _ E)
      as (Hn & _ & Hh & Hp & Hu & Hpw & Hobj).
    repeat (split; [assumption|]).
    intros Hb. destruct (Hobj Hb) as (? & ? & ? & _). done.
Qed.

Lemma X12_ssh_credentials_source_witness :
  exists s w',
    Sandbox.cls {| o_sandbox_id := Some "x-BRD-7"; o_connection_config := Some 0;
                   o_envd_version := None; o_envd_access_token := PNone;
                   o_ssh_host := Some "elsewhere"; o_ssh_port := Some 1%Z;
                   o_ssh_username := Some "nobody"; o_ssh_password := Some "x";
                   o_api := no_params |} w1 = (Ok s, w') /\
    _commands s = SSHCommands2 (ssh_args_of s) /\
    _ssh_host s = Some "10.0.0.5" /\ _ssh_port s = Some 2222%Z /\
    _ssh_username s = Some "user" /\ _ssh_password s = Some "pw".
Proof.
  destruct (Sandbox.cls {| o_sandbox_id := Some "x-BRD-7"; o_connection_config := Some 0;
                   o_envd_version := None; o_envd_access_token := PNone;
                   o_ssh_host := Some "elsewhere"; o_ssh_port := Some 1%Z;
                   o_ssh_username := Some "nobody"; o_ssh_password := Some "x";
                   o_api := no_params |} w1) as [[s|e] w'] eqn:E; [| by vm_compute in E].
  exists s, w'. split; [reflexivity|].
  assert (is_brd (_sandbox_id s) = true) as Hb.
  { vm_compute in E. by injection E as <- <-. }
  destruct (proj1 (X12_ssh_credentials_source (CP := ControlPlane))
                  _ _ _ _ _ _ _ _ _ E Hb) as (_ & Hcmd & _).
  split; [exact Hcmd|].
  vm_compute in E. by injection E as <- <-.
Defined.

(** X13. [is_running] of an SSH-backed session is constantly [True]: on
    every session with the marker that a construction returns, the sync
    and the async method return [True] in every state of the process and
    of the remote side, without any call and without changing anything;
    in particular after the sandbox has been killed. *)
Theorem X13_is_running_of_ssh_session {CP : Type} `{Remote CP} `{SandboxSetup}
        (m : M CP Session) (w : World CP) (s : Session) (w' : World CP) :
  construction m -> m w = (Ok s, w') ->
  is_brd (_sandbox_id s) = true ->
  forall (t : option Z) (w2 : World CP),
    Sandbox.is_running s t w2 = (Ok true, w2) /\
    AsyncSandbox.is_running s t w2 = (Ok true, w2) /\
    forall p r w3, Sandbox.kill s p w2 = (r, w3) ->
                   Sandbox.is_running s t w3 = (Ok true, w3).
Proof.
  intros Hm E Hb t w2.
  pose proof (brd_no_client s (construction_backend m w s w' Hm E) Hb) as Hapi.
  unfold Sandbox.is_running, AsyncSandbox.is_running. rewrite Hapi. done.
Qed.

Lemma X13_is_running_of_ssh_session_witness :
  exists s w' w2,
    Sandbox._cls_connect "x-BRD-7" None key w0 = (Ok s, w') /\
    Sandbox.kill s no_params w' = (Ok true, w2) /\
    Sandbox.is_running s None w2 = (Ok true, w2).
Proof.
  destruct (Sandbox._cls_connect "x-BRD-7" None key w0) as [[s|e] w'] eqn:E;
    [| by vm_compute in E].
  destruct (Sandbox.kill s no_params w') as [r w2] eqn:Ek.
  exists s, w', w2. split; [reflexivity|].
  assert (is_brd (_sandbox_id s) = true /\ r = Ok true) as [Hb ->].
  { vm_compute in E. injection E as <- <-. vm_compute in Ek.
    injection Ek as <- _. done. }
  split; [exact Ek|].
  exact (proj2 (proj2 (X13_is_running_of_ssh_session
                         (Sandbox._cls_connect "x-BRD-7" None key) w0 s w'
                         (sync_connect _ _ _) E Hb None w'))
               no_params _ _ Ek).
Defined.

(** X14. A configuration object passed to the sync constructor is
    written to, and sessions that share it overwrite each other.  When
    two sessions are constructed one after the other with the same
    [connection_config] object and the control plane hands out a token
    for each, then both sessions hold that one object, its
    [X-Access-Token] header is the token of the first after the first
    construction and the token of the second after the second, while the
    HTTP client of the first session keeps the token of the first. *)
Theorem X14_shared_configuration_is_overwritten
        {CP : Type} `{Remote CP} `{SandboxSetup}
        (t1 t2 : option string) (to1 to2 : option Z)
        (md1 md2 en1 en2 : option (gmap string string)) (se1 se2 : option bool)
        (o1 o2 : SandboxOpts) (c : nat) (w w1 w2 : World CP) (s1 s2 : Session)
        (new1 new2 : list Exchange) (tok1 tok2 : string) :
  Sandbox.__init__ t1 to1 md1 en1 se1 o1 w = (Ok s1, w1) ->
  Sandbox.__init__ t2 to2 md2 en2 se2 o2 w1 = (Ok s2, w2) ->
  o_connection_config o1 = Some c -> o_connection_config o2 = Some c ->
  net w1 = net w ++ new1 -> net w2 = net w1 ++ new2 ->
  obtained_token new1 = Some tok1 -> obtained_token new2 = Some tok2 ->
  _connection_config s1 = c /\ _connection_config s2 = c /\
  (exists cfg, configs w1 !! c = Some cfg /\
               cc_headers cfg !! "X-Access-Token" = Some tok1) /\
  (exists cfg, configs w2 !! c = Some cfg /\
               cc_headers cfg !! "X-Access-Token" = Some tok2) /\
  (forall api, _envd_api s1 = Some api ->
               cl_headers api !! "X-Access-Token" = Some tok1).
Proof.
  intros E1 E2 Ho1 Ho2 Hn1 Hn2 Ht1 Ht2.
  apply sync_init_ok in E1
    as (c0 & n1 & tr1 & Hcc1 & Hnet1 & _ & _ & _ & Hc1 & Hcl1 & _).
  apply sync_init_ok in E2
    as (c0' & n2 & tr2 & Hcc2 & Hnet2 & _ & _ & _ & Hc2 & _).
  rewrite Ho1 in Hcc1. rewrite Ho2 in Hcc2.
  destruct Hcc1 as [Hs1 _], Hcc2 as [Hs2 _].
  rewrite Hn1 in Hnet1. apply app_inv_head in Hnet1 as <-.
  rewrite Hn2 in Hnet2. apply app_inv_head in Hnet2 as <-.
  rewrite Ht1 in Hc1, Hcl1. rewrite Ht2 in Hc2. cbn in Hc1, Hc2, Hcl1.
  rewrite Hs1 in Hc1. rewrite Hs2 in Hc2.
  split; [exact Hs1|]. split; [exact Hs2|]. split; [| split].
  - eexists. split; [exact Hc1|]. cbn. apply lookup_insert_eq.
  - eexists. split; [exact Hc2|]. cbn. apply lookup_insert_eq.
  - intros api Hapi. rewrite (Hcl1 api Hapi). cbn. apply lookup_insert_eq.
Qed.

Lemma X14_shared_configuration_is_overwritten_witness :
  exists s1 wa s2 wb cfg api,
    Sandbox.cls (opts_shared "sbx-a") w_pair = (Ok s1, wa) /\
    Sandbox.cls (opts_shared "sbx-b") wa = (Ok s2, wb) /\
    configs wb !! _connection_config s1 = Some cfg /\
    cc_headers cfg !! "X-Access-Token" = Some "tok-b" /\
    _envd_api s1 = Some api /\
    cl_headers api !! "X-Access-Token" = Some "tok-a".
Proof.
  destruct (Sandbox.cls (opts_shared "sbx-a") w_pair) as [[s1|e] wa] eqn:E1;
    [| by vm_compute in E1].
  destruct (Sandbox.cls (opts_shared "sbx-b") wa) as [r wb] eqn:E2.
  assert (exists s2, r = Ok s2) as [s2 ->].
  { vm_compute in E1. injection E1 as <- <-. vm_compute in E2.
    injection E2 as <- _. eauto. }
  assert (exists n1 n2, net wa = net w_pair ++ n1 /\ net wb = net wa ++ n2 /\
                        obtained_token n1 = Some "tok-a" /\
                        obtained_token n2 = Some "tok-b" /\
                        is_Some (_envd_api s1))
    as (n1 & n2 & Hn1 & Hn2 & Ht1 & Ht2 & [api Hapi]).
  { vm_compute in E1. injection E1 as <- <-. vm_compute in E2.
    injection E2 as <- <-. eexists [_], [_].
    split; [reflexivity|]. split; [reflexivity|].
    split; [reflexivity|]. split; [reflexivity|]. eauto. }
  destruct (X14_shared_configuration_is_overwritten
              None None None None None None None None None None
              (opts_shared "sbx-a") (opts_shared "sbx-b") 0 w_pair wa wb s1 s2
              n1 n2 "tok-a" "tok-b" E1 E2 eq_refl eq_refl Hn1 Hn2 Ht1 Ht2)
    as (Hs1 & _ & _ & (cfg & Hc & Hh) & Hcl).
  exists s1, wa, s2, wb, cfg, api. split; [reflexivity|]. split; [exact E2|].
  rewrite Hs1. split; [exact Hc|]. split; [exact Hh|]. split; [exact Hapi|].
  exact (Hcl api Hapi).
Defined.

(** ** Configuration objects across constructions *)

Section ConfigFrame.
Context {CP : Type} `{Remote CP} `{SandboxSetup}.

(** Whatever the outcome, the sync constructor leaves every configuration
    object other than its own as it was. *)
Lemma sync_init_frame template timeout metadata envs secure opts w r w' :
  Sandbox.__init__ template timeout metadata envs secure opts w = (r, w') ->
  match o_connection_config opts with
  | Some c =>
      length (configs w') = length (configs w) /\
      forall i, i <> c -> configs w' !! i = configs w !! i
  | None => exists added, configs w' = configs w ++ added
  end.
Proof.
  unfold Sandbox.__init__. unfold_api. intros E.
  minv.
  all: cbn [configs].
  all: try (split; [by rewrite ?length_insert
                   | intros i Hi; by rewrite ?list_lookup_insert_ne]).
  all: try (rewrite ?insert_app_r_alt, ?Nat.sub_diag by done;
            cbn [insert list_insert]; eauto using app_nil_r).
  destruct (o_connection_config opts); [done|].
  exists []. by rewrite app_nil_r.
Qed.

Lemma async_init_frame opts (w : World CP) r w' :
  AsyncSandbox.__init__ opts w = (r, w') -> configs w' = configs w.
Proof.
  unfold AsyncSandbox.__init__. unfold_api. intros E.
  minv.
  all: reflexivity.
Qed.

(** A list that agrees with [l ++ [c]] everywhere but at the last
    position is [l] followed by one element. *)
Lemma extended_by_one {A} (l l' : list A) (c : A) :
  length l' = length (l ++ [c]) ->
  (forall i, i <> length l -> l' !! i = (l ++ [c]) !! i) ->
  exists x, l' = l ++ [x].
Proof.
  intros Hlen Hsame. rewrite length_app in Hlen. simpl in Hlen.
  destruct (l' !! length l) as [x|] eqn:Hx.
  - exists x. apply list_eq. intros i.
    destruct (decide (i = length l)) as [-> | Hi].
    + by rewrite Hx, lookup_new.
    + rewrite (Hsame i Hi).
      destruct (decide (i < length l)) as [Hlt | Hge].
      * by rewrite !lookup_app_l.
      * rewrite !lookup_ge_None_2; [done | |]; rewrite length_app; simpl; lia.
  - apply lookup_ge_None_1 in Hx. lia.
Qed.

Lemma sync_cls_frame opts (l : list ConnectionConfig) c0 (w1 : World CP) r w' :
  Sandbox.cls opts w1 = (r, w') ->
  o_connection_config opts = Some (length l) ->
  configs w1 = l ++ [c0] ->
  exists added, configs w' = l ++ added.
Proof.
  intros E Ho Hc. unfold Sandbox.cls in E. apply sync_init_frame in E.
  rewrite Ho in E. destruct E as [Hlen Hsame]. rewrite Hc in Hlen, Hsame.
  destruct (extended_by_one l (configs w') c0 Hlen Hsame) as [x ->]. eauto.
Qed.

Lemma async_cls_frame opts (l : list ConnectionConfig) c0 (w1 : World CP) r w' :
  AsyncSandbox.__init__ opts w1 = (r, w') ->
  configs w1 = l ++ [c0] ->
  exists added, configs w' = l ++ added.
Proof. intros E Hc. apply async_init_frame in E. rewrite E, Hc. eauto. Qed.

Lemma class_method_frame (m : M CP Session) w r w' :
  class_method_construction m -> m w = (r, w') ->
  exists added, configs w' = configs w ++ added.
Proof.
  intros Hm E. destruct Hm.
  all: unfold Sandbox.connect, Sandbox.resume, AsyncSandbox.connect,
         AsyncSandbox.resume, Sandbox.beta_create, AsyncSandbox.create,
         AsyncSandbox.beta_create,
         Sandbox._cls_connect, Sandbox._cls_resume, Sandbox._create,
         AsyncSandbox._cls_connect, AsyncSandbox._cls_resume,
         AsyncSandbox._create in E.
  all: unfold_api.
  all: minv.
  all: cbn [configs].
  all: try (exists []; by rewrite app_nil_r).
  all: try (eexists [_]; reflexivity).
  all: match goal with
       | E : Sandbox.cls _ _ = _ |- _ =>
           eapply (sync_cls_frame _ (configs w)) in E;
             [exact E | reflexivity | reflexivity]
       | E : AsyncSandbox.__init__ _ _ = _ |- _ =>
           eapply (async_cls_frame _ (configs w)) in E; [exact E | reflexivity]
       end.
Qed.

End ConfigFrame.

(** X15. Which configuration objects a construction may touch.  The
    create, connect and resume methods of both controllers, as class
    methods or on an instance, leave every configuration object of the
    process as it was and only add objects, whatever the outcome: a
    session that connects again keeps its own configuration unchanged.
    The async constructor changes no configuration object.  The sync
    constructor, given a configuration object, may write to that object
    and to no other, and without one it only adds objects. *)
Theorem X15_constructions_keep_existing_configurations
        {CP : Type} `{Remote CP} `{SandboxSetup} :
  (forall (m : M CP Session) w r w',
      class_method_construction m -> m w = (r, w') ->
      exists added, configs w' = configs w ++ added) /\
  (forall opts (w : World CP) r w',
      AsyncSandbox.__init__ opts w = (r, w') -> configs w' = configs w) /\
  (forall template timeout metadata envs secure opts (w : World CP) r w',
      Sandbox.__init__ template timeout metadata envs secure opts w = (r, w') ->
      match o_connection_config opts with
      | Some c =>
          length (configs w') = length (configs w) /\
          forall i, i <> c -> configs w' !! i = configs w !! i
      | None => exists added, configs w' = configs w ++ added
      end).
Proof.
  split; [exact class_method_frame|].
  split; [exact async_init_frame | exact sync_init_frame].
Qed.

Lemma X15_constructions_keep_existing_configurations_witness :
  exists r w' added,
    Sandbox._cls_connect "sbx-1" None key w1 = (r, w') /\
    configs w' = ConnectionConfig_new ∅ key :: added.
Proof.
  destruct (Sandbox._cls_connect "sbx-1" None key w1) as [r w'] eqn:E.
  destruct (proj1 (X15_constructions_keep_existing_configurations
                     (CP := ControlPlane))
                  _ _ _ _ (cm_sync_connect "sbx-1" None key) E)
    as (added & Hc).
  exists r, w', added. split; [reflexivity | exact Hc].
Defined.

(** ** Sessions as context managers *)

(** X16. A session used in a [with] statement (or [async with]) is killed
    when the block is left, whatever the body did: after the body, exactly
    one kill call for the identity of the session is made, with the
    parameters of the session's configuration.  The answer of kill
    ([True] or [False]) is discarded: the block yields the result of the
    body, and an exception of the body is raised again.  But when the
    kill call itself raises, that exception replaces the result of the
    body, and an exception of the body is lost. *)
Theorem X16_with_block_kills_session {CP : Type} `{Remote CP} `{SandboxSetup}
        (self : Session) (cfg : ConnectionConfig) (A : Type)
        (body : Session -> M CP A) (w : World CP)
        (r : result A) (w1 : World CP) :
  body self w = (r, w1) ->
  configs w1 !! _connection_config self = Some cfg ->
  let id := _sandbox_id self in
  let q := get_api_params cfg no_params in
  let answer := remote_kill id q (remote w1) in
  let w2 := mkWorld answer.2 (net w1 ++ [XKill id q answer.1])
                    (logged w1) (configs w1) (transports w1) in
  let outcome := match answer.1 with Ok _ => r | Raise e => Raise e end in
  with_ Sandbox.__enter__ Sandbox.__exit__ self body w = (outcome, w2) /\
  with_ AsyncSandbox.__aenter__ AsyncSandbox.__aexit__ self body w = (outcome, w2).
Proof.
  intros Hb Hc id q answer w2 outcome.
  assert (forall exc,
             Sandbox.__exit__ self exc w1
             = (match answer.1 with Ok _ => Ok tt | Raise e => Raise e end, w2))
    as Hexit.
  { intros exc. unfold Sandbox.__exit__, Sandbox.kill, SandboxApi._cls_kill.
    fwd. rewrite (bind_get_config _ cfg) by exact Hc.
    unfold bind, round_trip. subst w2 outcome answer q id.
    by destruct (remote_kill _ _ _) as [[b|e] cp']. }
  assert (with_ Sandbox.__enter__ Sandbox.__exit__ self body w = (outcome, w2))
    as Hwith.
  { unfold with_, Sandbox.__enter__. rewrite bind_ret, Hb.
    destruct r as [a|e]; unfold bind; rewrite Hexit; subst outcome;
      by destruct (answer.1). }
  split; [exact Hwith | exact Hwith].
Qed.

Lemma X16_with_block_kills_session_witness :
  exists w2,
    with_ Sandbox.__enter__ Sandbox.__exit__
          (http_session "sbx-1" Packaging.V_0_2_4)
          (fun _ => raise (A := unit) (Exception "boom")) w1
    = (Raise (Exception "boom"), w2) /\
    sandboxes (remote w2) !! "sbx-1" = None /\
    exists q, net w2 = [XKill "sbx-1" q (Ok true)].
Proof.
  eexists. split.
  - exact (proj1 (X16_with_block_kills_session
                    (http_session "sbx-1" Packaging.V_0_2_4)
                    (ConnectionConfig_new ∅ key) unit
                    (fun _ => raise (Exception "boom")) w1
                    (Raise (Exception "boom")) w1 eq_refl eq_refl)).
  - split; [by vm_compute|]. eexists. reflexivity.
Defined.

(** ** What a successful parse of a connect command guarantees *)

Section ParseSound.
Import Re.

Lemma plus_greedy_sound {R} p s (k : string -> option R) r :
  plus_greedy p s k = Some r ->
  exists run s', s = run +:+ s' /\ run <> "" /\ Text.all p run = true /\
                 k s' = Some r.
Proof.
  revert r. induction s as [|c s IH]; intros r E; [done|].
  cbn [plus_greedy] in E. destruct (p c) eqn:Hc; [|done].
  destruct (plus_greedy p s k) as [r'|] eqn:Hg.
  - injection E as ->. destruct (IH r eq_refl) as (run & s' & -> & Hne & Hall & Hk).
    exists (String c run), s'. rewrite append_cons. cbn [Text.all].
    by rewrite Hc, Hall.
  - exists (String c ""), s. rewrite append_cons, append_nil. cbn [Text.all].
    by rewrite Hc.
Qed.

(** With a continuation that accepts whatever is left, a greedy
    repetition takes the whole run. *)
Lemma plus_greedy_last {R} p s (f : string -> R) r :
  plus_greedy p s (fun s' => Some (f s')) = Some r ->
  exists run s', s = run +:+ s' /\ run <> "" /\ Text.all p run = true /\
                 r = f s' /\
                 match s' with String c _ => p c = false | EmptyString => True end.
Proof.
  revert r. induction s as [|c s IH]; intros r E; [done|].
  cbn [plus_greedy] in E. destruct (p c) eqn:Hc; [|done].
  destruct (plus_greedy p s (fun s' => Some (f s'))) as [r'|] eqn:Hg.
  - injection E as ->.
    destruct (IH r eq_refl) as (run & s' & -> & Hne & Hall & Hr & Hmax).
    exists (String c run), s'. rewrite append_cons. cbn [Text.all].
    by rewrite Hc, Hall.
  - injection E as <-. exists (String c ""), s.
    rewrite append_cons, append_nil. cbn [Text.all]. rewrite Hc.
    repeat split; [done|].
    destruct s as [|c' s]; [done|]. cbn [plus_greedy] in Hg.
    destruct (p c'); [|done]. by destruct (plus_greedy p s _).
Qed.

Lemma star_lazy_sound {R} p s (k : string -> option R) r :
  star_lazy p s k = Some r ->
  exists run s', s = run +:+ s' /\ Text.all p run = true /\ k s' = Some r.
Proof.
  revert r. induction s as [|c s IH]; intros r E.
  - cbn [star_lazy] in E. destruct (k "") eqn:Hk; [|done]. injection E as ->.
    by exists "", "".
  - cbn [star_lazy] in E. destruct (k (String c s)) as [r'|] eqn:Hk.
    + injection E as ->. by exists "", (String c s).
    + destruct (p c) eqn:Hc; [|done].
      destruct (IH r E) as (run & s' & -> & Hall & Hk').
      exists (String c run), s'. rewrite append_cons. cbn [Text.all].
      by rewrite Hc, Hall.
Qed.

Lemma search_sound r s g :
  search r s = Some g -> exists pre suf, s = pre +:+ suf /\ match_ r suf = Some g.
Proof.
  induction s as [|c s IH]; cbn [search]; intros E.
  - destruct (match_ r "") eqn:Hm; [|done]. injection E as ->. by exists "", "".
  - destruct (match_ r (String c s)) eqn:Hm.
    + injection E as ->. by exists "", (String c s).
    + destruct (IH E) as (pre & suf & -> & Hs). by exists (String c pre), suf.
Qed.

Lemma int_acc_nonneg acc s :
  (0 <= acc)%Z -> Text.all is_digit s = true -> (0 <= Text.int_acc acc s)%Z.
Proof.
  revert acc. induction s as [|c s IH]; intros acc Hacc Hall; [done|].
  cbn [Text.all] in Hall. apply andb_true_iff in Hall as [Hc Hall].
  cbn [Text.int_acc]. apply IH; [|done].
  unfold is_digit, Text.between in Hc. apply andb_true_iff in Hc as [Hc _].
  apply N.leb_le in Hc. unfold Text.digit_val. lia.
Qed.

(** One step of reading a successful match of a literal off [E]. *)
Ltac lit_step E :=
  match type of E with
  | match ?s with EmptyString => None | String _ _ => _ end = Some _ =>
      let c := fresh "c" in
      let s' := fresh "s" in
      destruct s as [|c s']; [discriminate E|];
      match type of E with
      | (if Ascii.eqb ?a c then _ else None) = Some _ =>
          destruct (Ascii.eqb_spec a c) as [<- | _]; [| discriminate E]
      end
  end.

Lemma match_sound s g :
  match_ SshParse.pattern s = Some g ->
  exists ws1 ws2 digits mid ws3 user host rest,
    s = "ssh" +:+ ws1 +:+ "-p" +:+ ws2 +:+ digits +:+ mid +:+ ws3
        +:+ user +:+ "@" +:+ host +:+ rest /\
    g = <[3 := host]> (<[2 := user]> (<[1 := digits]> ∅)) /\
    (ws1 <> "" /\ Text.all is_space ws1 = true) /\
    (ws2 <> "" /\ Text.all is_space ws2 = true) /\
    (digits <> "" /\ Text.all is_digit digits = true) /\
    Text.all is_any mid = true /\
    (ws3 <> "" /\ Text.all is_space ws3 = true) /\
    (user <> "" /\ Text.all not_at_space user = true) /\
    (host <> "" /\ Text.all is_hostchar host = true) /\
    match rest with String c _ => is_hostchar c = false | EmptyString => True end.
Proof.
  unfold match_, SshParse.pattern. cbn [rmatch]. intros E.
  do 3 lit_step E.
  apply plus_greedy_sound in E as (ws1 & s2 & -> & Hws1 & Hws1' & E).
  do 2 lit_step E.
  apply plus_greedy_sound in E as (ws2 & s3 & -> & Hws2 & Hws2' & E).
  apply plus_greedy_sound in E as (digits & s4 & -> & Hd & Hd' & E).
  apply star_lazy_sound in E as (mid & s5 & -> & Hmid & E).
  apply plus_greedy_sound in E as (ws3 & s6 & -> & Hws3 & Hws3' & E).
  apply plus_greedy_sound in E as (user & s7 & -> & Hu & Hu' & E).
  lit_step E.
  apply plus_greedy_last in E as (host & rest & -> & Hh & Hh' & -> & Hmax).
  exists ws1, ws2, digits, mid, ws3, user, host, rest.
  rewrite !consumed_append.
  split; [reflexivity|]. split; [reflexivity|]. done.
Qed.

End ParseSound.

(** X17. What a successful parse of the connect command guarantees.
    Whenever the parser returns an endpoint, the command has the form
    [... ssh <spaces> -p <spaces> <digits> <anything> <spaces> <user>@<host> ...]:
    the port is the value of the digits and is not negative (it is not
    bounded above), the user name is not empty and has no ['@'] and no
    white space, the host is not empty and consists of word characters,
    dots and hyphens, and it is never cut short: what follows it in the
    command does not start with such a character.  Text before [ssh] and
    after the host is ignored. *)
Theorem X17_parse_sound (cmd : string) (ep : SshParse.SshEndpoint) :
  SshParse.parse cmd = Some ep ->
  exists pre ws1 ws2 digits mid ws3 rest,
    cmd = pre +:+ "ssh" +:+ ws1 +:+ "-p" +:+ ws2 +:+ digits +:+ mid +:+ ws3
          +:+ SshParse.ep_username ep +:+ "@" +:+ SshParse.ep_host ep +:+ rest /\
    SshParse.ep_port ep = Text.int digits /\ (0 <= SshParse.ep_port ep)%Z /\
    (ws1 <> "" /\ Text.all Re.is_space ws1 = true) /\
    (ws2 <> "" /\ Text.all Re.is_space ws2 = true) /\
    (digits <> "" /\ Text.all Re.is_digit digits = true) /\
    Text.all Re.is_any mid = true /\
    (ws3 <> "" /\ Text.all Re.is_space ws3 = true) /\
    (SshParse.ep_username ep <> "" /\
     Text.all Re.not_at_space (SshParse.ep_username ep) = true) /\
    (SshParse.ep_host ep <> "" /\
     Text.all Re.is_hostchar (SshParse.ep_host ep) = true) /\
    match rest with
    | String c _ => Re.is_hostchar c = false
    | EmptyString => True
    end.
Proof.
  unfold SshParse.parse. intros E.
  destruct (Re.search SshParse.pattern cmd) as [g|] eqn:Hs; [|done].
  injection E as <-. cbn [SshParse.ep_username SshParse.ep_host SshParse.ep_port].
  apply search_sound in Hs as (pre & suf & -> & Hm).
  apply match_sound in Hm
    as (ws1 & ws2 & digits & mid & ws3 & user & host & rest & -> & -> &
        Hws1 & Hws2 & Hd & Hmid & Hws3 & Hu & Hh & Hmax).
  exists pre, ws1, ws2, digits, mid, ws3, rest.
  unfold Re.group. simplify_map_eq.
  split; [reflexivity|]. split; [reflexivity|].
  split; [apply int_acc_nonneg; [done | apply Hd] |]. done.
Qed.

Lemma X17_parse_sound_witness :
  exists pre ws1 ws2 digits mid ws3 rest,
    "sudo ssh  -p 22 -o StrictHostKeyChecking=no root@h.example.com:/tmp"
    = pre +:+ "ssh" +:+ ws1 +:+ "-p" +:+ ws2 +:+ digits +:+ mid +:+ ws3
      +:+ "root" +:+ "@" +:+ "h.example.com" +:+ rest /\
    Text.int digits = 22%Z.
Proof.
  destruct (X17_parse_sound
              "sudo ssh  -p 22 -o StrictHostKeyChecking=no root@h.example.com:/tmp"
              {| SshParse.ep_port := 22; SshParse.ep_username := "root";
                 SshParse.ep_host := "h.example.com" |})
    as (pre & ws1 & ws2 & digits & mid & ws3 & rest & Hcmd & Hport & _);
    [by vm_compute|].
  exists pre, ws1, ws2, digits, mid, ws3, rest. split; [exact Hcmd|].
  symmetry. exact Hport.
Defined.

(** ** Connect commands with options *)

Section Options.
Import Re.











End Options.



(** ** Failed calls *)

Section FailFast.
Context {CP : Type} `{Remote CP} `{SandboxSetup}.

Lemma ff_nil {A} (r : result A) : fail_fast [] r.
Proof. intros i x e Hi. by rewrite lookup_nil in Hi. Qed.

Lemma ff_ret {A} (a : A) : emits (CP := CP) (ret a) fail_fast.
Proof. apply emits_ret, ff_nil. Qed.

Lemma ff_raise {A} e : emits (CP := CP) (raise (A := A) e) fail_fast.
Proof. apply emits_raise, ff_nil. Qed.

Lemma ff_bind {A B} (m : M CP A) (f : A -> M CP B) :
  emits m fail_fast -> (forall a, emits (f a) fail_fast) ->
  emits (bind m f) fail_fast.
Proof.
  intros Hm Hf. eapply emits_bind; [exact Hm | exact Hf | |].
  - intros n1 a n2 r H1 H2 i x e Hi Hx.
    apply lookup_app_Some in Hi as [Hi | [Hge Hi]].
    + by destruct (H1 i x e Hi Hx) as [_ ?].
    + destruct (H2 _ x e Hi Hx) as [Hlen ->]. split; [| done].
      rewrite length_app. lia.
  - intros n1 e H1 i x e0 Hi Hx.
    destruct (H1 i x e0 Hi Hx) as [Hlen [= ->]]. done.
Qed.

Lemma ff_round_trip {A} (op : CP -> result A * CP) record :
  (forall r e, call_failure (record r) = Some e -> r = Raise e) ->
  emits (round_trip op record) fail_fast.
Proof.
  intros Hr. apply emits_round_trip. intros r i x e Hi Hx.
  destruct i as [|i]; simplify_eq/=. split; [done|]. by apply Hr.
Qed.

Lemma ff_local {A} (m : M CP A) :
  (forall w r w', m w = (r, w') -> net w' = net w) -> emits m fail_fast.
Proof. intros Hm. apply emits_local; [exact Hm | apply ff_nil]. Qed.

Lemma ff_one {A} (x : Exchange) (r : result A) :
  (forall e, call_failure x = Some e -> r = Raise e) -> fail_fast [x] r.
Proof.
  intros Hx i y e Hi Hy. destruct i as [|i]; simplify_eq/=.
  split; [done|]. by apply Hx.
Qed.

End FailFast.

Ltac ff_step :=
  match goal with
  | |- emits (bind _ _) _ => apply ff_bind; [| intros ?]
  | |- emits (ret _) _ => apply ff_ret
  | |- emits (raise _) _ => apply ff_raise
  | |- emits (round_trip _ _) _ =>
      apply ff_round_trip; intros [?|?] ? ?; simplify_eq/=; reflexivity
  | |- emits (new_config _) _ => apply ff_local, @new_config_net
  | |- emits (new_transport _) _ => apply ff_local, @new_transport_net
  | |- emits (get_config _) _ => apply ff_local, @get_config_net
  | |- emits (set_header _ _ _) _ => apply ff_local, @set_header_net
  | |- emits (let '(_, _) := ?p in _) _ => destruct p
  | |- emits (if ?b then _ else _) _ => destruct b
  | |- emits (match ?x with _ => _ end) _ => destruct x
  end.

Section FailFastRuns.
Context {CP : Type} `{Remote CP} `{SandboxSetup}.

Lemma sync_init_ff template timeout metadata envs secure opts :
  emits (Sandbox.__init__ template timeout metadata envs secure opts) fail_fast.
Proof.
  unfold Sandbox.__init__.
  unfold SandboxApi._cls_get_info, SandboxApi._create_sandbox, SandboxApi._get_ssh,
    parse_ssh_info, version_if_truthy, version_of_arg, Version.
  repeat ff_step.
Qed.

Lemma async_init_ff opts :
  emits (CP := CP) (AsyncSandbox.__init__ opts) fail_fast.
Proof.
  unfold AsyncSandbox.__init__. unfold version_of_arg, Version.
  repeat ff_step.
Qed.

Lemma construction_ff (m : M CP Session) :
  construction m -> emits m fail_fast.
Proof.
  intros Hm. destruct Hm.
  all: try apply sync_init_ff.
  all: try apply async_init_ff.
  all: unfold Sandbox.connect, Sandbox.resume, AsyncSandbox.connect,
         AsyncSandbox.resume, Sandbox.beta_create, AsyncSandbox.create,
         AsyncSandbox.beta_create,
         Sandbox._cls_connect, Sandbox._cls_resume, Sandbox._create, Sandbox.cls,
         AsyncSandbox._cls_connect, AsyncSandbox._cls_resume,
         AsyncSandbox._create.
  all: unfold SandboxApi._cls_get_info, SandboxApi._create_sandbox,
         SandboxApi._cls_connect, SandboxApi._cls_resume, SandboxApi._get_ssh,
         parse_ssh_info, version_if_truthy, version_of_arg, Version.
  all: repeat first [ apply sync_init_ff | apply async_init_ff | ff_step ].
Qed.

Lemma method_ff (self : Session) A (c : M CP A) :
  method_call self A c -> emits c fail_fast.
Proof.
  intros Hc w r w' E. destruct Hc.
  all: unfold Sandbox.is_running, Sandbox.kill, Sandbox.set_timeout, Sandbox.get_info,
         Sandbox.pause, Sandbox.get_metrics, AsyncSandbox.is_running,
         AsyncSandbox.kill, AsyncSandbox.set_timeout, AsyncSandbox.get_info,
         AsyncSandbox.pause, AsyncSandbox.get_metrics in E.
  all: unfold_api.
  all: minv.
  all: cbn [net].
  all: first [ exists []; split; [by rewrite app_nil_r | apply ff_nil]
             | eexists [_]; split; [reflexivity|];
               apply ff_one; intros ? ?;
               repeat match goal with
                      | r : result _ |- _ => destruct r
                      end; by simplify_eq/= ].
Qed.

End FailFastRuns.

(** X19. A failed call ends the run, and its exception is the outcome.
    In every construction (sync or async, by constructor, create,
    connect or resume, as class method or on an instance) and in every
    operation on a session, a call of the control plane that is answered
    by an exception is the last exchange that the run makes, and the run
    raises exactly that exception: there is no retry, no fallback to
    another call and no translation of the error.  Hence a construction
    that returns a session had every one of its calls answered. *)
Theorem X19_failed_call_ends_the_run {CP : Type} `{Remote CP} `{SandboxSetup} :
  (forall (m : M CP Session) (w : World CP) r w',
      construction m -> m w = (r, w') ->
      exists new,
        net w' = net w ++ new /\
        forall i x e,
          new !! i = Some x -> call_failure x = Some e ->
          length new = S i /\ r = Raise e) /\
  (forall (self : Session) A (c : M CP A) (w : World CP) r w',
      method_call self A c -> c w = (r, w') ->
      exists new,
        net w' = net w ++ new /\
        forall i x e,
          new !! i = Some x -> call_failure x = Some e ->
          length new = S i /\ r = Raise e) /\
  (forall (m : M CP Session) (w : World CP) s w' new,
      construction m -> m w = (Ok s, w') -> net w' = net w ++ new ->
      forall x, x ∈ new -> call_failure x = None).
Proof.
  split; [| split].
  - intros m w r w' Hm E. exact (construction_ff m Hm w r w' E).
  - intros self A c w r w' Hc E. exact (method_ff self A c Hc w r w' E).
  - intros m w s w' new Hm E Hnew x Hx.
    destruct (construction_ff m Hm w _ w' E) as (new' & Hnew' & Hff).
    rewrite Hnew in Hnew'. apply app_inv_head in Hnew' as <-.
    apply list_elem_of_lookup in Hx as [i Hi].
    destruct (call_failure x) as [e|] eqn:Hf; [| done].
    by destruct (Hff i x e Hi Hf) as [_ ?].
Qed.

Lemma X19_failed_call_ends_the_run_witness :
  exists e w',
    Sandbox._cls_connect "sbx-9" None key w0 = (Raise e, w') /\
    length (net w') = 1.
Proof.
  destruct (Sandbox._cls_connect "sbx-9" None key w0) as [r w'] eqn:E.
  destruct (proj1 (X19_failed_call_ends_the_run (CP := ControlPlane))
                  _ _ _ _ (sync_connect "sbx-9" None key) E)
    as (new & Hnew & Hff).
  apply (f_equal snd) in E. vm_compute in E. subst w'.
  vm_compute in Hnew. subst new.
  destruct (Hff 0 _ _ eq_refl eq_refl) as [_ ->].
  eexists _, _. split; reflexivity.
Defined.

(** ** Which sandbox a run addresses *)

Section OwnSandbox.
Context {CP : Type} `{Remote CP} `{SandboxSetup}.

Lemma calls_only_refl (id : string) : bool_decide (id = id) = true.
Proof. by apply bool_decide_eq_true_2. Qed.

(** Given an identity, the sync constructor asks for the info and the
    SSH credentials of that sandbox only, whatever the outcome. *)
Lemma sync_init_own template timeout metadata envs secure opts id :
  o_sandbox_id opts = Some id ->
  emits (Sandbox.__init__ template timeout metadata envs secure opts)
        (all_calls (calls_only id)).
Proof.
  intros Hid w r w' E. unfold Sandbox.__init__ in E. unfold_api.
  rewrite Hid in E.
  minv.
  all: cbn [net]; rewrite <- ?app_assoc.
  all: try match goal with
           | Hb : is_brd "debug_sandbox_id" = true |- _ =>
               by rewrite debug_id_not_brd in Hb
           end.
  all: first [ exists []; split; [by rewrite app_nil_r | reflexivity]
             | eexists; split; [reflexivity|];
               unfold all_calls; cbn [forallb calls_only app];
               by rewrite ?calls_only_refl ].
Qed.

(** The async constructor makes no call. *)
Lemma async_init_own opts ok :
  emits (CP := CP) (AsyncSandbox.__init__ opts) (all_calls ok).
Proof.
  unfold AsyncSandbox.__init__. unfold version_of_arg, Version.
  repeat ac_step.
Qed.

End OwnSandbox.

Ltac co_step :=
  match goal with
  | |- emits (Sandbox.__init__ _ _ _ _ _ _) _ => by apply sync_init_own
  | |- emits (AsyncSandbox.__init__ _) _ => apply async_init_own
  | |- emits (bind _ _) _ => apply ac_bind; [| intros ?]
  | |- emits (ret _) _ => apply ac_ret
  | |- emits (raise _) _ => apply ac_raise
  | |- emits (round_trip _ _) _ =>
      apply ac_round_trip; intros ?; cbn [calls_only]; apply calls_only_refl
  | |- emits (new_config _) _ => apply ac_local, @new_config_net
  | |- emits (new_transport _) _ => apply ac_local, @new_transport_net
  | |- emits (get_config _) _ => apply ac_local, @get_config_net
  | |- emits (set_header _ _ _) _ => apply ac_local, @set_header_net
  | |- emits (let '(_, _) := ?p in _) _ => destruct p
  | |- emits (if ?b then _ else _) _ => destruct b
  | |- emits (match ?x with _ => _ end) _ => destruct x
  end.

Ltac co_unfold :=
  unfold Sandbox.connect, Sandbox.resume, AsyncSandbox.connect,
    AsyncSandbox.resume, Sandbox._cls_connect, Sandbox._cls_resume, Sandbox.cls,
    AsyncSandbox._cls_connect, AsyncSandbox._cls_resume;
  unfold SandboxApi._cls_get_info, SandboxApi._cls_connect, SandboxApi._cls_resume,
    SandboxApi._get_ssh, parse_ssh_info, Version.

Section OwnSandboxRuns.
Context {CP : Type} `{Remote CP} `{SandboxSetup}.

Lemma sync_connect_own id timeout p :
  emits (Sandbox._cls_connect id timeout p) (all_calls (calls_only id)).
Proof. co_unfold. repeat co_step. Qed.

Lemma sync_resume_own id auto_pause timeout p :
  emits (Sandbox._cls_resume id auto_pause timeout p) (all_calls (calls_only id)).
Proof. co_unfold. repeat co_step. Qed.

Lemma async_connect_own id timeout p :
  emits (AsyncSandbox._cls_connect id timeout p) (all_calls (calls_only id)).
Proof. co_unfold. repeat co_step. Qed.

Lemma async_resume_own id auto_pause timeout p :
  emits (AsyncSandbox._cls_resume id auto_pause timeout p)
        (all_calls (calls_only id)).
Proof. co_unfold. repeat co_step. Qed.

Lemma method_own (self : Session) A (c : M CP A) :
  method_call self A c -> emits c (all_calls (calls_only (_sandbox_id self))).
Proof.
  intros Hc w r w' E. destruct Hc.
  all: unfold Sandbox.is_running, Sandbox.kill, Sandbox.set_timeout, Sandbox.get_info,
         Sandbox.pause, Sandbox.get_metrics, AsyncSandbox.is_running,
         AsyncSandbox.kill, AsyncSandbox.set_timeout, AsyncSandbox.get_info,
         AsyncSandbox.pause, AsyncSandbox.get_metrics in E.
  all: unfold_api.
  all: minv.
  all: cbn [net].
  all: first [ exists []; split; [by rewrite app_nil_r | reflexivity]
             | eexists [_]; split; [reflexivity|];
               unfold all_calls; cbn [forallb calls_only];
               by rewrite ?calls_only_refl ].
Qed.

End OwnSandboxRuns.

Section Identity.
Context {CP : Type} `{Remote CP} `{SandboxSetup}.

Ltac by_sync_cls Hd :=
  match goal with
  | E : Sandbox.cls ?o (mkWorld ?cp ?n ?lg (?l ++ [?c0]) ?tr) = (Ok ?s, ?w')
    |- _sandbox_id ?s = ?id =>
      let Hi := fresh "Hi" in
      destruct (sync_cls_calls o id (length l) c0 _ s w' E eq_refl eq_refl)
        as [Hi _];
      [cbn [configs]; apply lookup_new | exact Hd | exact Hi]
  end.

Ltac by_async_init :=
  match goal with
  | E : AsyncSandbox.__init__ _ _ = (Ok ?s, _) |- _sandbox_id ?s = _ =>
      apply async_init_ok in E as (? & Hi & _); cbn [o_sandbox_id] in Hi;
      by injection Hi
  end.

Lemma sync_connect_identity id timeout p (w : World CP) s w' :
  default false (debug p) = false ->
  Sandbox._cls_connect id timeout p w = (Ok s, w') -> _sandbox_id s = id.
Proof.
  intros Hd E. unfold Sandbox._cls_connect in E.
  destruct (is_brd id) eqn:Hb; unfold_api; minv; by_sync_cls Hd.
Qed.

Lemma sync_resume_identity id auto_pause timeout p (w : World CP) s w' :
  default false (debug p) = false ->
  Sandbox._cls_resume id auto_pause timeout p w = (Ok s, w') -> _sandbox_id s = id.
Proof.
  intros Hd E. unfold Sandbox._cls_resume in E.
  destruct (is_brd id) eqn:Hb; unfold_api; minv; by_sync_cls Hd.
Qed.

Lemma async_connect_identity id timeout p (w : World CP) s w' :
  AsyncSandbox._cls_connect id timeout p w = (Ok s, w') -> _sandbox_id s = id.
Proof.
  intros E. unfold AsyncSandbox._cls_connect in E.
  destruct (is_brd id) eqn:Hb; unfold_api; minv; by_async_init.
Qed.

Lemma async_resume_identity id auto_pause timeout p (w : World CP) s w' :
  AsyncSandbox._cls_resume id auto_pause timeout p w = (Ok s, w') ->
  _sandbox_id s = id.
Proof.
  intros E. unfold AsyncSandbox._cls_resume in E.
  destruct (is_brd id) eqn:Hb; unfold_api; minv; by_async_init.
Qed.

End Identity.

(** X20. A run addresses one sandbox only.  Whatever the outcome,
    [connect] and [resume] of both controllers, called with an identity,
    make calls of the control plane for that identity alone and never
    create a sandbox; called on a session, they and every operation on
    the session ([is_running], [kill], [set_timeout], [get_info],
    [pause], [get_metrics]) make calls for the identity of the session
    alone; and so does the sync constructor when it is given an identity.
    The session that [connect] or [resume] returns has the identity that
    was passed (for the sync controller outside debug mode), whatever
    identity the answers of the control plane name. *)
Theorem X20_runs_address_their_own_sandbox
        {CP : Type} `{Remote CP} `{SandboxSetup} :
  (forall id timeout p,
      emits (Sandbox._cls_connect id timeout p) (all_calls (calls_only id))) /\
  (forall id auto_pause timeout p,
      emits (Sandbox._cls_resume id auto_pause timeout p)
            (all_calls (calls_only id))) /\
  (forall id timeout p,
      emits (AsyncSandbox._cls_connect id timeout p)
            (all_calls (calls_only id))) /\
  (forall id auto_pause timeout p,
      emits (AsyncSandbox._cls_resume id auto_pause timeout p)
            (all_calls (calls_only id))) /\
  (forall self timeout p,
      emits (Sandbox.connect self timeout p)
            (all_calls (calls_only (_sandbox_id self))) /\
      emits (AsyncSandbox.connect self timeout p)
            (all_calls (calls_only (_sandbox_id self)))) /\
  (forall self auto_pause timeout p,
      emits (Sandbox.resume self auto_pause timeout p)
            (all_calls (calls_only (_sandbox_id self))) /\
      emits (AsyncSandbox.resume self auto_pause timeout p)
            (all_calls (calls_only (_sandbox_id self)))) /\
  (forall self A (c : M CP A),
      method_call self A c ->
      emits c (all_calls (calls_only (_sandbox_id self)))) /\
  (forall template timeout metadata envs secure opts id,
      o_sandbox_id opts = Some id ->
      emits (Sandbox.__init__ template timeout metadata envs secure opts)
            (all_calls (calls_only id))) /\
  (forall id auto_pause timeout p (w : World CP) s w',
      (default false (debug p) = false ->
       Sandbox._cls_connect id timeout p w = (Ok s, w') \/
       Sandbox._cls_resume id auto_pause timeout p w = (Ok s, w') ->
       _sandbox_id s = id) /\
      (AsyncSandbox._cls_connect id timeout p w = (Ok s, w') \/
       AsyncSandbox._cls_resume id auto_pause timeout p w = (Ok s, w') ->
       _sandbox_id s = id)).
Proof.
  split; [exact sync_connect_own|]. split; [exact sync_resume_own|].
  split; [exact async_connect_own|]. split; [exact async_resume_own|].
  split; [intros; split; co_unfold; repeat co_step|].
  split; [intros; split; co_unfold; repeat co_step|].
  split; [exact method_own|]. split; [exact sync_init_own|].
  intros id auto_pause timeout p w s w'. split.
  - intros Hd [E | E];
      eauto using sync_connect_identity, sync_resume_identity.
  - intros [E | E];
      eauto using async_connect_identity, async_resume_identity.
Qed.

Lemma X20_runs_address_their_own_sandbox_witness :
  exists r w' new,
    Sandbox._cls_resume "sbx-1" true None key w0 = (r, w') /\
    net w' = net w0 ++ new /\
    forallb (calls_only "sbx-1") new = true.
Proof.
  destruct (Sandbox._cls_resume "sbx-1" true None key w0) as [r w'] eqn:E.
  destruct (proj1 (proj2 (X20_runs_address_their_own_sandbox
                            (CP := ControlPlane)))
                  "sbx-1" true None key w0 r w' E)
    as (new & Hnew & Hall).
  exists r, w', new. split; [reflexivity|]. split; [exact Hnew | exact Hall].
Defined.
